(** * Submission evaluation pipeline of [codalab/apps/web/tasks.py]

    A shallow embedding of the background tasks that drive a competition
    submission through prediction and scoring: the guarded status update
    ([_set_submission_status]), the two dispatchers ([predict], [score],
    [_prepare_compute_worker_run]) and the reconciliation of worker
    callbacks ([update_submission]).

    The Django tables are finite maps and lists held in a [World] record,
    the Python exceptions are values of [Exn], and every task is a
    function in a state-and-exception monad [M] over [World]. *)

From Stdlib Require Import ZArith QArith String Ascii List Bool Lia.
From stdpp Require Import gmap strings list fin_maps pretty.

Import ListNotations.
Local Open Scope Z_scope.
Local Open Scope string_scope.

(** ** Python strings *)

Module PyStr.

(** [s.split(sep)] for a one-character separator: [n] separators give
    [n + 1] pieces, empty ones included. *)
Fixpoint split (sep : ascii) (s : string) : list string :=
  match s with
  | EmptyString => [EmptyString]
  | String c rest =>
      if Ascii.eqb c sep then EmptyString :: split sep rest
      else match split sep rest with
           | [] => [String c EmptyString]
           | piece :: pieces => String c piece :: pieces
           end
  end.

(** The characters [str.strip()] removes: space, tab, line feed, vertical
    tab, form feed and carriage return. *)
Definition is_space (c : ascii) : bool :=
  let n := nat_of_ascii c in
  (Nat.eqb n 32 || (Nat.leb 9 n && Nat.leb n 13))%bool.

Fixpoint lstrip (s : string) : string :=
  match s with
  | EmptyString => EmptyString
  | String c rest => if is_space c then lstrip rest else s
  end.

Fixpoint rstrip (s : string) : string :=
  match s with
  | EmptyString => EmptyString
  | String c rest =>
      match rstrip rest with
      | EmptyString => if is_space c then EmptyString else String c EmptyString
      | kept => String c kept
      end
  end.

Definition strip (s : string) : string := rstrip (lstrip s).

(** [sep.join(pieces)]. *)
Fixpoint join (sep : string) (pieces : list string) : string :=
  match pieces with
  | [] => EmptyString
  | [piece] => piece
  | piece :: more => piece ++ sep ++ join sep more
  end.

Definition newline : ascii := ascii_of_nat 10.
Definition nl : string := String newline EmptyString.

(** The double quote, as a text. *)
Definition quote : string := String (ascii_of_nat 34) EmptyString.

(** [len(s) > 0]. *)
Definition nonempty (s : string) : bool :=
  match s with EmptyString => false | String _ _ => true end.

End PyStr.

(** ** Submission statuses *)

(** Modelled from the spec: the codenames of [CompetitionSubmissionStatus]
    ([apps.web.models] is not part of the sources); section 4.1 lists the
    five states of a submission. *)
Inductive CompetitionSubmissionStatus : Set :=
  | SUBMITTED
  | RUNNING
  | FINISHED
  | FAILED
  | CANCELLED.

#[global] Instance CompetitionSubmissionStatus_eq_dec :
  EqDecision CompetitionSubmissionStatus.
Proof. solve_decision. Defined.

(** [_FINAL_STATES]: the states which are final. *)
Definition _FINAL_STATES : list CompetitionSubmissionStatus :=
  [FINISHED; FAILED; CANCELLED].

(** [codename in _FINAL_STATES]. *)
Definition in_FINAL_STATES (codename : CompetitionSubmissionStatus) : bool :=
  bool_decide (codename ∈ _FINAL_STATES).

(** ** Data model *)

(** The file fields of a [CompetitionSubmission]. *)
Inductive FileField : Set :=
  | file
  | prediction_runfile
  | prediction_stdout_file
  | prediction_stderr_file
  | prediction_output_file
  | stdout_file
  | stderr_file
  | output_file
  | private_output_file
  | detailed_results_file
  | history_file
  | scores_file
  | coopetition_file
  | inputfile
  | runfile.

#[global] Instance FileField_eq_dec : EqDecision FileField.
Proof. solve_decision. Defined.

Definition FileField_index (f : FileField) : nat :=
  match f with
  | file => 0 | prediction_runfile => 1 | prediction_stdout_file => 2
  | prediction_stderr_file => 3 | prediction_output_file => 4
  | stdout_file => 5 | stderr_file => 6 | output_file => 7
  | private_output_file => 8 | detailed_results_file => 9
  | history_file => 10 | scores_file => 11 | coopetition_file => 12
  | inputfile => 13 | runfile => 14
  end%nat.

Definition FileField_of_index (n : nat) : FileField :=
  match n with
  | 0 => file | 1 => prediction_runfile | 2 => prediction_stdout_file
  | 3 => prediction_stderr_file | 4 => prediction_output_file
  | 5 => stdout_file | 6 => stderr_file | 7 => output_file
  | 8 => private_output_file | 9 => detailed_results_file
  | 10 => history_file | 11 => scores_file | 12 => coopetition_file
  | 13 => inputfile | _ => runfile
  end%nat.

#[global] Instance FileField_countable : Countable FileField.
Proof.
  refine (inj_countable' FileField_index FileField_of_index _).
  intros []; reflexivity.
Defined.

Record Queue : Type := { vhost : string }.

Record Competition : Type := {
  competition_pk : Z;
  title : string;
  absolute_url : string;
  queue : option Queue;
  force_submission_to_leaderboard : bool
}.

(** [execution_time_limit] is [None] when the column holds no number. The
    three data sets of a phase are given by the names of their files. *)
Record CompetitionPhase : Type := {
  phase_pk : Z;
  phasenumber : Z;
  competition : Competition;
  is_blind : bool;
  force_best_submission_to_leaderboard : bool;
  auto_migration : bool;
  execution_time_limit : option Z;
  input_data : string;
  reference_data : string;
  scoring_program : string
}.

Record User : Type := {
  username : string;
  email : string;
  email_on_submission_finished_successfully : bool
}.

Record Participant : Type := { participant_pk : Z; user : User }.

(** [execution_key] is kept as the JSON object its text denotes; the empty
    text, which the code reads as the empty state, is the empty map.
    [files] gives the [name] of each file field, absent meaning empty. *)
Record CompetitionSubmission : Type := {
  pk : Z;
  status : CompetitionSubmissionStatus;
  execution_key : gmap string Z;
  secret : string;
  docker_image : string;
  submission_number : Z;
  submitted_at : string;
  exception_details : string;
  s3_file : string;
  files : gmap FileField string;
  participant : Participant;
  phase : CompetitionPhase
}.

Definition name_of (submission : CompetitionSubmission) (f : FileField) : string :=
  default EmptyString (files submission !! f).

Definition with_status (s : CompetitionSubmissionStatus)
  (submission : CompetitionSubmission) : CompetitionSubmission :=
  {| pk := pk submission; status := s;
     execution_key := execution_key submission; secret := secret submission;
     docker_image := docker_image submission;
     submission_number := submission_number submission;
     submitted_at := submitted_at submission;
     exception_details := exception_details submission;
     s3_file := s3_file submission; files := files submission;
     participant := participant submission; phase := phase submission |}.

Definition with_execution_key (k : gmap string Z)
  (submission : CompetitionSubmission) : CompetitionSubmission :=
  {| pk := pk submission; status := status submission;
     execution_key := k; secret := secret submission;
     docker_image := docker_image submission;
     submission_number := submission_number submission;
     submitted_at := submitted_at submission;
     exception_details := exception_details submission;
     s3_file := s3_file submission; files := files submission;
     participant := participant submission; phase := phase submission |}.

Definition with_exception_details (d : string)
  (submission : CompetitionSubmission) : CompetitionSubmission :=
  {| pk := pk submission; status := status submission;
     execution_key := execution_key submission; secret := secret submission;
     docker_image := docker_image submission;
     submission_number := submission_number submission;
     submitted_at := submitted_at submission;
     exception_details := d;
     s3_file := s3_file submission; files := files submission;
     participant := participant submission; phase := phase submission |}.

Definition with_files (fs : gmap FileField string)
  (submission : CompetitionSubmission) : CompetitionSubmission :=
  {| pk := pk submission; status := status submission;
     execution_key := execution_key submission; secret := secret submission;
     docker_image := docker_image submission;
     submission_number := submission_number submission;
     submitted_at := submitted_at submission;
     exception_details := exception_details submission;
     s3_file := s3_file submission; files := fs;
     participant := participant submission; phase := phase submission |}.

(** A scoring definition: a named metric of a competition with its sort
    order, ['asc'] or ['desc']. *)
Record SubmissionScoreDef : Type := {
  scoredef_pk : Z;
  scoredef_competition : Z;
  key : string;
  sorting : string;
  ordering : Z
}.

(** A measured value: [result] is the submission and [scoredef] the
    definition, both by primary key. Values are the finite floating-point
    numbers, read as the rationals they denote. *)
Record SubmissionScore : Type := {
  result : Z;
  scoredef : Z;
  value : Q
}.

Record Job : Type := { task_type : string; task_args_submission_id : Z }.

Record CompetitionSubmissionMetadata : Type := {
  metadata_submission : Z;
  is_predict : bool;
  is_scoring : bool;
  metadata_fields : gmap string string
}.

(** What a stored file holds: plain bytes, or a zip archive given by its
    text members. *)
Inductive Content : Type :=
  | Bytes (text : string)
  | ZipArchive (members : gmap string string).

(** The [task_args] of the envelope handed to a compute worker. *)
Record TaskArgs : Type := {
  ta_submission_id : Z;
  ta_docker_image : string;
  ta_bundle_url : string;
  ta_stdout_url : string;
  ta_stderr_url : string;
  ta_output_url : string;
  ta_detailed_results_url : string;
  ta_private_output_url : string;
  ta_secret : string;
  ta_execution_time_limit : option Z;
  ta_predict : bool
}.

Record Envelope : Type := {
  envelope_id : Z;
  envelope_task_type : string;
  task_args : TaskArgs
}.

(** One [compute_worker_run.apply_async] call: the envelope, the soft time
    limit and the virtual host of the connection, if one was opened. *)
Record Published : Type := {
  data : Envelope;
  soft_time_limit : option Z;
  connection_vhost : option string
}.

Record Mail : Type := {
  mail_subject : string;
  mail_body : string;
  mail_from : string;
  mail_to : list string
}.

Inductive Level : Set := INFO | WARNING | ERROR | EXCEPTION.

Inductive LogArg : Type :=
  | ArgStr (s : string)
  | ArgInt (z : Z)
  | ArgStatus (codename : CompetitionSubmissionStatus).

(** A record of the module logger: level, format and arguments. Records
    of level debug are not kept. *)
Record LogRecord : Type := {
  level : Level;
  format : string;
  log_args : list LogArg
}.

(** The collaborators a task reaches over the network; the listed
    [outages] of a world are the ones whose calls raise. *)
Inductive Service : Set := Broker | Storage | Leaderboard | Mailer.

#[global] Instance Service_eq_dec : EqDecision Service.
Proof. solve_decision. Defined.

Record World : Type := {
  submissions : gmap Z CompetitionSubmission;
  jobs : gmap Z Job;
  scoredefs : list SubmissionScoreDef;
  scores : list SubmissionScore;
  leaderboard : gset Z;
  metadata : list CompetitionSubmissionMetadata;
  storage : gmap string Content;
  compute_worker_queue : list Published;
  outbox : list Mail;
  log : list LogRecord;
  outages : list Service
}.

Definition with_submissions (x : gmap Z CompetitionSubmission) (w : World) : World :=
  {| submissions := x; jobs := jobs w; scoredefs := scoredefs w;
     scores := scores w; leaderboard := leaderboard w; metadata := metadata w;
     storage := storage w; compute_worker_queue := compute_worker_queue w;
     outbox := outbox w; log := log w; outages := outages w |}.

Definition with_scores (x : list SubmissionScore) (w : World) : World :=
  {| submissions := submissions w; jobs := jobs w; scoredefs := scoredefs w;
     scores := x; leaderboard := leaderboard w; metadata := metadata w;
     storage := storage w; compute_worker_queue := compute_worker_queue w;
     outbox := outbox w; log := log w; outages := outages w |}.

Definition with_leaderboard (x : gset Z) (w : World) : World :=
  {| submissions := submissions w; jobs := jobs w; scoredefs := scoredefs w;
     scores := scores w; leaderboard := x; metadata := metadata w;
     storage := storage w; compute_worker_queue := compute_worker_queue w;
     outbox := outbox w; log := log w; outages := outages w |}.

Definition with_metadata (x : list CompetitionSubmissionMetadata) (w : World) : World :=
  {| submissions := submissions w; jobs := jobs w; scoredefs := scoredefs w;
     scores := scores w; leaderboard := leaderboard w; metadata := x;
     storage := storage w; compute_worker_queue := compute_worker_queue w;
     outbox := outbox w; log := log w; outages := outages w |}.

Definition with_storage (x : gmap string Content) (w : World) : World :=
  {| submissions := submissions w; jobs := jobs w; scoredefs := scoredefs w;
     scores := scores w; leaderboard := leaderboard w; metadata := metadata w;
     storage := x; compute_worker_queue := compute_worker_queue w;
     outbox := outbox w; log := log w; outages := outages w |}.

Definition with_compute_worker_queue (x : list Published) (w : World) : World :=
  {| submissions := submissions w; jobs := jobs w; scoredefs := scoredefs w;
     scores := scores w; leaderboard := leaderboard w; metadata := metadata w;
     storage := storage w; compute_worker_queue := x;
     outbox := outbox w; log := log w; outages := outages w |}.

Definition with_outbox (x : list Mail) (w : World) : World :=
  {| submissions := submissions w; jobs := jobs w; scoredefs := scoredefs w;
     scores := scores w; leaderboard := leaderboard w; metadata := metadata w;
     storage := storage w; compute_worker_queue := compute_worker_queue w;
     outbox := x; log := log w; outages := outages w |}.

Definition with_log (x : list LogRecord) (w : World) : World :=
  {| submissions := submissions w; jobs := jobs w; scoredefs := scoredefs w;
     scores := scores w; leaderboard := leaderboard w; metadata := metadata w;
     storage := storage w; compute_worker_queue := compute_worker_queue w;
     outbox := outbox w; log := x; outages := outages w |}.

Definition is_up (s : Service) (w : World) : bool :=
  bool_decide (s ∉ outages w).

(** The stored status of a submission, if the row exists. *)
Definition status_of (w : World) (submission_id : Z)
  : option CompetitionSubmissionStatus :=
  status <$> submissions w !! submission_id.

(** The stored execution key of a submission, if the row exists. *)
Definition stored_execution_key (w : World) (submission_id : Z)
  : option (gmap string Z) :=
  execution_key <$> submissions w !! submission_id.

(** ** Exceptions and the task monad *)

Inductive Exn : Type :=
  | ValueError (message : string)
  | AttributeError (message : string)
  | IOError (message : string)
  | BadZipfile
  | ConnectionError
  | SMTPException
  | DatabaseError
  | CompetitionSubmission_DoesNotExist
  | SubmissionScoreDef_DoesNotExist
  | MultipleObjectsReturned
  | SubmissionUpdateException (submission : CompetitionSubmission)
                              (inner_exception : Exn).

Inductive Outcome (A : Type) : Type :=
  | Return (a : A)
  | Raise (e : Exn).

Arguments Return {A} a.
Arguments Raise {A} e.

(** A task runs on a world and leaves a world behind, whether it returns or
    raises: what was saved before an exception stays saved. *)
Definition M (A : Type) : Type := World -> Outcome A * World.

Definition ret {A} (a : A) : M A := fun w => (Return a, w).

Definition raise {A} (e : Exn) : M A := fun w => (Raise e, w).

Definition bind {A B} (c : M A) (k : A -> M B) : M B :=
  fun w =>
    match c w with
    | (Return a, w') => k a w'
    | (Raise e, w') => (Raise e, w')
    end.

Notation "'let*' x ':=' c 'in' k" := (bind c (fun x => k))
  (at level 10, x name, c at level 100, k at level 200).
Notation "c ';;' k" := (bind c (fun _ => k))
  (at level 100, k at level 200, right associativity).

(** [try: c except <the classes h accepts>: h]: an exception [h] does not
    accept goes on. *)
Definition try_except {A} (c : M A) (h : Exn -> option (M A)) : M A :=
  fun w =>
    match c w with
    | (Return a, w') => (Return a, w')
    | (Raise e, w') =>
        match h e with
        | Some handler => handler w'
        | None => (Raise e, w')
        end
    end.

(** [except Exception:] accepts every exception. *)
Definition except_Exception {A} (handler : Exn -> M A) : Exn -> option (M A) :=
  fun e => Some (handler e).

Definition gets {A} (f : World -> A) : M A := fun w => (Return (f w), w).

Definition modify (f : World -> World) : M unit := fun w => (Return tt, f w).

(** A call to a collaborator, which raises during an outage. *)
Definition calling (s : Service) (e : Exn) : M unit :=
  fun w => if is_up s w then (Return tt, w) else (Raise e, w).

Fixpoint for_each {A} (body : A -> M unit) (items : list A) : M unit :=
  match items with
  | [] => ret tt
  | item :: rest => body item ;; for_each body rest
  end.

(** The world a task leaves, and its outcome. *)
Definition exec {A} (c : M A) (w : World) : World := snd (c w).
Definition eval {A} (c : M A) (w : World) : Outcome A := fst (c w).

Definition logger (l : Level) (fmt : string) (a : list LogArg) : M unit :=
  modify (fun w => with_log (log w ++ [{| level := l; format := fmt; log_args := a |}])%list w).

(** ** The guarded status update *)

(** [CompetitionSubmission.objects.get(pk=submission_id)]. *)
Definition CompetitionSubmission_get (submission_id : Z) : M CompetitionSubmission :=
  fun w =>
    match submissions w !! submission_id with
    | Some submission => (Return submission, w)
    | None => (Raise CompetitionSubmission_DoesNotExist, w)
    end.

(** [submission.save()]: the row takes every field of the object. *)
Definition save (submission : CompetitionSubmission) : M unit :=
  modify (fun w =>
    with_submissions (<[pk submission := submission]> (submissions w)) w).

Definition _set_submission_status (submission_id : Z)
  (status_codename : CompetitionSubmissionStatus) : M unit :=
  let* submission := CompetitionSubmission_get submission_id in
  let old_status_codename := status submission in
  if negb (in_FINAL_STATES old_status_codename) then
    save (with_status status_codename submission) ;;
    logger INFO "Changed submission status from %s to %s (id=%s)."
      [ArgStatus old_status_codename; ArgStatus status_codename;
       ArgInt submission_id]
  else
    logger INFO
      "Skipping update of submission status: invalid transition %s -> %s  (id=%s)."
      [ArgStatus status_codename; ArgStatus old_status_codename;
       ArgInt submission_id].

(** Every row of the submission table is stored under its primary key. *)
Definition keyed_by_pk (w : World) : Prop :=
  map_Forall (fun submission_id submission => pk submission = submission_id)
             (submissions w).

(** ** Python 2 comparisons and formatting *)

(** [limit <= 0]: in Python 2 [None] is below every number. *)
Definition le_zero (limit : option Z) : bool :=
  match limit with
  | None => true
  | Some n => (n <=? 0)%Z
  end.

(** [a >= b] and [a <= b] where [a] may be [None]. *)
Definition py_ge (a : option Q) (b : Q) : bool :=
  match a with
  | None => false
  | Some x => Qle_bool b x
  end.

Definition py_le (a : option Q) (b : Q) : bool :=
  match a with
  | None => true
  | Some x => Qle_bool x b
  end.

(** ["%s" % flag]. *)
Definition str_of_bool (flag : bool) : string :=
  if flag then "True" else "False".

(** The least and the greatest of a list of values; [None] on no values,
    as [first()] and [last()] of an empty query. *)
Fixpoint minimum (values : list Q) : option Q :=
  match values with
  | [] => None
  | v :: rest =>
      match minimum rest with
      | None => Some v
      | Some m => Some (if Qle_bool v m then v else m)
      end
  end.

Fixpoint maximum (values : list Q) : option Q :=
  match values with
  | [] => None
  | v :: rest =>
      match maximum rest with
      | None => Some v
      | Some m => Some (if Qle_bool m v then v else m)
      end
  end.

(** [items.append(item)]. *)
Definition append {A} (items : list A) (item : A) : list A :=
  (items ++ [item])%list.

(** The status a job reports. *)
Inductive JobStatus : Set := Job_RUNNING | Job_FINISHED | Job_FAILED.

Record JobTaskResult : Type := { job_status : option JobStatus }.

(** The [extra] item of a callback and the callback arguments. *)
Record Extra : Type := {
  traceback : option string;
  extra_metadata : option (gmap string string)
}.

Record CallbackArgs : Type := {
  args_status : string;
  extra : option Extra
}.

(** What [SubmissionUpdateException] is built from: an exception, or, at
    the secret check, a plain text. *)
Inductive PyObject : Type :=
  | PyText (text : string)
  | PyException (e : Exn).

(** ** Specifications of tasks *)

(** [triple P c Q E]: from a world in [P], the task [c] ends in [Q] when
    it returns and in [E] when it raises. *)
Definition triple {A} (P : World -> Prop) (c : M A)
  (Q : A -> World -> Prop) (E : Exn -> World -> Prop) : Prop :=
  forall w, P w ->
    match c w with
    | (Return a, w') => Q a w'
    | (Raise e, w') => E e w'
    end.

(** [keeps I c]: the task [c] maintains [I], however it ends. *)
Definition keeps {A} (I : World -> Prop) (c : M A) : Prop :=
  triple I c (fun _ => I) (fun _ => I).

(** The status a guarded update leaves, given the status it finds. *)
Definition latch (old target : CompetitionSubmissionStatus)
  : CompetitionSubmissionStatus :=
  if in_FINAL_STATES old then old else target.

(** The tables a dispatch leaves alone: rows under their keys, the jobs,
    the queue of the compute workers and the outages. *)
Definition site_is (js : gmap Z Job) (q : list Published) (o : list Service)
  (w : World) : Prop :=
  keyed_by_pk w /\ jobs w = js /\ compute_worker_queue w = q /\ outages w = o.

(** The stored row of a submission satisfies [P]. *)
Definition row_has (submission_id : Z) (P : CompetitionSubmission -> Prop)
  (w : World) : Prop :=
  exists row, submissions w !! submission_id = Some row /\ P row.

(** The status a sequence of guarded updates leaves. *)
Definition latch_all (old : CompetitionSubmissionStatus)
  (targets : list CompetitionSubmissionStatus) : CompetitionSubmissionStatus :=
  fold_left latch targets old.

(** ** The signed access provider *)

Module SignedAccess.

(** [s] without a leading [prefix], when it starts with it. *)
Fixpoint drop_prefix (prefix s : string) : option string :=
  match prefix, s with
  | EmptyString, _ => Some s
  | String a p, String b r => if Ascii.eqb a b then drop_prefix p r else None
  | String _ _, EmptyString => None
  end.

(** What follows the first occurrence of [sep] in [s]. *)
Fixpoint after_first (sep s : string) : option string :=
  match drop_prefix sep s with
  | Some rest => Some rest
  | None =>
      match s with
      | EmptyString => None
      | String _ r => after_first sep r
      end
  end.

(** [sep in s]. *)
Definition contains (sep s : string) : bool :=
  match after_first sep s with
  | Some _ => true
  | None => false
  end.

(** [s.split(sep)[-1]] for a separator that is not empty: what follows
    the last occurrence found reading from the left; the fuel bounds the
    number of occurrences. *)
Fixpoint last_piece (fuel : nat) (sep s : string) : string :=
  match fuel with
  | O => s
  | S n =>
      match after_first sep s with
      | Some rest => last_piece n sep rest
      | None => s
      end
  end.

(** [s.replace(a, b)] for one-character texts. *)
Fixpoint replace_char (a b : ascii) (s : string) : string :=
  match s with
  | EmptyString => EmptyString
  | String c r => String (if Ascii.eqb c a then b else c) (replace_char a b r)
  end.

Section Backends.

Variable USE_AWS : bool.
Variable AWS_STORAGE_PRIVATE_BUCKET_NAME : string.
Variable BUNDLE_AZURE_ACCOUNT_NAME : string.
Variable BUNDLE_AZURE_ACCOUNT_KEY : string.
Variable BUNDLE_AZURE_CONTAINER : string.

(** [BundleStorage.connection.generate_url(expires_in, method, bucket,
    key, query_auth=True)] and [make_blob_sas_url(account_name,
    account_key, container, path, permission, duration)]. *)
Variable generate_url : Z -> string -> string -> string -> string.
Variable make_blob_sas_url :
  string -> string -> string -> string -> string -> Z -> string.

Definition _make_url_sassy (path permission : string) (duration : Z)
  : Outcome string :=
  if USE_AWS then
    let method :=
      if String.eqb permission "r" then "GET"
      else if String.eqb permission "w" then "PUT"
      else "GET" in
    (* Remove the beginning of the URL (before bucket name) *)
    match AWS_STORAGE_PRIVATE_BUCKET_NAME with
    | EmptyString => Raise (ValueError "empty separator")
    | _ =>
        let path :=
          last_piece (String.length path) AWS_STORAGE_PRIVATE_BUCKET_NAME path in
        (* Spaces replaced with +'s, so we have to replace those... *)
        let path := replace_char "+" " " path in
        Return (generate_url duration method AWS_STORAGE_PRIVATE_BUCKET_NAME path)
    end
  else
    let sassy_url :=
      make_blob_sas_url BUNDLE_AZURE_ACCOUNT_NAME BUNDLE_AZURE_ACCOUNT_KEY
        BUNDLE_AZURE_CONTAINER path permission duration in
    if negb (contains "<Code>InvalidUri</Code>" sassy_url)
    then Return sassy_url
    else Return EmptyString.

End Backends.

End SignedAccess.

(** ** A small competition, for running the tasks *)

Module Fixture.

(** The decimal literals of [float]: an optional sign, digits and at most
    one point, blanks around; every other text is refused here. *)
Definition digit (c : ascii) : option Z :=
  let n := nat_of_ascii c in
  if (Nat.leb 48 n && Nat.leb n 57)%bool then Some (Z.of_nat (n - 48)) else None.

Fixpoint digits (s : string) (acc : Z) : option Z :=
  match s with
  | EmptyString => Some acc
  | String c rest =>
      match digit c with
      | Some d => digits rest (10 * acc + d)
      | None => None
      end
  end.

Fixpoint pow10 (n : nat) : positive :=
  match n with
  | O => 1
  | S k => 10 * pow10 k
  end%positive.

Definition unsigned_decimal (s : string) : option Q :=
  match PyStr.split "." s with
  | [whole] =>
      if PyStr.nonempty whole then (fun n => inject_Z n) <$> digits whole 0
      else None
  | [whole; part] =>
      if (PyStr.nonempty whole || PyStr.nonempty part)%bool then
        (fun n => Qmake n (pow10 (String.length part)))
          <$> digits (whole ++ part) 0
      else None
  | _ => None
  end.

Definition float (text : string) : option Q :=
  match PyStr.strip text with
  | String "-" rest => Qopp <$> unsigned_decimal rest
  | String "+" rest => unsigned_decimal rest
  | s => unsigned_decimal s
  end.

Definition USE_AWS : bool := false.
Definition DOCKER_DEFAULT_WORKER_IMAGE : string := "codalab/default".
Definition DEFAULT_FROM_EMAIL : string := "noreply@example.org".
Definition site_domain : string := "example.org".

Definition _make_url_sassy (path permission : string) : string :=
  "https://store/" ++ path ++ "?sp=" ++ permission.

Definition upload_to (f : FileField) (submission : CompetitionSubmission)
  (name : string) : string :=
  "submission/" ++ pretty (pk submission) ++ "/"
    ++ pretty (FileField_index f) ++ "/" ++ name.

Definition get_results_csv (w : World) (phase_id : Z) : string := EmptyString.

Definition coopetition_zip (w : World) (submission : CompetitionSubmission)
  : Content := ZipArchive ∅.

(** Modelled from the spec: [get_default_score_def] ([apps.web.models] is
    not part of the sources), the designated default score definition of
    the submission: of the definitions of its competition, the one of the
    lowest ordering. *)
Fixpoint lowest_ordering (defs : list SubmissionScoreDef)
  : option SubmissionScoreDef :=
  match defs with
  | [] => None
  | d :: rest =>
      match lowest_ordering rest with
      | None => Some d
      | Some best => Some (if (ordering d <=? ordering best)%Z then d else best)
      end
  end.

Definition get_default_score_def (w : World)
  (submission : CompetitionSubmission) : Outcome (option SubmissionScoreDef) :=
  Return (lowest_ordering
            (List.filter
               (fun d => (scoredef_competition d
                          =? competition_pk (competition (phase submission)))%Z)
               (scoredefs w))).

(** Modelled from the spec: [get_default_score], the value recorded for
    the submission under its default score definition. *)
Definition get_default_score (w : World) (submission : CompetitionSubmission)
  : Outcome (option Q) :=
  match get_default_score_def w submission with
  | Return (Some d) =>
      Return (value <$>
                List.find (fun row => (result row =? pk submission)%Z
                                      && (scoredef row =? scoredef_pk d)%Z)
                          (scores w))
  | _ => Return None
  end.

Definition a_competition : Competition :=
  {| competition_pk := 1; title := "Digits"; absolute_url := "/competitions/1";
     queue := None; force_submission_to_leaderboard := false |}.

(** A phase that forces the best submission to the leaderboard. *)
Definition a_phase : CompetitionPhase :=
  {| phase_pk := 1; phasenumber := 1; competition := a_competition;
     is_blind := false; force_best_submission_to_leaderboard := true;
     auto_migration := false; execution_time_limit := Some 0;
     input_data := EmptyString; reference_data := "reference.zip";
     scoring_program := "scoring.zip" |}.

Definition alice : Participant :=
  {| participant_pk := 1;
     user := {| username := "alice"; email := "alice@example.org";
                email_on_submission_finished_successfully := true |} |}.

Definition bob : Participant :=
  {| participant_pk := 2;
     user := {| username := "bob"; email := "bob@example.org";
                email_on_submission_finished_successfully := false |} |}.

(** A submission of a given key, status and execution key. *)
Definition a_submission (id : Z) (who : Participant)
  (st : CompetitionSubmissionStatus) (k : gmap string Z)
  : CompetitionSubmission :=
  {| pk := id; status := st; execution_key := k; secret := "s3cr3t";
     docker_image := EmptyString; submission_number := id;
     submitted_at := "2016-05-04T10:00:00"; exception_details := EmptyString;
     s3_file := EmptyString;
     files := {[ file := "upload.zip"; output_file := "out.zip" ]};
     participant := who; phase := a_phase |}.

Definition accuracy (order : string) : SubmissionScoreDef :=
  {| scoredef_pk := 1; scoredef_competition := 1; key := "accuracy";
     sorting := order; ordering := 1 |}.

(** Bob's finished submission 1 holds the score 3 (or any [best]); Alice's
    submission 2 is running its scoring step as job 20, and the worker has
    stored an archive with the given scores.txt. *)
Definition a_world (order : string) (best : Q) (scores_txt : option string)
  (down : list Service) : World :=
  {| submissions :=
       {[ 1 := a_submission 1 bob FINISHED {[ "score" := 10 ]};
          2 := a_submission 2 alice RUNNING {[ "score" := 20 ]} ]};
     jobs := {[ 20 := {| task_type := "evaluate_submission";
                         task_args_submission_id := 2 |} ]};
     scoredefs := [accuracy order];
     scores := [{| result := 1; scoredef := 1; value := best |}];
     leaderboard := {[ 1 ]};
     metadata := [];
     storage :=
       {[ "out.zip" :=
            ZipArchive (match scores_txt with
                        | Some text => {[ "scores.txt" := text ]}
                        | None => ∅
                        end) ]};
     compute_worker_queue := [];
     outbox := [];
     log := [];
     outages := down |}.

Definition finished : CallbackArgs :=
  {| args_status := "finished"; extra := None |}.


(** A world whose only submission is the given one, named by job 20. *)
Definition a_world_of (submission : CompetitionSubmission)
  (down : list Service) : World :=
  {| submissions := {[ pk submission := submission ]};
     jobs := {[ 20 := {| task_type := "evaluate_submission";
                         task_args_submission_id := pk submission |} ]};
     scoredefs := [accuracy "asc"];
     scores := [];
     leaderboard := ∅;
     metadata := [];
     storage := ∅;
     compute_worker_queue := [];
     outbox := [];
     log := [];
     outages := down |}.

(** A submission whose prediction step, run as job 20, has stored its
    output. *)
Definition a_predicted_submission : CompetitionSubmission :=
  with_files {[ file := "upload.zip"; prediction_output_file := "predicted.zip" ]}
    (a_submission 3 alice RUNNING {[ "predict" := 20 ]}).

(** A submission that names no file at all. *)
Definition a_bare_submission : CompetitionSubmission :=
  with_files ∅ (a_submission 3 alice SUBMITTED ∅).

(** The job table numbers a new row after the highest key it holds. *)
Definition new_job_pk (w : World) : Z :=
  1 + map_fold (fun job_id _ highest => Z.max job_id highest) 0 (jobs w).

(** The task that the scoring step of submission 2 has published as job
    20. *)
Definition an_envelope : Envelope :=
  {| envelope_id := 20; envelope_task_type := "run";
     task_args :=
       {| ta_submission_id := 2; ta_docker_image := DOCKER_DEFAULT_WORKER_IMAGE;
          ta_bundle_url := "run.txt"; ta_stdout_url := "stdout.txt";
          ta_stderr_url := "stderr.txt"; ta_output_url := "out.zip";
          ta_detailed_results_url := "detailed_results.html";
          ta_private_output_url := "private_output.zip";
          ta_secret := "s3cr3t"; ta_execution_time_limit := Some 0;
          ta_predict := false |} |}.

(** A 'running' callback. *)
Definition running : CallbackArgs :=
  {| args_status := "running"; extra := None |}.

(** Three submissions of the phase, the second with the file of the
    first. *)
Definition a_phase_of_submissions : list CompetitionSubmission :=
  [ a_submission 1 bob FINISHED {[ "score" := 10 ]};
    a_submission 2 alice RUNNING {[ "score" := 20 ]};
    with_files {[ file := "other.zip" ]} (a_submission 3 alice SUBMITTED ∅) ].

End Fixture.

(** ** The tasks *)

Section Tasks.

(** Settings. *)
Variable USE_AWS : bool.
Variable DOCKER_DEFAULT_WORKER_IMAGE : string.
Variable DEFAULT_FROM_EMAIL : string.

(** The domain of the current site. *)
Variable site_domain : string.

(** [_make_url_sassy(path, permission)], the signed URL of a stored path
    for reading (['r']) or writing (['w']); what the storage backends
    answer is taken as given. *)
Variable _make_url_sassy : string -> string -> string.

(** The path the storage gives to a file saved under a name in a field. *)
Variable upload_to : FileField -> CompetitionSubmission -> string -> string.

(** [competition.get_results_csv(phase_pk)] and the coopetition archive
    that [score] assembles from the tables, both read off the world. *)
Variable get_results_csv : World -> Z -> string.
Variable coopetition_zip : World -> CompetitionSubmission -> Content.

(** The built-in [float]: [None] where it raises [ValueError]. *)
Variable float : string -> option Q.

(** [submission.get_default_score_def()] and
    [submission.get_default_score()] read the tables; each returns an
    object, [None], or raises. *)
Variable get_default_score_def :
  World -> CompetitionSubmission -> Outcome (option SubmissionScoreDef).
Variable get_default_score :
  World -> CompetitionSubmission -> Outcome (option Q).

(** [field.save(name, content)]: the storage takes the content, the field
    takes the stored path, and the object is saved. *)
Definition FieldFile_save (f : FileField) (submission : CompetitionSubmission)
  (name : string) (content : Content) : M CompetitionSubmission :=
  calling Storage (IOError "storage") ;;
  let path := upload_to f submission name in
  let submission := with_files (<[f := path]> (files submission)) submission in
  modify (fun w => with_storage (<[path := content]> (storage w)) w) ;;
  save submission ;;
  ret submission.

(** [compute_worker_run.apply_async((data,), soft_time_limit=..)]. *)
Definition apply_async (d : Envelope) (limit : option Z)
  (connection : option string) : M unit :=
  calling Broker ConnectionError ;;
  modify (fun w =>
    with_compute_worker_queue
      (append (compute_worker_queue w)
         {| data := d; soft_time_limit := limit;
            connection_vhost := connection |}) w).

Definition _prepare_compute_worker_run (job_id : Z)
  (submission : CompetitionSubmission) (is_prediction : bool) : M unit :=
  let '(bundle_url, stdout, stderr, output) :=
    if is_prediction then
      (name_of submission prediction_runfile,
       name_of submission prediction_stdout_file,
       name_of submission prediction_stderr_file,
       name_of submission prediction_output_file)
    else
      (name_of submission runfile,
       name_of submission stdout_file,
       name_of submission stderr_file,
       name_of submission output_file) in
  let d :=
    {| envelope_id := job_id;
       envelope_task_type := "run";
       task_args :=
         {| ta_submission_id := pk submission;
            ta_docker_image :=
              if PyStr.nonempty (docker_image submission)
              then docker_image submission
              else DOCKER_DEFAULT_WORKER_IMAGE;
            ta_bundle_url := _make_url_sassy bundle_url "r";
            ta_stdout_url := _make_url_sassy stdout "w";
            ta_stderr_url := _make_url_sassy stderr "w";
            ta_output_url := _make_url_sassy output "w";
            ta_detailed_results_url :=
              _make_url_sassy (name_of submission detailed_results_file) "w";
            ta_private_output_url :=
              _make_url_sassy (name_of submission private_output_file) "w";
            ta_secret := secret submission;
            ta_execution_time_limit := execution_time_limit (phase submission);
            ta_predict := is_prediction |} |} in
  logger INFO "Passing task args to compute worker: %s" [] ;;
  let default_time_limit := execution_time_limit (phase submission) in
  let default_time_limit :=
    if le_zero default_time_limit then Some (60 * 10) else default_time_limit in
  match queue (competition (phase submission)) with
  | Some q => apply_async d default_time_limit (Some (vhost q))
  | None => apply_async d default_time_limit None
  end.

Definition filler (stream : string) (submission : CompetitionSubmission)
  : list string :=
  ["Standard " ++ stream ++ " for submission #"
     ++ pretty (submission_number submission) ++ " by "
     ++ username (user (participant submission)) ++ ".";
   EmptyString].

Definition ContentFile (text : string) : Content := Bytes text.

(** The program of a submission: [s3_file] or [file.name], by the
    [USE_AWS] setting. *)
Definition uploaded_file (submission : CompetitionSubmission) : string :=
  if USE_AWS then s3_file submission else name_of submission file.

Definition predict (submission : CompetitionSubmission) (job_id : Z)
  : M CompetitionSubmission :=
  let lines := [] in
  let program_value := uploaded_file submission in
  let* lines :=
    if PyStr.nonempty program_value
    then ret (append lines ("program: " ++ _make_url_sassy program_value "r"))
    else raise (ValueError "Program is missing.") in
  let stdout_filler := filler "output" submission in
  let* submission := FieldFile_save stdout_file submission "stdout.txt"
                       (ContentFile (PyStr.join PyStr.nl stdout_filler)) in
  let* submission := FieldFile_save prediction_stdout_file submission
                       "prediction_stdout_file.txt"
                       (ContentFile (PyStr.join PyStr.nl stdout_filler)) in
  let stderr_filler := filler "error" submission in
  let* submission := FieldFile_save stderr_file submission "stderr.txt"
                       (ContentFile (PyStr.join PyStr.nl stderr_filler)) in
  let* submission := FieldFile_save prediction_stderr_file submission
                       "prediction_stderr_file.txt"
                       (ContentFile (PyStr.join PyStr.nl stderr_filler)) in
  let* submission := FieldFile_save prediction_output_file submission
                       "output.zip" (ContentFile EmptyString) in
  let input_value := input_data (phase submission) in
  logger INFO "Running prediction" [] ;;
  let lines :=
    if PyStr.nonempty input_value
    then append lines ("input: " ++ _make_url_sassy input_value "r")
    else lines in
  let lines := append lines ("stdout: " ++ _make_url_sassy
                           (name_of submission prediction_stdout_file) "w") in
  let lines := append lines ("stderr: " ++ _make_url_sassy
                           (name_of submission prediction_stderr_file) "w") in
  let* submission := FieldFile_save prediction_runfile submission "run.txt"
                       (ContentFile (PyStr.join PyStr.nl lines)) in
  (* Store workflow state *)
  let submission := with_execution_key {["predict" := job_id]} submission in
  save submission ;;
  (* Submit the request to the computation service *)
  _prepare_compute_worker_run job_id submission true ;;
  (* Update the submission object *)
  _set_submission_status (pk submission) SUBMITTED ;;
  ret submission.

(** [CompetitionSubmission.objects.filter(phase=.., participant=..).count()]. *)
Definition submissions_this_phase (submission : CompetitionSubmission)
  (w : World) : nat :=
  size (filter (fun row : Z * CompetitionSubmission =>
                  phase_pk (phase row.2) = phase_pk (phase submission)
                  /\ participant_pk (participant row.2)
                     = participant_pk (participant submission))
               (submissions w)).

(** The results a scoring step reads: the output of the prediction step
    when there was one, the uploaded file otherwise. *)
Definition results_of (submission : CompetitionSubmission)
  (has_generated_predictions : bool) : string :=
  if USE_AWS then
    if has_generated_predictions
    then name_of submission prediction_output_file
    else s3_file submission
  else
    if has_generated_predictions
    then name_of submission prediction_output_file
    else name_of submission file.

Definition score (submission : CompetitionSubmission) (job_id : Z)
  : M CompetitionSubmission :=
  (* Loads the computation state. *)
  let state := execution_key submission in
  let has_generated_predictions := bool_decide (is_Some (state !! "predict")) in
  let lines : list string := [] in
  let* submission := FieldFile_save history_file submission "history.txt"
                       (ContentFile (PyStr.join PyStr.nl lines)) in
  let* score_csv :=
    gets (fun w => get_results_csv w (phase_pk (phase submission))) in
  let* submission := FieldFile_save scores_file submission "scores.txt"
                       (ContentFile score_csv) in
  (* Extra submission info *)
  let* archive := gets (fun w => coopetition_zip w submission) in
  let* submission := FieldFile_save coopetition_file submission
                       "coopetition.zip" archive in
  (* The bundle describing the inputs. *)
  let lines : list string := [] in
  let ref_value := reference_data (phase submission) in
  let lines :=
    if PyStr.nonempty ref_value
    then append lines ("ref: " ++ _make_url_sassy ref_value "r")
    else lines in
  let res_value := results_of submission has_generated_predictions in
  let* lines :=
    if PyStr.nonempty res_value
    then ret (append lines ("res: " ++ _make_url_sassy res_value "r"))
    else raise (ValueError "Results are missing.") in
  let lines := append lines ("history: " ++ _make_url_sassy
                           (name_of submission history_file) "r") in
  let lines := append lines ("scores: " ++ _make_url_sassy
                           (name_of submission scores_file) "r") in
  let lines := append lines ("coopetition: " ++ _make_url_sassy
                           (name_of submission coopetition_file) "r") in
  let lines := append lines ("submitted-by: "
                           ++ username (user (participant submission))) in
  let lines := append lines ("submitted-at: " ++ submitted_at submission) in
  let lines := append lines ("competition-submission: "
                           ++ pretty (submission_number submission)) in
  let lines := append lines ("competition-phase: "
                           ++ pretty (phasenumber (phase submission))) in
  let* is_automatic_submission :=
    if auto_migration (phase submission)
    then gets (fun w => Nat.eqb (submissions_this_phase submission w) 1)
    else ret false in
  let lines := append lines ("automatic-submission: "
                           ++ str_of_bool is_automatic_submission) in
  let* submission := FieldFile_save inputfile submission "input.txt"
                       (ContentFile (PyStr.join PyStr.nl lines)) in
  (* The bundle describing the computation. *)
  let lines : list string := [] in
  let program_value := scoring_program (phase submission) in
  let* lines :=
    if PyStr.nonempty program_value
    then ret (append lines ("program: " ++ _make_url_sassy program_value "r"))
    else raise (ValueError "Program is missing.") in
  let lines := append lines ("input: " ++ _make_url_sassy
                           (name_of submission inputfile) "r") in
  let lines := append lines ("stdout: " ++ _make_url_sassy
                           (name_of submission stdout_file) "w") in
  let lines := append lines ("stderr: " ++ _make_url_sassy
                           (name_of submission stderr_file) "w") in
  let lines := append lines ("private_output: " ++ _make_url_sassy
                           (name_of submission private_output_file) "w") in
  let lines := append lines ("output: " ++ _make_url_sassy
                           (name_of submission output_file) "w") in
  let* submission := FieldFile_save runfile submission "run.txt"
                       (ContentFile (PyStr.join PyStr.nl lines)) in
  (* Create stdout.txt & stderr.txt *)
  let* submission :=
    if negb has_generated_predictions then
      let* submission := FieldFile_save stdout_file submission "stdout.txt"
                           (ContentFile (PyStr.join PyStr.nl
                                           (filler "output" submission))) in
      FieldFile_save stderr_file submission "stderr.txt"
        (ContentFile (PyStr.join PyStr.nl (filler "error" submission)))
    else ret submission in
  (* Update workflow state *)
  let state := <["score" := job_id]> state in
  let submission := with_execution_key state submission in
  (* Pre-save files so we can overwrite their names later *)
  let* submission := FieldFile_save output_file submission "output_file.zip"
                       (ContentFile EmptyString) in
  let* submission := FieldFile_save private_output_file submission
                       "private_output_file.zip" (ContentFile EmptyString) in
  let* submission := FieldFile_save detailed_results_file submission
                       "detailed_results_file.zip" (ContentFile EmptyString) in
  save submission ;;
  (* Submit the request to the computation service *)
  _prepare_compute_worker_run job_id submission false ;;
  (if negb has_generated_predictions
   then _set_submission_status (pk submission) SUBMITTED
   else ret tt) ;;
  logger INFO "It took: %f seconds to run" [] ;;
  ret submission.

(** [SubmissionScoreDef.objects.get(competition=.., key=..)]: the one
    matching row; no row and several rows raise. *)
Definition SubmissionScoreDef_get (competition_id : Z) (k : string)
  : M SubmissionScoreDef :=
  fun w =>
    match filter (fun d => scoredef_competition d = competition_id /\ key d = k)
                 (scoredefs w) with
    | [] => (Raise SubmissionScoreDef_DoesNotExist, w)
    | [d] => (Return d, w)
    | _ => (Raise MultipleObjectsReturned, w)
    end.

(** [SubmissionScore.objects.create(..)]. *)
Definition SubmissionScore_create (row : SubmissionScore) : M unit :=
  modify (fun w => with_scores (append (scores w) row) w).

(** Modelled from the spec: [add_submission_to_leaderboard]
    ([apps.web.models] is not part of the sources), the explicit and
    idempotent promotion of a submission onto the leaderboard. *)
Definition add_submission_to_leaderboard (submission : CompetitionSubmission)
  : M unit :=
  calling Leaderboard DatabaseError ;;
  modify (fun w => with_leaderboard ({[pk submission]} ∪ leaderboard w) w).

(** [send_mail(subject, body, from, [to], fail_silently=False)]. *)
Definition send_mail (subject body sender : string) (recipients : list string)
  : M unit :=
  calling Mailer SMTPException ;;
  modify (fun w =>
    with_outbox (append (outbox w)
                   {| mail_subject := subject; mail_body := body;
                      mail_from := sender; mail_to := recipients |}) w).

(** [get_or_create] of the metadata row of the phase, then
    [__dict__.update(metadata)] and [save()]. *)
Definition attach_metadata (submission : CompetitionSubmission)
  (predicting : bool) (fields : gmap string string) : M unit :=
  fun w =>
    let matches (row : CompetitionSubmissionMetadata) : bool :=
      bool_decide (metadata_submission row = pk submission
                   /\ is_predict row = predicting
                   /\ is_scoring row = negb predicting) in
    match List.filter matches (metadata w) with
    | [] =>
        (Return tt,
         with_metadata (append (metadata w)
                          {| metadata_submission := pk submission;
                             is_predict := predicting;
                             is_scoring := negb predicting;
                             metadata_fields := fields |}) w)
    | [_] =>
        (Return tt,
         with_metadata
           (List.map (fun row =>
              if matches row
              then {| metadata_submission := metadata_submission row;
                      is_predict := is_predict row;
                      is_scoring := is_scoring row;
                      metadata_fields := fields ∪ metadata_fields row |}
              else row) (metadata w)) w)
    | _ => (Raise MultipleObjectsReturned, w)
    end.

(** [ZipFile(io.BytesIO(submission.output_file.read()))]. *)
Definition open_output_archive (submission : CompetitionSubmission)
  : M (gmap string string) :=
  calling Storage (IOError "storage") ;;
  fun w =>
    match storage w !! name_of submission output_file with
    | None => (Raise (IOError "No such file"), w)
    | Some (Bytes _) => (Raise BadZipfile, w)
    | Some (ZipArchive members) => (Return members, w)
    end.

(** The body of the loop over the lines of scores.txt. *)
Definition record_score (submission : CompetitionSubmission) (line : string)
  : M unit :=
  if PyStr.nonempty line then
    match PyStr.split ":" line with
    | [label; value] =>
        try_except
          (let* scoredef :=
             SubmissionScoreDef_get
               (competition_pk (competition (phase submission)))
               (PyStr.strip label) in
           match float value with
           | Some v =>
               SubmissionScore_create
                 {| result := pk submission;
                    scoredef := scoredef_pk scoredef;
                    value := v |}
           | None => raise (ValueError "could not convert string to float")
           end)
          (fun e =>
             match e with
             | SubmissionScoreDef_DoesNotExist =>
                 Some (logger WARNING
                         "Score %s does not exist (submission_id=%s)"
                         [ArgStr label; ArgInt (pk submission)])
             | _ => None
             end)
    | [_] => raise (ValueError "need more than 1 value to unpack")
    | _ => raise (ValueError "too many values to unpack")
    end
  else ret tt.

(** The rows of [SubmissionScore.objects.filter(result__phase=..,
    scoredef=..)]. *)
Definition top_score_query (w : World) (submission : CompetitionSubmission)
  (score_def : option SubmissionScoreDef) : list SubmissionScore :=
  List.filter
    (fun row =>
       match submissions w !! result row, score_def with
       | Some other, Some d =>
           (phase_pk (phase other) =? phase_pk (phase submission))%Z
           && (scoredef row =? scoredef_pk d)%Z
       | _, _ => false
       end)
    (scores w).

(** The promotion of a phase that forces the best submission to the
    leaderboard. *)
Definition force_best_submission (submission : CompetitionSubmission)
  : M unit :=
  let* score_def := (fun w => (get_default_score_def w submission, w)) in
  let* top_score := gets (fun w => top_score_query w submission score_def) in
  let* score_value := (fun w => (get_default_score w submission, w)) in
  match score_def with
  | None => raise (AttributeError "'NoneType' object has no attribute 'sorting'")
  | Some score_def =>
      if String.eqb (sorting score_def) "asc" then
        (* The first value in ascending is the top score, 1 beats 3 *)
        match minimum (List.map value top_score) with
        | None => raise (AttributeError "'NoneType' object has no attribute 'value'")
        | Some top_value =>
            if py_ge score_value top_value
            then add_submission_to_leaderboard submission
            else ret tt
        end
      else if String.eqb (sorting score_def) "desc" then
        (* The last value in descending is the top score, 3 beats 1 *)
        match maximum (List.map value top_score) with
        | None => raise (AttributeError "'NoneType' object has no attribute 'value'")
        | Some top_value =>
            if py_le score_value top_value
            then add_submission_to_leaderboard submission
            else ret tt
        end
      else ret tt
  end.

(** [open(ozip.extract('scores.txt'), 'r').read()] under its
    [try]: [None] where the extraction raises. *)
Definition load_scores (submission : CompetitionSubmission)
  : M (option string) :=
  let* ozip := open_output_archive submission in
  ret (ozip !! "scores.txt").

(** The loop over the lines of scores.txt. *)
Definition process_scores (submission : CompetitionSubmission)
  (scores : string) : M unit :=
  for_each (record_score submission) (PyStr.split PyStr.newline scores).

(** The three promotion clauses, in their order. *)
Definition promote (submission : CompetitionSubmission) : M unit :=
  (* Automatically submit to the leaderboard? *)
  (if is_blind (phase submission)
      && negb (force_best_submission_to_leaderboard (phase submission))
   then add_submission_to_leaderboard submission
   else ret tt) ;;
  (if force_submission_to_leaderboard (competition (phase submission))
      && negb (force_best_submission_to_leaderboard (phase submission))
   then add_submission_to_leaderboard submission
   else ret tt) ;;
  (if force_best_submission_to_leaderboard (phase submission)
   then force_best_submission submission
   else ret tt).

(** The mail to a participant who asked for one. *)
Definition notify (submission : CompetitionSubmission) : M unit :=
  if email_on_submission_finished_successfully (user (participant submission))
  then
    let site_url :=
      "https://" ++ site_domain
        ++ absolute_url (competition (phase submission)) in
    send_mail "Submission has finished successfully!"
      ("Your submission to the competition " ++ PyStr.quote
         ++ title (competition (phase submission)) ++ PyStr.quote
         ++ " has finished successfully! View it here: " ++ site_url)
      DEFAULT_FROM_EMAIL
      [email (user (participant submission))]
  else ret tt.

(** The branch of a finished scoring step: read the scores, conclude,
    promote and notify. *)
Definition finished_scoring (submission : CompetitionSubmission)
  : M (option JobStatus) :=
  let* scores := load_scores submission in
  match scores with
  | None =>
      logger ERROR
        "Scores.txt not found, unable to process submission: %s (submission_id=%s)"
        [ArgStr "finished"; ArgInt (pk submission)] ;;
      _set_submission_status (pk submission) FAILED ;;
      ret (Some Job_FAILED)
  | Some scores =>
      process_scores submission scores ;;
      _set_submission_status (pk submission) FINISHED ;;
      promote submission ;;
      notify submission ;;
      ret (Some Job_FINISHED)
  end.

(** [if metadata: ...], the upsert of the metadata of the running step. *)
Definition attach_extra_metadata (submission : CompetitionSubmission)
  (metadata : option (gmap string string)) : M unit :=
  match metadata with
  | Some fields =>
      if bool_decide (fields = ∅) then ret tt
      else attach_metadata submission
             (negb (bool_decide
                      (is_Some (execution_key submission !! "score"))))
             fields
  | None => ret tt
  end.

(** The branch of a finished prediction step: enter the scoring step;
    a failure to do so is logged here and goes no further. *)
Definition enter_scoring (submission : CompetitionSubmission) (job_id : Z)
  : M (option JobStatus) :=
  try_except
    (score submission job_id ;; ret (Some Job_RUNNING))
    (except_Exception (fun _ =>
       logger EXCEPTION
         "update_submission_task failed to enter scoring phase (pk=%s)"
         [ArgInt (pk submission)] ;;
       ret (Some Job_FAILED))).

Definition _update_submission (submission : CompetitionSubmission)
  (status : string) (job_id : Z) (traceback : option string)
  (metadata : option (gmap string string)) : M (option JobStatus) :=
  let state := execution_key submission in
  attach_extra_metadata submission metadata ;;
  if String.eqb status "running" then
    _set_submission_status (pk submission) RUNNING ;;
    ret (Some Job_RUNNING)
  else if String.eqb status "finished" then
    if bool_decide (is_Some (state !! "score")) then
      finished_scoring submission
    else
      enter_scoring submission job_id
  else
    (if negb (String.eqb status "failed")
     then logger ERROR "Invalid status: %s (submission_id=%s)"
            [ArgStr status; ArgInt (pk submission)]
     else ret tt) ;;
    (match traceback with
     | Some details =>
         if PyStr.nonempty details
         then save (with_exception_details details submission)
         else ret tt
     | None => ret tt
     end) ;;
    _set_submission_status (pk submission) FAILED ;;
    ret None.

(** [SubmissionUpdateException(submission, inner_exception)]: the
    constructor reads [inner_exception.message], which an exception has and
    a text has not. *)
Definition SubmissionUpdateException_init (submission : CompetitionSubmission)
  (inner_exception : PyObject) : Outcome Exn :=
  match inner_exception with
  | PyException e => Return (SubmissionUpdateException submission e)
  | PyText _ => Raise (AttributeError "'str' object has no attribute 'message'")
  end.

(** [raise <constructor call>]: what goes up is the exception built, or the
    one the constructor raised. *)
Definition raise_new {A} (built : Outcome Exn) : M A :=
  match built with
  | Return e => raise e
  | Raise e => raise e
  end.

(** [ex.submission]. *)
Definition submission_of (ex : Exn) : M CompetitionSubmission :=
  match ex with
  | SubmissionUpdateException submission _ => ret submission
  | _ => raise (AttributeError "object has no attribute 'submission'")
  end.

Definition handle_update_exception (job_id : Z) (job : Job) (ex : Exn)
  : M JobTaskResult :=
  try_except
    (let* submission := submission_of ex in
     _set_submission_status (pk submission) FAILED)
    (except_Exception (fun _ =>
       logger EXCEPTION
         "Unable to set the submission status to Failed (job_id=%s)"
         [ArgInt job_id])) ;;
  ret {| job_status := Some Job_FAILED |}.

Definition update_it (args : CallbackArgs) (secret' : string)
  (job_id : Z) (job : Job) : M JobTaskResult :=
  if negb (String.eqb (task_type job) "evaluate_submission") then
    raise (ValueError "Job has incorrect task_type (job.task_type=%s)")
  else
    let submission_id := task_args_submission_id job in
    let* submission := CompetitionSubmission_get submission_id in
    if negb (String.eqb secret' (secret submission)) then
      raise_new (SubmissionUpdateException_init submission
                   (PyText "Password does not match"))
    else
      let status := args_status args in
      let* result :=
        try_except
          (let traceback := e ← extra args; traceback e in
           let metadata := e ← extra args; extra_metadata e in
           _update_submission submission status job_id traceback metadata)
          (except_Exception (fun e =>
             logger EXCEPTION
               "Failed to update submission (job_id=%s, submission_id=%s, status=%s)"
               [ArgInt job_id; ArgInt submission_id; ArgStr status] ;;
             raise_new (SubmissionUpdateException_init submission
                          (PyException e)))) in
      ret {| job_status := result |}.

(** Modelled from the spec: [run_job_task] ([apps.jobs.models] is not part
    of the sources). It loads the job, runs the computation on it and, when
    the computation raises, hands the exception to the handler; no
    exception leaves it. The result is what is reported for the job. *)
Definition run_job_task (job_id : Z)
  (computation : Z -> Job -> M JobTaskResult)
  (handle_exception : Z -> Job -> Exn -> M JobTaskResult)
  : World -> option JobTaskResult * World :=
  fun w =>
    match jobs w !! job_id with
    | None => (None, w)
    | Some job =>
        match try_except (computation job_id job)
                (except_Exception (handle_exception job_id job)) w with
        | (Return reported, w') => (Some reported, w')
        | (Raise _, w') => (None, w')
        end
    end.

Definition update_submission (job_id : Z) (args : CallbackArgs)
  (secret' : string) : World -> option JobTaskResult * World :=
  run_job_task job_id (update_it args secret') handle_update_exception.


(** ** Dispatch, from the site and on the worker *)

Definition with_jobs (x : gmap Z Job) (w : World) : World :=
  {| submissions := submissions w; jobs := x; scoredefs := scoredefs w;
     scores := scores w; leaderboard := leaderboard w; metadata := metadata w;
     storage := storage w; compute_worker_queue := compute_worker_queue w;
     outbox := outbox w; log := log w; outages := outages w |}.

(** The primary key the job table gives to its next row. *)
Variable new_job_pk : World -> Z.

(** Modelled from the spec: [Job.objects.create_job] ([apps.jobs.models]
    is not part of the sources), which mints a job of a task type for a
    submission. Of the task arguments the job keeps the submission; the
    entry ['predict'] is read by no task. *)
Definition create_job (type : string) (submission_id : Z) : M Z :=
  fun w =>
    let job_id := new_job_pk w in
    (Return job_id,
     with_jobs (<[job_id := {| task_type := type;
                               task_args_submission_id := submission_id |}]>
                  (jobs w)) w).

(** The arguments of one [update_submission.apply_async] call. *)
Record Callback : Type := {
  callback_job_id : Z;
  callback_args : CallbackArgs;
  callback_secret : string
}.

(** [update_submission.apply_async((job_id, args, secret))]: the call
    reaches the broker and the callback is on its way. *)
Definition send_update (job_id : Z) (args : CallbackArgs) (secret' : string)
  : M Callback :=
  calling Broker ConnectionError ;;
  ret {| callback_job_id := job_id; callback_args := args;
         callback_secret := secret' |}.

(** [{'status': 'failed'}]. *)
Definition failed_args : CallbackArgs :=
  {| args_status := "failed"; extra := None |}.

(** [evaluate_submission(submission_id, is_scoring_only)]; the result is
    the list of the callbacks it has sent. *)
Definition evaluate_submission (submission_id : Z) (is_scoring_only : bool)
  : M (list Callback) :=
  let* job_id := create_job "evaluate_submission" submission_id in
  let predict_and_score := negb is_scoring_only in
  let* submission := CompetitionSubmission_get submission_id in
  try_except
    ((if predict_and_score
      then predict submission job_id
      else score submission job_id) ;;
     ret [])
    (except_Exception (fun _ =>
       logger EXCEPTION
         "evaluate_submission dispatch failed (job_id=%s, submission_id=%s)"
         [ArgInt job_id; ArgInt submission_id] ;;
       let* sent := send_update job_id failed_args (secret submission) in
       ret [sent])).

(** How the run of a task ends on a compute worker. *)
Inductive RunOutcome : Type :=
  | Completed
  | SoftTimeLimitExceeded
  | Crashed (e : Exn).

(** [get_run_func()], the routine of the worker, by how its run ends. *)
Variable run : Z -> TaskArgs -> RunOutcome.

(** [compute_worker_run(data)]; the result is the list of the callbacks it
    has sent itself. *)
Definition compute_worker_run (d : Envelope) : M (list Callback) :=
  match run (envelope_id d) (task_args d) with
  | Completed => ret []
  | SoftTimeLimitExceeded =>
      let* sent := send_update (envelope_id d) failed_args
                     (ta_secret (task_args d)) in
      ret [sent]
  | Crashed e => raise e
  end.

(** The first loop of [re_run_all_submissions_in_phase]: a submission is
    kept when the name of its file has not been seen; what is then marked
    as seen is [s3_file] or [file.name], by the [USE_AWS] setting. *)
Fixpoint without_duplicates (file_names_seen : list string)
  (submissions_with_duplicates : list CompetitionSubmission)
  : list CompetitionSubmission :=
  match submissions_with_duplicates with
  | [] => []
  | submission :: rest =>
      if bool_decide (name_of submission file ∈ file_names_seen) then
        without_duplicates file_names_seen rest
      else
        submission
          :: without_duplicates
               (append file_names_seen
                  (if USE_AWS then s3_file submission
                   else name_of submission file))
               rest
  end.

Definition submissions_without_duplicates
  (submissions_with_duplicates : list CompetitionSubmission)
  : list CompetitionSubmission :=
  without_duplicates [] submissions_with_duplicates.

(** ** Reading scores.txt, as the specification words it *)

(** The key under which a competition finds a scoring definition. *)
Definition def_key (d : SubmissionScoreDef) : Z * string :=
  (scoredef_competition d, key d).

(** The scoring definition that a label names in the competition of a
    submission. *)
Definition named_def (defs : list SubmissionScoreDef)
  (submission : CompetitionSubmission) (label : string)
  : option SubmissionScoreDef :=
  List.find
    (fun d => bool_decide
                (def_key d = (competition_pk (competition (phase submission)),
                              PyStr.strip label)))
    defs.




(** A line the loop cannot read: not empty, and either not two parts
    around one colon, or a value that is no number under a label that
    names a scoring definition. *)
Definition unreadable_line (defs : list SubmissionScoreDef)
  (submission : CompetitionSubmission) (line : string) : Prop :=
  PyStr.nonempty line = true
  /\ match PyStr.split ":" line with
     | [label; value] =>
         is_Some (named_def defs submission label) /\ float value = None
     | _ => True
     end.

(** ** The end of a callback *)

(** What [update_it] and [run_job_task] make of a run of
    [_update_submission]: its result is reported; its exception is logged,
    wrapped with the submission and handed to [handle_update_exception]. *)
Definition settle (job_id : Z) (job : Job) (args : CallbackArgs)
  (submission : CompetitionSubmission)
  (run : Outcome (option JobStatus) * World) : option JobTaskResult * World :=
  match run with
  | (Return reported, w') => (Some {| job_status := reported |}, w')
  | (Raise e, w') =>
      match
        (logger EXCEPTION
           "Failed to update submission (job_id=%s, submission_id=%s, status=%s)"
           [ArgInt job_id; ArgInt (task_args_submission_id job);
            ArgStr (args_status args)] ;;
         handle_update_exception job_id job
           (SubmissionUpdateException submission e)) w'
      with
      | (Return reported, w'') => (Some reported, w'')
      | (Raise _, w'') => (None, w'')
      end
  end.

(** ** Reasoning about tasks *)

Lemma bind_Return {A B} (c : M A) (k : A -> M B) (w w' : World) (a : A) :
  c w = (Return a, w') -> bind c k w = k a w'.
Proof. intros H. unfold bind. now rewrite H. Qed.

Lemma bind_Raise {A B} (c : M A) (k : A -> M B) (w w' : World) (e : Exn) :
  c w = (Raise e, w') -> bind c k w = (Raise e, w').
Proof. intros H. unfold bind. now rewrite H. Qed.

Lemma triple_ret {A} (P : World -> Prop) (a : A) Q E :
  (forall w, P w -> Q a w) -> triple P (ret a) Q E.
Proof. intros H w Hw. now apply H. Qed.

Lemma triple_raise {A} (P : World -> Prop) (e : Exn) (Q : A -> World -> Prop) E :
  (forall w, P w -> E e w) -> triple P (raise e) Q E.
Proof. intros H w Hw. now apply H. Qed.

Lemma triple_bind {A B} (P : World -> Prop) (c : M A) (k : A -> M B)
  (R : A -> World -> Prop) (Q : B -> World -> Prop) E :
  triple P c R E ->
  (forall a, triple (R a) (k a) Q E) ->
  triple P (bind c k) Q E.
Proof.
  intros Hc Hk w Hw. unfold bind. specialize (Hc w Hw).
  destruct (c w) as [[a|e] w']; [now apply Hk | exact Hc].
Qed.

Lemma triple_weaken {A} (P P' : World -> Prop) (c : M A)
  (Q Q' : A -> World -> Prop) (E E' : Exn -> World -> Prop) :
  triple P' c Q' E' ->
  (forall w, P w -> P' w) ->
  (forall a w, Q' a w -> Q a w) ->
  (forall e w, E' e w -> E e w) ->
  triple P c Q E.
Proof.
  intros Hc HP HQ HE w Hw. specialize (Hc w (HP w Hw)).
  destruct (c w) as [[a|e] w']; auto.
Qed.

Lemma triple_try_except {A} (P : World -> Prop) (c : M A)
  (h : Exn -> option (M A)) (Q : A -> World -> Prop)
  (R E : Exn -> World -> Prop) :
  triple P c Q R ->
  (forall e, match h e with
             | Some handler => triple (R e) handler Q E
             | None => forall w, R e w -> E e w
             end) ->
  triple P (try_except c h) Q E.
Proof.
  intros Hc Hh w Hw. unfold try_except. specialize (Hc w Hw).
  destruct (c w) as [[a|e] w']; [exact Hc |].
  specialize (Hh e). destruct (h e); [now apply Hh | now apply Hh].
Qed.

Lemma keeps_ret {A} (I : World -> Prop) (a : A) : keeps I (ret a).
Proof. now apply triple_ret. Qed.

Lemma keeps_raise {A} (I : World -> Prop) (e : Exn) : keeps I (@raise A e).
Proof. now apply triple_raise. Qed.

Lemma keeps_bind {A B} (I : World -> Prop) (c : M A) (k : A -> M B) :
  keeps I c -> (forall a, keeps I (k a)) -> keeps I (bind c k).
Proof. intros Hc Hk. eapply triple_bind; [exact Hc | exact Hk]. Qed.

Lemma keeps_try_except {A} (I : World -> Prop) (c : M A)
  (h : Exn -> option (M A)) :
  keeps I c ->
  (forall e handler, h e = Some handler -> keeps I handler) ->
  keeps I (try_except c h).
Proof.
  intros Hc Hh. eapply triple_try_except; [exact Hc |].
  intros e. destruct (h e) eqn:He; [now apply (Hh e) | auto].
Qed.

Lemma keeps_gets {A} (I : World -> Prop) (f : World -> A) : keeps I (gets f).
Proof. intros w Hw. exact Hw. Qed.

Lemma keeps_modify (I : World -> Prop) (f : World -> World) :
  (forall w, I w -> I (f w)) -> keeps I (modify f).
Proof. intros H w Hw. now apply H. Qed.

Lemma keeps_calling (I : World -> Prop) (s : Service) (e : Exn) :
  keeps I (calling s e).
Proof. intros w Hw. unfold calling. now destruct (is_up s w). Qed.

Lemma keeps_reading {A} (I : World -> Prop) (f : World -> Outcome A) :
  keeps I (fun w => (f w, w)).
Proof. intros w Hw. now destruct (f w). Qed.

Lemma keeps_for_each {A} (I : World -> Prop) (body : A -> M unit)
  (items : list A) :
  (forall item, keeps I (body item)) -> keeps I (for_each body items).
Proof.
  intros Hbody. induction items as [|item rest IH]; simpl.
  - apply keeps_ret.
  - apply keeps_bind; [apply Hbody | intros _; exact IH].
Qed.

Lemma keeps_logger (I : World -> Prop) l fmt a :
  (forall w records, I w -> I (with_log records w)) ->
  keeps I (logger l fmt a).
Proof. intros H. apply keeps_modify. intros w Hw. now apply H. Qed.

Lemma keeps_triple {A} (I : World -> Prop) (c : M A) (E : Exn -> World -> Prop) :
  keeps I c -> (forall e w, I w -> E e w) -> triple I c (fun _ => I) E.
Proof. intros Hc HE. eapply triple_weaken; [exact Hc | | |]; auto. Qed.

(** What a task keeps, read on the world it leaves. *)
Lemma keeps_exec {A} (I : World -> Prop) (c : M A) (w : World) :
  keeps I c -> I w -> I (exec c w).
Proof.
  intros Hc Hw. specialize (Hc w Hw). unfold exec.
  now destruct (c w) as [[a|e] w'].
Qed.

(** *** The guarded status update, case by case *)

Lemma set_submission_status_missing (w : World) (submission_id : Z) target :
  submissions w !! submission_id = None ->
  _set_submission_status submission_id target w
  = (Raise CompetitionSubmission_DoesNotExist, w).
Proof.
  intros H. unfold _set_submission_status, bind, CompetitionSubmission_get.
  now rewrite H.
Qed.

Lemma set_submission_status_final (w : World) (submission_id : Z)
  (submission : CompetitionSubmission) target :
  submissions w !! submission_id = Some submission ->
  in_FINAL_STATES (status submission) = true ->
  exists records,
    _set_submission_status submission_id target w
    = (Return tt, with_log records w).
Proof.
  intros H Hf. unfold _set_submission_status, bind, CompetitionSubmission_get.
  rewrite H, Hf. simpl. eexists. reflexivity.
Qed.

Lemma set_submission_status_open (w : World) (submission_id : Z)
  (submission : CompetitionSubmission) target :
  submissions w !! submission_id = Some submission ->
  in_FINAL_STATES (status submission) = false ->
  exists records,
    _set_submission_status submission_id target w
    = (Return tt,
       with_log records
         (with_submissions
            (<[pk submission := with_status target submission]> (submissions w))
            w)).
Proof.
  intros H Hf. unfold _set_submission_status, bind, CompetitionSubmission_get.
  rewrite H, Hf. simpl. eexists. reflexivity.
Qed.

Lemma in_FINAL_STATES_spec (s : CompetitionSubmissionStatus) :
  in_FINAL_STATES s = true <-> s = FINISHED \/ s = FAILED \/ s = CANCELLED.
Proof.
  destruct s; cbv; split; intros H; try discriminate; try reflexivity; auto;
    destruct H as [H | [H | H]]; discriminate.
Qed.

Lemma set_submission_status_status_of (w : World) (submission_id : Z)
  (submission : CompetitionSubmission) target :
  keyed_by_pk w ->
  submissions w !! submission_id = Some submission ->
  eval (_set_submission_status submission_id target) w = Return tt
  /\ status_of (exec (_set_submission_status submission_id target) w)
       submission_id
     = Some (latch (status submission) target).
Proof.
  intros Hk H. unfold eval, exec, latch.
  destruct (in_FINAL_STATES (status submission)) eqn:Hf.
  - destruct (set_submission_status_final w _ _ target H Hf) as [r ->].
    simpl. split; [reflexivity |]. unfold status_of. simpl. now rewrite H.
  - destruct (set_submission_status_open w _ _ target H Hf) as [r ->].
    simpl. split; [reflexivity |]. unfold status_of. simpl.
    rewrite (Hk _ _ H), lookup_insert_eq. reflexivity.
Qed.

(** ** The state machine *)

(** C3 — The terminal latch. A status update of a submission whose stored
    status is FINISHED, FAILED or CANCELLED returns and leaves the stored
    status (and the whole table) as it was, whatever the target status; on
    a submission in any other status it returns and the stored status
    becomes the target. *)
Theorem terminal_latch (w : World) (submission_id : Z)
  (submission : CompetitionSubmission)
  (target : CompetitionSubmissionStatus) :
  keyed_by_pk w ->
  submissions w !! submission_id = Some submission ->
  let update := _set_submission_status submission_id target in
  eval update w = Return tt
  /\ (status submission = FINISHED \/ status submission = FAILED
      \/ status submission = CANCELLED ->
      status_of (exec update w) submission_id = Some (status submission)
      /\ submissions (exec update w) = submissions w)
  /\ (~ (status submission = FINISHED \/ status submission = FAILED
         \/ status submission = CANCELLED) ->
      status_of (exec update w) submission_id = Some target).
Proof.
  intros Hk H update.
  destruct (set_submission_status_status_of w _ _ target Hk H) as [Hr Hs].
  split; [exact Hr |]. split.
  - intros Hf. apply in_FINAL_STATES_spec in Hf.
    split.
    + subst update. rewrite Hs. unfold latch. now rewrite Hf.
    + destruct (set_submission_status_final w _ _ target H Hf) as [r Hrun].
      subst update. unfold exec. now rewrite Hrun.
  - intros Hn. subst update. rewrite Hs. unfold latch.
    destruct (in_FINAL_STATES (status submission)) eqn:Hf; [| reflexivity].
    apply in_FINAL_STATES_spec in Hf. contradiction.
Qed.

(** ** The dispatcher *)

Lemma apply_async_up (d : Envelope) limit connection (w : World) :
  is_up Broker w = true ->
  apply_async d limit connection w
  = (Return tt,
     with_compute_worker_queue
       (append (compute_worker_queue w)
          {| data := d; soft_time_limit := limit;
             connection_vhost := connection |}) w).
Proof.
  intros Hup. unfold apply_async, bind, calling. now rewrite Hup.
Qed.

(** C8 — The soft time budget. A dispatch that reaches the broker publishes
    one task, whose soft time limit is the execution time limit of the
    phase when that limit is positive, and 600 seconds when the limit is
    unset, zero or negative. *)
Theorem soft_time_limit_of_dispatch (job_id : Z)
  (submission : CompetitionSubmission) (is_prediction : bool) (w : World) :
  is_up Broker w = true ->
  let dispatch := _prepare_compute_worker_run job_id submission is_prediction in
  exists published,
    eval dispatch w = Return tt
    /\ compute_worker_queue (exec dispatch w)
       = append (compute_worker_queue w) published
    /\ envelope_id (data published) = job_id
    /\ (forall n, execution_time_limit (phase submission) = Some n ->
                  0 < n -> soft_time_limit published = Some n)
    /\ (forall n, execution_time_limit (phase submission) = Some n ->
                  n <= 0 -> soft_time_limit published = Some 600)
    /\ (execution_time_limit (phase submission) = None ->
        soft_time_limit published = Some 600).
Proof.
  intros Hup dispatch. subst dispatch.
  unfold _prepare_compute_worker_run, eval, exec.
  destruct is_prediction; simpl;
    (rewrite (bind_Return _ _ w (with_log _ w) tt) by reflexivity);
    destruct (queue (competition (phase submission))) as [q|];
    (rewrite apply_async_up by exact Hup);
    eexists; simpl;
    (split; [reflexivity |]); (split; [reflexivity |]);
    (split; [reflexivity |]);
    (split; [| split]);
    try (intros n Hn Hpos; rewrite Hn; simpl;
         destruct (Z.leb_spec n 0); [lia | reflexivity]);
    try (intros n Hn Hle; rewrite Hn; simpl;
         destruct (Z.leb_spec n 0); [reflexivity | lia]);
    try (intros Hn; rewrite Hn; reflexivity).
Qed.

(** ** Callbacks *)

(** C2 — Secret enforcement. A callback whose secret differs from the
    stored secret of the submission it names leaves the submission table,
    and so the status of every submission, as it was, whatever its declared
    status and whatever else it carries. *)
Theorem secret_mismatch_keeps_status (w : World) (job_id : Z)
  (args : CallbackArgs) (secret' : string) (job : Job)
  (submission : CompetitionSubmission) :
  jobs w !! job_id = Some job ->
  submissions w !! task_args_submission_id job = Some submission ->
  secret' <> secret submission ->
  let w' := snd (update_submission job_id args secret' w) in
  submissions w' = submissions w
  /\ forall submission_id, status_of w' submission_id = status_of w submission_id.
Proof.
  intros Hjob Hsub Hsecret w'.
  assert (Htable : submissions w' = submissions w).
  { subst w'. unfold update_submission, run_job_task. rewrite Hjob.
    unfold try_except at 1, update_it, except_Exception.
    destruct (String.eqb (task_type job) "evaluate_submission"); simpl.
    - unfold bind at 1, CompetitionSubmission_get. rewrite Hsub.
      apply String.eqb_neq in Hsecret. rewrite Hsecret. reflexivity.
    - reflexivity. }
  split; [exact Htable |].
  intros submission_id. unfold status_of. now rewrite Htable.
Qed.

(** ** Saving files *)

(** The object [field.save] leaves in memory. *)
Lemma FieldFile_save_run (f : FileField) (submission : CompetitionSubmission)
  (name : string) (content : Content) (w : World) :
  let saved :=
    with_files (<[f := upload_to f submission name]> (files submission))
               submission in
  FieldFile_save f submission name content w
  = if is_up Storage w
    then (Return saved,
          with_submissions (<[pk saved := saved]> (submissions w))
            (with_storage
               (<[upload_to f submission name := content]> (storage w)) w))
    else (Raise (IOError "storage"), w).
Proof.
  unfold FieldFile_save, bind, calling. now destruct (is_up Storage w).
Qed.

Lemma FieldFile_save_triple (I : World -> Prop) (E : Exn -> World -> Prop)
  (f : FileField) (submission : CompetitionSubmission) (name : string)
  (content : Content) :
  let saved :=
    with_files (<[f := upload_to f submission name]> (files submission))
               submission in
  (forall w x, I w ->
     I (with_submissions (<[pk saved := saved]> (submissions w))
          (with_storage x w))) ->
  (forall w, I w -> is_up Storage w = false -> E (IOError "storage") w) ->
  triple I (FieldFile_save f submission name content)
    (fun submission' w => I w /\ submission' = saved) E.
Proof.
  intros saved Hsave Hdown w Hw. rewrite FieldFile_save_run.
  destruct (is_up Storage w) eqn:Hup.
  - split; [now apply Hsave | reflexivity].
  - now apply Hdown.
Qed.

Lemma triple_assume {A} (P : World -> Prop) (fact : Prop) (c : M A) Q E :
  (fact -> triple P c Q E) -> triple (fun w => P w /\ fact) c Q E.
Proof. intros H w [Hw Hf]. now apply H. Qed.

Lemma triple_gets {A} (P : World -> Prop) (f : World -> A) E :
  triple P (gets f) (fun _ w => P w) E.
Proof. intros w Hw. exact Hw. Qed.

(** One step of a task that saves a file and goes on. *)
Ltac save_step :=
  eapply triple_bind;
  [ apply FieldFile_save_triple;
    [ intros ? ? ?; simpl; auto | intros ? ? ?; simpl; auto ]
  | intros ?; apply triple_assume; intros -> ].

Ltac gets_step :=
  eapply triple_bind; [ apply triple_gets | intros ? ].

(** A scoring step without results publishes nothing. *)
Lemma score_without_results (submission : CompetitionSubmission) (job_id : Z)
  (published : list Published) (down : list Service) :
  results_of submission
    (bool_decide (is_Some (execution_key submission !! "predict")))
  = EmptyString ->
  triple (fun w => compute_worker_queue w = published /\ outages w = down)
    (score submission job_id)
    (fun _ _ => False)
    (fun e w => compute_worker_queue w = published
                /\ (Storage ∉ down -> e = ValueError "Results are missing.")).
Proof.
  intros Hres. unfold score.
  assert (Hdown : forall w : World,
             compute_worker_queue w = published /\ outages w = down ->
             is_up Storage w = false ->
             compute_worker_queue w = published
             /\ (Storage ∉ down -> IOError "storage"
                                   = ValueError "Results are missing.")).
  { intros w [Hq Ho] Hup. split; [exact Hq |]. intros Hin.
    unfold is_up in Hup. rewrite Ho in Hup.
    apply bool_decide_eq_false in Hup. contradiction. }
  save_step. gets_step. save_step. gets_step. save_step.
  eapply triple_bind with (R := fun _ _ => False); [| now intros ? ? ?].
  match goal with
  | |- triple _ (if PyStr.nonempty ?r then _ else _) _ _ =>
      replace r with EmptyString
  end.
  - simpl. apply triple_raise. intros w [Hq Ho]. now split.
  - etransitivity; [symmetry; exact Hres |].
    unfold results_of, name_of. simpl.
    rewrite !lookup_insert_ne by discriminate. reflexivity.
Qed.

(** A scoring step without a scoring program publishes nothing. *)
Lemma score_without_program (submission : CompetitionSubmission) (job_id : Z)
  (published : list Published) (down : list Service) :
  scoring_program (phase submission) = EmptyString ->
  triple (fun w => compute_worker_queue w = published /\ outages w = down)
    (score submission job_id)
    (fun _ _ => False)
    (fun e w => compute_worker_queue w = published
                /\ (Storage ∉ down ->
                    PyStr.nonempty
                      (results_of submission
                         (bool_decide
                            (is_Some (execution_key submission !! "predict"))))
                    = true ->
                    e = ValueError "Program is missing.")).
Proof.
  intros Hprogram. unfold score.
  set (E := fun (e : Exn) (w : World) => _ /\ _).
  assert (Hdown : forall w : World,
             compute_worker_queue w = published /\ outages w = down ->
             is_up Storage w = false -> E (IOError "storage") w).
  { intros w [Hq Ho] Hup. split; [exact Hq |]. intros Hin.
    unfold is_up in Hup. rewrite Ho in Hup.
    apply bool_decide_eq_false in Hup. contradiction. }
  save_step. gets_step. save_step. gets_step. save_step.
  eapply triple_bind
    with (R := fun _ w => compute_worker_queue w = published /\ outages w = down).
  { match goal with
    | |- triple _ (if PyStr.nonempty ?r then _ else _) _ _ =>
        replace r
          with (results_of submission
                  (bool_decide (is_Some (execution_key submission !! "predict"))))
    end.
    - destruct (PyStr.nonempty _) eqn:Hres.
      + now apply triple_ret.
      + apply triple_raise. intros w [Hq Ho]. split; [exact Hq |].
        intros _ Hne. discriminate.
    - unfold results_of, name_of. simpl.
      rewrite !lookup_insert_ne by discriminate. reflexivity. }
  intros lines.
  eapply triple_bind
    with (R := fun _ w => compute_worker_queue w = published /\ outages w = down).
  { destruct (auto_migration _); [apply triple_gets | now apply triple_ret]. }
  intros automatic. save_step.
  eapply triple_bind with (R := fun _ _ => False); [| now intros ? ? ?].
  simpl. rewrite Hprogram. simpl.
  apply triple_raise. intros w [Hq Ho]. now split.
Qed.

(** C7 — The manifest preconditions. A prediction step for a submission
    without a program raises at once and leaves the world as it was; a
    scoring step without results, or without a scoring program, raises,
    and the queue of the compute workers is as it was: nothing has been
    published. With the storage reachable the exception is the
    missing-reference [ValueError] of the manifest. *)
Theorem missing_reference_stops_dispatch (submission : CompetitionSubmission)
  (job_id : Z) (w : World) :
  let predicted := bool_decide (is_Some (execution_key submission !! "predict")) in
  (uploaded_file submission = EmptyString ->
   predict submission job_id w = (Raise (ValueError "Program is missing."), w))
  /\ (results_of submission predicted = EmptyString ->
      exists e,
        eval (score submission job_id) w = Raise e
        /\ compute_worker_queue (exec (score submission job_id) w)
           = compute_worker_queue w
        /\ (is_up Storage w = true -> e = ValueError "Results are missing."))
  /\ (scoring_program (phase submission) = EmptyString ->
      exists e,
        eval (score submission job_id) w = Raise e
        /\ compute_worker_queue (exec (score submission job_id) w)
           = compute_worker_queue w
        /\ (is_up Storage w = true ->
            PyStr.nonempty (results_of submission predicted) = true ->
            e = ValueError "Program is missing.")).
Proof.
  intros predicted. split; [| split].
  - intros Hprogram. unfold predict. rewrite Hprogram. reflexivity.
  - intros Hres.
    pose proof (score_without_results submission job_id
                  (compute_worker_queue w) (outages w) Hres w
                  (conj eq_refl eq_refl)) as H.
    unfold eval, exec.
    destruct (score submission job_id w) as [[s'|e] w']; [contradiction |].
    destruct H as [Hq He]. exists e. simpl.
    split; [reflexivity |]. split; [exact Hq |].
    intros Hup. apply He. unfold is_up in Hup.
    now apply bool_decide_eq_true in Hup.
  - intros Hprogram.
    pose proof (score_without_program submission job_id
                  (compute_worker_queue w) (outages w) Hprogram w
                  (conj eq_refl eq_refl)) as H.
    unfold eval, exec.
    destruct (score submission job_id w) as [[s'|e] w']; [contradiction |].
    destruct H as [Hq He]. exists e. simpl.
    split; [reflexivity |]. split; [exact Hq |].
    intros Hup Hres. apply He; [| exact Hres]. unfold is_up in Hup.
    now apply bool_decide_eq_true in Hup.
Qed.

(** ** The execution key *)

Lemma keeps_apply_async (I : World -> Prop) d limit connection :
  (forall w x, I w -> I (with_compute_worker_queue x w)) ->
  keeps I (apply_async d limit connection).
Proof.
  intros H. unfold apply_async. apply keeps_bind.
  - apply keeps_calling.
  - intros _. apply keeps_modify. intros w Hw. now apply H.
Qed.

Lemma keeps_prepare_compute_worker_run (I : World -> Prop) job_id submission
  is_prediction :
  (forall w x, I w -> I (with_log x w)) ->
  (forall w x, I w -> I (with_compute_worker_queue x w)) ->
  keeps I (_prepare_compute_worker_run job_id submission is_prediction).
Proof.
  intros Hlog Hqueue. unfold _prepare_compute_worker_run.
  destruct is_prediction; simpl;
    (apply keeps_bind; [now apply keeps_logger |]); intros _;
    destruct (queue (competition (phase submission)));
    now apply keeps_apply_async.
Qed.







(** ** An authentic callback *)

(** A callback that names a job of the right type and carries the secret
    of its submission runs [_update_submission] and settles its outcome. *)
Lemma update_submission_authentic (w : World) (job_id : Z)
  (args : CallbackArgs) (job : Job) (submission : CompetitionSubmission) :
  jobs w !! job_id = Some job ->
  task_type job = "evaluate_submission" ->
  submissions w !! task_args_submission_id job = Some submission ->
  update_submission job_id args (secret submission) w
  = settle job_id job args submission
      (_update_submission submission (args_status args) job_id
         (e ← extra args; traceback e) (e ← extra args; extra_metadata e) w).
Proof.
  intros Hjob Htype Hsub.
  unfold update_submission, run_job_task, settle. rewrite Hjob.
  unfold try_except at 1, update_it. rewrite Htype.
  change (negb ("evaluate_submission" =? "evaluate_submission")%string)
    with false. cbv iota.
  unfold bind at 1, CompetitionSubmission_get. rewrite Hsub.
  rewrite String.eqb_refl. cbv iota beta. unfold negb.
  unfold bind at 1, try_except at 1.
  destruct (_update_submission _ _ _ _ _ w) as [[reported|e] w'].
  - reflexivity.
  - unfold except_Exception, SubmissionUpdateException_init, raise_new.
    reflexivity.
Qed.

(** The handler on a wrapped exception: a guarded update to FAILED. *)
Lemma handle_update_exception_wrapped (w : World) (job_id : Z) (job : Job)
  (submission row : CompetitionSubmission) (inner : Exn) :
  keyed_by_pk w ->
  submissions w !! pk submission = Some row ->
  let handled :=
    handle_update_exception job_id job
      (SubmissionUpdateException submission inner) in
  eval handled w = Return {| job_status := Some Job_FAILED |}
  /\ status_of (exec handled w) (pk submission)
     = Some (latch (status row) FAILED)
  /\ scores (exec handled w) = scores w
  /\ leaderboard (exec handled w) = leaderboard w.
Proof.
  intros Hk Hrow handled. subst handled.
  unfold handle_update_exception, eval, exec, bind, try_except, submission_of,
    ret, except_Exception, latch.
  destruct (in_FINAL_STATES (status row)) eqn:Hf.
  - destruct (set_submission_status_final w _ _ FAILED Hrow Hf) as [r ->].
    simpl. unfold status_of. simpl. rewrite Hrow. auto.
  - destruct (set_submission_status_open w _ _ FAILED Hrow Hf) as [r ->].
    simpl. unfold status_of. simpl.
    rewrite (Hk _ _ Hrow), lookup_insert_eq. auto.
Qed.

(** ** Entering the scoring step *)

Lemma keeps_attach_extra_metadata (I : World -> Prop)
  (submission : CompetitionSubmission) metadata :
  (forall w x, I w -> I (with_metadata x w)) ->
  keeps I (attach_extra_metadata submission metadata).
Proof.
  intros H. unfold attach_extra_metadata.
  destruct metadata as [fields|]; [| apply keeps_ret].
  destruct (bool_decide (fields = ∅)); [apply keeps_ret |].
  intros w Hw. unfold attach_metadata.
  destruct (List.filter _ (metadata w)) as [|? [|? ?]]; simpl; auto.
Qed.

Lemma set_submission_status_returns (submission_id : Z) target :
  triple (fun w => is_Some (submissions w !! submission_id))
    (_set_submission_status submission_id target)
    (fun _ _ => True) (fun _ _ => False).
Proof.
  intros w [row Hrow].
  destruct (in_FINAL_STATES (status row)) eqn:Hf.
  - now destruct (set_submission_status_final w _ _ target Hrow Hf) as [r ->].
  - now destruct (set_submission_status_open w _ _ target Hrow Hf) as [r ->].
Qed.

(** Saving an object of the same key and status as the row keeps the
    stored status. *)
Ltac status_side :=
  intros; unfold status_of; simpl;
  repeat match goal with H : pk _ = _ |- _ => rewrite H end;
  rewrite lookup_insert_eq; simpl;
  repeat match goal with H : status _ = _ |- _ => rewrite H end;
  reflexivity.

Ltac save_status_step :=
  eapply triple_bind;
  [ apply FieldFile_save_triple; [ status_side | intros ? ? ?; simpl; auto ]
  | intros ?; apply triple_assume; intros -> ].

(** A scoring dispatch that raises leaves the stored status of its
    submission as it found it. *)
Lemma score_raise_keeps_status (submission : CompetitionSubmission)
  (job_id : Z) :
  let stored w := status_of w (pk submission) = Some (status submission) in
  triple stored (score submission job_id) (fun _ _ => True) (fun _ w => stored w).
Proof.
  intros stored. subst stored. unfold score.
  save_status_step. gets_step. save_status_step. gets_step. save_status_step.
  eapply triple_bind
    with (R := fun _ w => status_of w (pk submission) = Some (status submission)).
  { destruct (PyStr.nonempty _); [now apply triple_ret | now apply triple_raise]. }
  intros lines.
  eapply triple_bind
    with (R := fun _ w => status_of w (pk submission) = Some (status submission)).
  { destruct (auto_migration _); [apply triple_gets | now apply triple_ret]. }
  intros automatic. save_status_step.
  eapply triple_bind
    with (R := fun _ w => status_of w (pk submission) = Some (status submission)).
  { destruct (PyStr.nonempty _); [now apply triple_ret | now apply triple_raise]. }
  intros lines'. save_status_step.
  eapply triple_bind
    with (R := fun s' w =>
                 status_of w (pk submission) = Some (status submission)
                 /\ (pk s' = pk submission /\ status s' = status submission)).
  { destruct (negb _).
    - save_status_step.
      eapply triple_weaken;
        [ apply FieldFile_save_triple
            with (I := fun w => status_of w (pk submission)
                                = Some (status submission))
                 (E := fun _ w => status_of w (pk submission)
                                  = Some (status submission));
          [ status_side | auto ]
        | auto | | auto ].
      intros s' w [Hw ->]. auto.
    - apply triple_ret. auto. }
  intros produced. apply triple_assume. intros [Hpk Hst].
  do 3 save_status_step.
  eapply triple_bind
    with (R := fun _ w => status_of w (pk submission) = Some (status submission)).
  { intros w Hw. status_side. }
  intros ?.
  eapply triple_bind.
  { apply keeps_triple; [| auto].
    apply keeps_prepare_compute_worker_run; intros ? ? H; exact H. }
  intros ?.
  eapply triple_bind with (R := fun _ _ => True).
  { destruct (negb _); [| now apply triple_ret].
    eapply triple_weaken; [apply set_submission_status_returns | | auto |].
    - simpl. intros w Hw. rewrite Hpk. unfold status_of in Hw.
      destruct (submissions w !! pk submission); [eauto | discriminate].
    - intros ? ? []. }
  intros ?.
  eapply triple_bind with (R := fun _ _ => True); [now intros ? ? |].
  intros ?. now apply triple_ret.
Qed.

Lemma enter_scoring_raise (submission : CompetitionSubmission) (job_id : Z)
  (w w' : World) (e : Exn) :
  score submission job_id w = (Raise e, w') ->
  enter_scoring submission job_id w
  = (Return (Some Job_FAILED),
     with_log
       (log w' ++
        [{| level := EXCEPTION;
            format := "update_submission_task failed to enter scoring phase (pk=%s)";
            log_args := [ArgInt (pk submission)] |}])%list w').
Proof.
  intros H. unfold enter_scoring, try_except.
  rewrite (bind_Raise _ _ _ _ _ H). reflexivity.
Qed.

(** C9 — Best-effort continuation. On an authentic 'finished' callback for
    a submission whose execution key holds no ['score'], when the scoring
    dispatch raises, the exception goes no further than the branch that
    tried: a record of level exception is logged, the callback reports a
    failed job, and the stored status of the submission is the one it had;
    it is not set to FAILED. *)
Theorem failed_scoring_dispatch_keeps_status (w w0 : World) (job_id : Z)
  (args : CallbackArgs) (job : Job) (submission : CompetitionSubmission)
  (e : Exn) :
  keyed_by_pk w ->
  jobs w !! job_id = Some job ->
  task_type job = "evaluate_submission" ->
  submissions w !! task_args_submission_id job = Some submission ->
  args_status args = "finished" ->
  execution_key submission !! "score" = None ->
  attach_extra_metadata submission (e ← extra args; extra_metadata e) w
  = (Return tt, w0) ->
  eval (score submission job_id) w0 = Raise e ->
  let callback := update_submission job_id args (secret submission) w in
  fst callback = Some {| job_status := Some Job_FAILED |}
  /\ status_of (snd callback) (pk submission) = Some (status submission)
  /\ (exists record, record ∈ log (snd callback)
                     /\ level record = EXCEPTION
                     /\ format record
                        = "update_submission_task failed to enter scoring phase (pk=%s)").
Proof.
  intros Hk Hjob Htype Hsub Hfinished Hkey Hattach Hscore callback.
  subst callback.
  rewrite (update_submission_authentic w job_id args job submission
             Hjob Htype Hsub).
  unfold _update_submission. rewrite (bind_Return _ _ _ _ _ Hattach).
  rewrite Hfinished.
  change ("finished" =? "running")%string with false.
  change ("finished" =? "finished")%string with true. cbv iota.
  rewrite bool_decide_eq_false_2 by (rewrite Hkey; apply is_Some_None).
  assert (Hstored : status_of w0 (pk submission) = Some (status submission)).
  { pose proof (keeps_attach_extra_metadata
                  (fun w => status_of w (pk submission)
                            = Some (status submission))
                  submission (e ← extra args; extra_metadata e)
                  (fun _ _ H => H) w) as H.
    rewrite Hattach in H. apply H.
    unfold status_of. rewrite <- (Hk _ _ Hsub) in Hsub. now rewrite Hsub. }
  pose proof (score_raise_keeps_status submission job_id w0 Hstored) as Hkept.
  unfold eval in Hscore.
  destruct (score submission job_id w0) as [[s'|e'] w1] eqn:Hrun;
    [discriminate |].
  rewrite (enter_scoring_raise _ _ _ _ _ Hrun).
  unfold settle. simpl. split; [reflexivity |]. split; [exact Hkept |].
  exists {| level := EXCEPTION;
            format := "update_submission_task failed to enter scoring phase (pk=%s)";
            log_args := [ArgInt (pk submission)] |}.
  split; [| split; reflexivity].
  apply list_elem_of_In, in_or_app. right. left. reflexivity.
Qed.

(** ** The scores of a finished scoring step *)

Lemma filter_named_none (defs : list SubmissionScoreDef) (cid : Z) (k : string) :
  List.find (fun d => bool_decide (def_key d = (cid, k))) defs = None ->
  filter (fun d => scoredef_competition d = cid /\ key d = k) defs = [].
Proof.
  induction defs as [|d rest IH]; simpl; [reflexivity |].
  destruct (bool_decide (def_key d = (cid, k))) eqn:Hd; [discriminate |].
  intros Hrest. apply bool_decide_eq_false in Hd.
  rewrite filter_cons_False; [now apply IH |].
  intros [Hc Hk]. apply Hd. unfold def_key. now rewrite Hc, Hk.
Qed.

Lemma filter_named_some (defs : list SubmissionScoreDef) (cid : Z) (k : string)
  (d : SubmissionScoreDef) :
  List.find (fun d => bool_decide (def_key d = (cid, k))) defs = Some d ->
  exists rest,
    filter (fun d => scoredef_competition d = cid /\ key d = k) defs = d :: rest
    /\ (NoDup (def_key <$> defs) -> rest = []).
Proof.
  induction defs as [|d0 tail IH]; simpl; [discriminate |].
  destruct (bool_decide (def_key d0 = (cid, k))) eqn:Hd.
  - intros [= ->]. apply bool_decide_eq_true in Hd.
    injection Hd as Hc Hk.
    exists (filter (fun d => scoredef_competition d = cid /\ key d = k) tail).
    split; [now rewrite filter_cons_True |].
    intros Hnodup. apply NoDup_cons in Hnodup as [Hfresh _].
    apply elem_of_nil_inv. intros d' Hin.
    apply list_elem_of_filter in Hin as [[Hc' Hk'] Hin].
    apply Hfresh. apply list_elem_of_fmap. exists d'. split; [| exact Hin].
    unfold def_key. congruence.
  - intros Hfind. apply bool_decide_eq_false in Hd.
    destruct (IH Hfind) as (rest & Hfilter & Hunique).
    exists rest. split.
    + rewrite filter_cons_False; [exact Hfilter |].
      intros [Hc Hk]. apply Hd. unfold def_key. now rewrite Hc, Hk.
    + intros Hnodup. apply Hunique.
      now apply NoDup_cons in Hnodup as [_ Hnodup].
Qed.







(** ** After the scores *)

Lemma keeps_add_submission_to_leaderboard (I : World -> Prop) submission :
  (forall w x, I w -> I (with_leaderboard x w)) ->
  keeps I (add_submission_to_leaderboard submission).
Proof.
  intros H. unfold add_submission_to_leaderboard. apply keeps_bind.
  - apply keeps_calling.
  - intros _. apply keeps_modify. intros w Hw. now apply H.
Qed.

Lemma keeps_force_best_submission (I : World -> Prop) submission :
  (forall w x, I w -> I (with_leaderboard x w)) ->
  keeps I (force_best_submission submission).
Proof.
  intros H. unfold force_best_submission.
  apply keeps_bind; [apply keeps_reading |]. intros score_def.
  apply keeps_bind; [apply keeps_gets |]. intros top_score.
  apply keeps_bind; [apply keeps_reading |]. intros score_value.
  destruct score_def as [score_def|]; [| apply keeps_raise].
  destruct (String.eqb (sorting score_def) "asc").
  - destruct (minimum _); [| apply keeps_raise].
    destruct (py_ge _ _); [| apply keeps_ret].
    now apply keeps_add_submission_to_leaderboard.
  - destruct (String.eqb (sorting score_def) "desc"); [| apply keeps_ret].
    destruct (maximum _); [| apply keeps_raise].
    destruct (py_le _ _); [| apply keeps_ret].
    now apply keeps_add_submission_to_leaderboard.
Qed.

Lemma keeps_promote (I : World -> Prop) submission :
  (forall w x, I w -> I (with_leaderboard x w)) ->
  keeps I (promote submission).
Proof.
  intros H. unfold promote.
  apply keeps_bind.
  { destruct (_ && _); [now apply keeps_add_submission_to_leaderboard
                       | apply keeps_ret]. }
  intros _. apply keeps_bind.
  { destruct (_ && _); [now apply keeps_add_submission_to_leaderboard
                       | apply keeps_ret]. }
  intros _.
  destruct (force_best_submission_to_leaderboard _);
    [now apply keeps_force_best_submission | apply keeps_ret].
Qed.

Lemma keeps_notify (I : World -> Prop) submission :
  (forall w x, I w -> I (with_outbox x w)) ->
  keeps I (notify submission).
Proof.
  intros H. unfold notify.
  destruct (email_on_submission_finished_successfully _); [| apply keeps_ret].
  unfold send_mail. apply keeps_bind; [apply keeps_calling |].
  intros _. apply keeps_modify. intros w Hw. now apply H.
Qed.

Lemma keeps_record_score (I : World -> Prop) submission line :
  (forall w x, I w -> I (with_scores x w)) ->
  (forall w x, I w -> I (with_log x w)) ->
  keeps I (record_score submission line).
Proof.
  intros Hscores Hlog. unfold record_score.
  destruct (PyStr.nonempty line); [| apply keeps_ret].
  destruct (PyStr.split ":" line) as [|label [|value [|? ?]]];
    try apply keeps_raise.
  apply keeps_try_except.
  - apply keeps_bind.
    + intros w Hw. unfold SubmissionScoreDef_get.
      now destruct (filter _ (scoredefs w)) as [|? [|? ?]].
    + intros d. destruct (float value); [| apply keeps_raise].
      apply keeps_modify. intros w Hw. now apply Hscores.
  - intros e handler He. destruct e; try discriminate.
    injection He as <-. now apply keeps_logger.
Qed.

Lemma keeps_process_scores (I : World -> Prop) submission text :
  (forall w x, I w -> I (with_scores x w)) ->
  (forall w x, I w -> I (with_log x w)) ->
  keeps I (process_scores submission text).
Proof.
  intros Hscores Hlog. unfold process_scores. apply keeps_for_each.
  intros line. now apply keeps_record_score.
Qed.

(** Reading the archive changes nothing. *)
Lemma load_scores_world (submission : CompetitionSubmission) (w : World) :
  snd (load_scores submission w) = w.
Proof.
  unfold load_scores, open_output_archive, bind, calling.
  destruct (is_up Storage w); [| reflexivity].
  destruct (storage w !! name_of submission output_file) as [[?|?]|];
    reflexivity.
Qed.

(** The guarded update on a stored row: it returns, the rows stay under
    their keys, the row has the latched status, and only the submission
    table and the log have changed. *)
Lemma set_submission_status_effect (w : World) (submission_id : Z)
  (row : CompetitionSubmission) target :
  keyed_by_pk w ->
  submissions w !! submission_id = Some row ->
  exists w' row',
    _set_submission_status submission_id target w = (Return tt, w')
    /\ keyed_by_pk w'
    /\ submissions w' !! submission_id = Some row'
    /\ status row' = latch (status row) target
    /\ scores w' = scores w
    /\ leaderboard w' = leaderboard w.
Proof.
  intros Hk Hrow. unfold latch.
  destruct (in_FINAL_STATES (status row)) eqn:Hf.
  - destruct (set_submission_status_final w _ _ target Hrow Hf) as [r ->].
    exists (with_log r w), row. repeat split; auto.
  - destruct (set_submission_status_open w _ _ target Hrow Hf) as [r ->].
    eexists _, (with_status target row). split; [reflexivity |].
    pose proof (Hk _ _ Hrow) as Hpk.
    split; [| split; [simpl; rewrite Hpk; apply lookup_insert_eq
                     | repeat split; auto]].
    unfold keyed_by_pk. simpl. apply map_Forall_insert_2; [| exact Hk].
    reflexivity.
Qed.

Lemma latch_final (old target : CompetitionSubmissionStatus) :
  in_FINAL_STATES target = true ->
  in_FINAL_STATES (latch old target) = true.
Proof. intros H. unfold latch. now destruct (in_FINAL_STATES old) eqn:Ho. Qed.

Lemma latch_of_final (old target : CompetitionSubmissionStatus) :
  in_FINAL_STATES old = true -> latch old target = old.
Proof. intros H. unfold latch. now rewrite H. Qed.

(** How a run of [_update_submission] settles: a result leaves the world,
    an exception adds a guarded update to FAILED. *)
Lemma settle_effect (job_id : Z) (job : Job) (args : CallbackArgs)
  (submission row : CompetitionSubmission)
  (out : Outcome (option JobStatus)) (w : World) :
  keyed_by_pk w ->
  submissions w !! pk submission = Some row ->
  let settled := settle job_id job args submission (out, w) in
  fst settled
  = Some {| job_status := match out with
                          | Return reported => reported
                          | Raise _ => Some Job_FAILED
                          end |}
  /\ status_of (snd settled) (pk submission)
     = Some (match out with
             | Return _ => status row
             | Raise _ => latch (status row) FAILED
             end)
  /\ scores (snd settled) = scores w
  /\ leaderboard (snd settled) = leaderboard w.
Proof.
  intros Hk Hrow settled. subst settled. unfold settle.
  destruct out as [reported|e].
  - simpl. unfold status_of. rewrite Hrow. auto.
  - unfold bind, logger, modify.
    set (w' := with_log _ w).
    destruct (handle_update_exception_wrapped w' job_id job submission row e
                Hk Hrow) as (Hr & Hs & Hsc & Hl).
    unfold eval, exec in Hr, Hs, Hsc, Hl.
    destruct (handle_update_exception _ _ _ w') as [[reported|e'] w''];
      [| discriminate].
    simpl in *. injection Hr as ->. auto.
Qed.

(** ** A finished scoring step, end to end *)

Lemma then_ret {A B} (c : M A) (r : B) (w : World) :
  (c ;; ret r) w
  = match c w with
    | (Return _, w') => (Return r, w')
    | (Raise e, w') => (Raise e, w')
    end.
Proof. unfold bind, ret. now destruct (c w) as [[a|e] w']. Qed.

Lemma bind_assoc {A B C} (c : M A) (k : A -> M B) (h : B -> M C) (w : World) :
  bind (bind c k) h w = bind c (fun a => bind (k a) h) w.
Proof. unfold bind. now destruct (c w) as [[a|e] w']. Qed.

(** The metadata step changes no table but the metadata. *)
Lemma attach_extra_metadata_world (submission : CompetitionSubmission)
  (given : option (gmap string string)) (w w0 : World) out :
  attach_extra_metadata submission given w = (out, w0) ->
  exists rows, w0 = with_metadata rows w.
Proof.
  assert (Hsame : w = with_metadata (metadata w) w) by now destruct w.
  unfold attach_extra_metadata.
  destruct given as [fields|];
    [| intros [= _ <-]; eexists; exact Hsame].
  destruct (bool_decide (fields = ∅));
    [intros [= _ <-]; eexists; exact Hsame |].
  unfold attach_metadata.
  destruct (List.filter _ (metadata w)) as [|? [|? ?]]; intros [= _ <-];
    eexists; first [reflexivity | exact Hsame].
Qed.

(** An authentic 'finished' callback of a scoring step settles the branch
    of the finished scoring step. *)
Lemma finished_callback_run (w w0 : World) (job_id : Z) (args : CallbackArgs)
  (job : Job) (submission : CompetitionSubmission) :
  jobs w !! job_id = Some job ->
  task_type job = "evaluate_submission" ->
  submissions w !! task_args_submission_id job = Some submission ->
  args_status args = "finished" ->
  is_Some (execution_key submission !! "score") ->
  attach_extra_metadata submission (e ← extra args; extra_metadata e) w
  = (Return tt, w0) ->
  update_submission job_id args (secret submission) w
  = settle job_id job args submission (finished_scoring submission w0).
Proof.
  intros Hjob Htype Hsub Hfinished Hkey Hattach.
  rewrite (update_submission_authentic w job_id args job submission
             Hjob Htype Hsub).
  f_equal. unfold _update_submission.
  rewrite (bind_Return _ _ _ _ _ Hattach). rewrite Hfinished.
  change ("finished" =? "running")%string with false.
  change ("finished" =? "finished")%string with true. cbv iota.
  now rewrite bool_decide_eq_true_2.
Qed.

(** From the guarded update to FINISHED on: whatever promotion and mail
    do, the callback leaves the latched status and the scores. *)
Lemma concluded_scoring (w1 : World) (job_id : Z) (job : Job)
  (args : CallbackArgs) (submission row : CompetitionSubmission) :
  keyed_by_pk w1 ->
  submissions w1 !! pk submission = Some row ->
  let concluded := exec (_set_submission_status (pk submission) FINISHED) w1 in
  let settled :=
    settle job_id job args submission
      ((_set_submission_status (pk submission) FINISHED ;;
        promote submission ;; notify submission ;;
        ret (Some Job_FINISHED)) w1) in
  status_of concluded (pk submission) = Some (latch (status row) FINISHED)
  /\ status_of (snd settled) (pk submission)
     = Some (latch (status row) FINISHED)
  /\ scores (snd settled) = scores w1
  /\ (forall e, eval (promote submission ;; notify submission) concluded
                = Raise e ->
                fst settled = Some {| job_status := Some Job_FAILED |}).
Proof.
  intros Hk Hrow concluded settled.
  destruct (set_submission_status_effect w1 _ row FINISHED Hk Hrow)
    as (w2 & row2 & Hset & Hk2 & Hrow2 & Hst2 & Hsc2 & _).
  assert (Hconcluded : concluded = w2)
    by (subst concluded; unfold exec; now rewrite Hset).
  subst settled. rewrite Hconcluded.
  rewrite (bind_Return _ _ _ _ _ Hset). cbv beta.
  rewrite <- (bind_assoc (promote submission) (fun _ => notify submission)).
  rewrite then_ret.
  assert (Hkeeps : keeps (fun w' => submissions w' = submissions w2
                                    /\ scores w' = scores w2)
                         (promote submission ;; notify submission)).
  { apply keeps_bind.
    - apply keeps_promote. intros ? ? H. exact H.
    - intros _. apply keeps_notify. intros ? ? H. exact H. }
  specialize (Hkeeps w2 (conj eq_refl eq_refl)).
  unfold eval.
  destruct ((promote submission ;; notify submission) w2) as [[[]|e] w3];
    destruct Hkeeps as [Hsub3 Hsc3].
  - destruct (settle_effect job_id job args submission row2
                (Return (Some Job_FINISHED)) w3) as (_ & Hs & Hsc & _).
    + unfold keyed_by_pk. now rewrite Hsub3.
    + now rewrite Hsub3.
    + split; [unfold status_of; rewrite Hrow2; simpl; now rewrite Hst2 |].
      split; [rewrite Hs; now rewrite Hst2 |].
      split; [congruence | discriminate].
  - destruct (settle_effect job_id job args submission row2 (Raise e) w3)
      as (Hr & Hs & Hsc & _).
    + unfold keyed_by_pk. now rewrite Hsub3.
    + now rewrite Hsub3.
    + split; [unfold status_of; rewrite Hrow2; simpl; now rewrite Hst2 |].
      split.
      { rewrite Hs, Hst2. rewrite latch_of_final; [reflexivity |].
        now apply latch_final. }
      split; [congruence |]. intros e' _. exact Hr.
Qed.

(** The loop over the lines keeps the submission table. *)
Lemma process_scores_table (submission : CompetitionSubmission) (text : string)
  (w : World) :
  let w' := snd (process_scores submission text w) in
  submissions w' = submissions w /\ scoredefs w' = scoredefs w.
Proof.
  pose proof (keeps_process_scores
                (fun w' => submissions w' = submissions w
                           /\ scoredefs w' = scoredefs w)
                submission text (fun _ _ H => H) (fun _ _ H => H)
                w (conj eq_refl eq_refl)) as H.
  simpl. now destruct (process_scores submission text w) as [[[]|e] w'].
Qed.

(** C10 — FINISHED comes before promotion and mail. On an authentic
    'finished' callback of a scoring step whose scores have been read and
    recorded, the guarded update to FINISHED is made first: the stored
    status is then final (FINISHED when the submission was not in a final
    state). When promotion or the mail then raise, the exception goes to
    the handler, the callback reports a failed job, and the stored status
    is still the one the update to FINISHED left. *)
Theorem finished_survives_promotion_failure (w w0 w1 : World) (job_id : Z)
  (args : CallbackArgs) (job : Job) (submission : CompetitionSubmission)
  (text : string) (e : Exn) :
  keyed_by_pk w ->
  jobs w !! job_id = Some job ->
  task_type job = "evaluate_submission" ->
  submissions w !! task_args_submission_id job = Some submission ->
  args_status args = "finished" ->
  is_Some (execution_key submission !! "score") ->
  attach_extra_metadata submission (e ← extra args; extra_metadata e) w
  = (Return tt, w0) ->
  load_scores submission w0 = (Return (Some text), w0) ->
  process_scores submission text w0 = (Return tt, w1) ->
  let concluded := exec (_set_submission_status (pk submission) FINISHED) w1 in
  eval (promote submission ;; notify submission) concluded = Raise e ->
  let callback := update_submission job_id args (secret submission) w in
  status_of concluded (pk submission)
  = Some (latch (status submission) FINISHED)
  /\ in_FINAL_STATES (latch (status submission) FINISHED) = true
  /\ (in_FINAL_STATES (status submission) = false ->
      status_of concluded (pk submission) = Some FINISHED)
  /\ fst callback = Some {| job_status := Some Job_FAILED |}
  /\ status_of (snd callback) (pk submission)
     = status_of concluded (pk submission).
Proof.
  intros Hk Hjob Htype Hsub Hfinished Hkey Hattach Hload Hprocess
         concluded Hraise callback.
  subst callback.
  rewrite (finished_callback_run w w0 job_id args job submission
             Hjob Htype Hsub Hfinished Hkey Hattach).
  unfold finished_scoring.
  rewrite (bind_Return _ _ _ _ _ Hload). cbv beta iota.
  rewrite (bind_Return _ _ _ _ _ Hprocess). cbv beta.
  destruct (attach_extra_metadata_world _ _ _ _ _ Hattach) as [rows ->].
  destruct (process_scores_table submission text (with_metadata rows w))
    as [Htable _].
  rewrite Hprocess in Htable. simpl in Htable.
  assert (Hrow : submissions w1 !! pk submission = Some submission).
  { rewrite Htable. now rewrite (Hk _ _ Hsub). }
  assert (Hk1 : keyed_by_pk w1).
  { unfold keyed_by_pk. rewrite Htable. exact Hk. }
  destruct (concluded_scoring w1 job_id job args submission submission
              Hk1 Hrow) as (Hc & Hs & _ & Hr).
  fold concluded in Hc, Hr.
  split; [exact Hc |]. split; [now apply latch_final |].
  split; [intros Hopen; rewrite Hc; unfold latch; now rewrite Hopen |].
  split; [exact (Hr e Hraise) |].
  now rewrite Hs, Hc.
Qed.


(** ** Lines the loop cannot read *)

(** A line whose label names no scoring definition is passed over with
    a warning, whatever stands after the colon. *)
Lemma record_score_unknown_label (submission : CompetitionSubmission)
  (line label value : string) (w : World) :
  PyStr.nonempty line = true ->
  PyStr.split ":" line = [label; value] ->
  named_def (scoredefs w) submission label = None ->
  record_score submission line w
  = (Return tt,
     with_log
       (log w ++
        [{| level := WARNING;
            format := "Score %s does not exist (submission_id=%s)";
            log_args := [ArgStr label; ArgInt (pk submission)] |}])%list w).
Proof.
  intros Hne Hsplit Hnone. unfold record_score. rewrite Hne, Hsplit.
  unfold try_except, bind, SubmissionScoreDef_get.
  rewrite (filter_named_none _ _ _ Hnone). reflexivity.
Qed.

(** An unreadable line raises, and the world is as it was. *)
Lemma record_score_unreadable (submission : CompetitionSubmission)
  (line : string) (w : World) :
  unreadable_line (scoredefs w) submission line ->
  exists e, record_score submission line w = (Raise e, w).
Proof.
  intros [Hne Hbad]. unfold record_score. rewrite Hne.
  destruct (PyStr.split ":" line) as [|label [|value [|? ?]]];
    try (eexists; reflexivity).
  destruct Hbad as [[d Hd] Hvalue].
  destruct (filter_named_some _ _ _ _ Hd) as (rest & Hfilter & _).
  unfold try_except, bind, SubmissionScoreDef_get. rewrite Hfilter, Hvalue.
  destruct rest; eexists; reflexivity.
Qed.

(** A scores.txt with an unreadable line makes the loop raise. *)
Lemma process_lines_unreadable (submission : CompetitionSubmission)
  (lines : list string) :
  forall w : World,
    Exists (unreadable_line (scoredefs w) submission) lines ->
    exists e w', for_each (record_score submission) lines w = (Raise e, w').
Proof.
  induction lines as [|line rest IH]; intros w Hbad.
  - inversion Hbad.
  - change (for_each (record_score submission) (line :: rest))
      with (bind (record_score submission line)
              (fun _ => for_each (record_score submission) rest)).
    pose proof (keeps_record_score
                  (fun w' => scoredefs w' = scoredefs w) submission line
                  (fun _ _ H => H) (fun _ _ H => H) w eq_refl) as Hdefs.
    destruct (record_score submission line w) as [[[]|e] w1] eqn:Hline.
    + rewrite (bind_Return _ _ _ _ _ Hline). cbv beta.
      apply IH. rewrite Hdefs.
      apply Exists_cons in Hbad as [Hhead | Htail]; [| exact Htail].
      destruct (record_score_unreadable submission line w Hhead) as [e He].
      congruence.
    + rewrite (bind_Raise _ _ _ _ _ Hline). eauto.
Qed.

(** C5, as the code has it — Malformed results. On an authentic 'finished'
    callback of a scoring step: a missing scores.txt is fatal, the callback
    reports a failed job and makes the guarded update to FAILED; a
    scores.txt with a line that is not empty and is either not two parts
    around one colon, or holds no number under a label that names a scoring
    definition, is fatal in the same way, the exception of the loop being
    handed to the handler; only a line whose label names no scoring
    definition is passed over with a warning. *)
Theorem malformed_scores (w w0 : World) (job_id : Z)
  (args : CallbackArgs) (job : Job) (submission : CompetitionSubmission) :
  keyed_by_pk w ->
  jobs w !! job_id = Some job ->
  task_type job = "evaluate_submission" ->
  submissions w !! task_args_submission_id job = Some submission ->
  args_status args = "finished" ->
  is_Some (execution_key submission !! "score") ->
  attach_extra_metadata submission (e ← extra args; extra_metadata e) w
  = (Return tt, w0) ->
  let callback := update_submission job_id args (secret submission) w in
  (load_scores submission w0 = (Return None, w0) ->
   fst callback = Some {| job_status := Some Job_FAILED |}
   /\ status_of (snd callback) (pk submission)
      = Some (latch (status submission) FAILED))
  /\ (forall text,
        load_scores submission w0 = (Return (Some text), w0) ->
        Exists (unreadable_line (scoredefs w) submission)
               (PyStr.split PyStr.newline text) ->
        fst callback = Some {| job_status := Some Job_FAILED |}
        /\ status_of (snd callback) (pk submission)
           = Some (latch (status submission) FAILED))
  /\ (forall line label value w',
        PyStr.nonempty line = true ->
        PyStr.split ":" line = [label; value] ->
        named_def (scoredefs w') submission label = None ->
        eval (record_score submission line) w' = Return tt
        /\ scores (exec (record_score submission line) w') = scores w'
        /\ exists record,
             log (exec (record_score submission line) w')
             = (log w' ++ [record])%list
             /\ level record = WARNING).
Proof.
  intros Hk Hjob Htype Hsub Hfinished Hkey Hattach callback.
  subst callback.
  rewrite (finished_callback_run w w0 job_id args job submission
             Hjob Htype Hsub Hfinished Hkey Hattach).
  destruct (attach_extra_metadata_world _ _ _ _ _ Hattach) as [mrows ->].
  pose proof (Hk _ _ Hsub) as Hpk.
  split; [| split].
  - intros Hload.
    assert (Hrun : exists w2 row2,
               finished_scoring submission (with_metadata mrows w)
               = (Return (Some Job_FAILED), w2)
               /\ keyed_by_pk w2
               /\ submissions w2 !! pk submission = Some row2
               /\ status row2 = latch (status submission) FAILED).
    { unfold finished_scoring.
      rewrite (bind_Return _ _ _ _ _ Hload). cbv beta iota.
      match goal with
      | |- context [(logger ?l ?f ?a ;; _) ?w0] =>
          rewrite (bind_Return (logger l f a) _ w0 _ tt eq_refl);
          cbv beta;
          destruct (set_submission_status_effect (exec (logger l f a) w0)
                      (pk submission) submission FAILED)
            as (w2 & row2 & Hset & Hk2 & Hrow2 & Hst2 & _)
      end.
      { exact Hk. }
      { simpl. now rewrite Hpk. }
      unfold exec in Hset.
      rewrite (bind_Return _ _ _ _ _ Hset). cbv beta. unfold ret.
      exists w2, row2. auto. }
    destruct Hrun as (w2 & row2 & -> & Hk2 & Hrow2 & Hst2).
    destruct (settle_effect job_id job args submission row2
                (Return (Some Job_FAILED)) w2 Hk2 Hrow2) as (Hr & Hs & _).
    split; [exact Hr | now rewrite Hs, Hst2].
  - intros text Hload Hbad. unfold finished_scoring.
    rewrite (bind_Return _ _ _ _ _ Hload). cbv beta iota.
    destruct (process_lines_unreadable submission _ (with_metadata mrows w) Hbad)
      as (e & w1 & Hrun).
    change (for_each (record_score submission) (PyStr.split PyStr.newline text))
      with (process_scores submission text) in Hrun.
    destruct (process_scores_table submission text (with_metadata mrows w))
      as [Htable _].
    rewrite Hrun in Htable. simpl in Htable.
    rewrite (bind_Raise _ _ _ _ _ Hrun).
    destruct (settle_effect job_id job args submission submission
                (Raise e) w1) as (Hr & Hs & _).
    { unfold keyed_by_pk. rewrite Htable. exact Hk. }
    { rewrite Htable. now rewrite Hpk. }
    split; [exact Hr | exact Hs].
  - intros line label value w' Hne Hsplit Hnone.
    unfold eval, exec.
    rewrite (record_score_unknown_label submission line label value w'
               Hne Hsplit Hnone).
    simpl. split; [reflexivity |]. split; [reflexivity |].
    eexists. split; reflexivity.
Qed.

(** ** Sequences of status updates *)

Lemma latch_all_final (old : CompetitionSubmissionStatus)
  (targets : list CompetitionSubmissionStatus) :
  in_FINAL_STATES old = true -> latch_all old targets = old.
Proof.
  unfold latch_all. induction targets as [|t rest IH]; simpl; [reflexivity |].
  intros Hf. rewrite (latch_of_final old t Hf). now apply IH.
Qed.

(** X1 — Any sequence of guarded updates of one submission returns, and
    the stored status is the fold of the latch over the targets; from a
    final status on, nothing in the sequence has an effect. *)
Theorem guarded_updates_compose
  (targets : list CompetitionSubmissionStatus) :
  forall (w : World) (submission_id : Z) (row : CompetitionSubmission),
    keyed_by_pk w ->
    submissions w !! submission_id = Some row ->
    let updates := for_each (_set_submission_status submission_id) targets in
    eval updates w = Return tt
    /\ status_of (exec updates w) submission_id
       = Some (latch_all (status row) targets)
    /\ (in_FINAL_STATES (status row) = true ->
        status_of (exec updates w) submission_id = Some (status row)).
Proof.
  induction targets as [|target rest IH]; intros w submission_id row Hk Hrow.
  - intros updates. subst updates. unfold eval, exec, status_of. simpl.
    rewrite Hrow. auto.
  - intros updates. subst updates.
    destruct (set_submission_status_effect w submission_id row target Hk Hrow)
      as (w' & row' & Hset & Hk' & Hrow' & Hst' & _).
    destruct (IH w' submission_id row' Hk' Hrow') as (Hr & Hs & _).
    unfold eval, exec in *.
    change (for_each (_set_submission_status submission_id) (target :: rest))
      with (bind (_set_submission_status submission_id target)
              (fun _ => for_each (_set_submission_status submission_id) rest)).
    rewrite (bind_Return _ _ _ _ _ Hset). cbv beta.
    assert (Hall : status_of
                     (for_each (_set_submission_status submission_id) rest w').2
                     submission_id
                   = Some (latch_all (status row) (target :: rest))).
    { rewrite Hs, Hst'. reflexivity. }
    split; [exact Hr |]. split; [exact Hall |].
    intros Hf. rewrite Hall. now rewrite latch_all_final.
Qed.

(** ** Callbacks that do not finish a step *)

(** The guarded update on a stored row, with the row it leaves. *)
Lemma set_submission_status_row (w : World) (submission_id : Z)
  (row : CompetitionSubmission) target :
  keyed_by_pk w ->
  submissions w !! submission_id = Some row ->
  exists w',
    _set_submission_status submission_id target w = (Return tt, w')
    /\ keyed_by_pk w'
    /\ submissions w' !! submission_id
       = Some (if in_FINAL_STATES (status row) then row
               else with_status target row)
    /\ jobs w' = jobs w
    /\ scores w' = scores w
    /\ compute_worker_queue w' = compute_worker_queue w
    /\ outages w' = outages w.
Proof.
  intros Hk Hrow.
  destruct (in_FINAL_STATES (status row)) eqn:Hf.
  - destruct (set_submission_status_final w _ _ target Hrow Hf) as [r ->].
    exists (with_log r w). repeat split; auto.
  - destruct (set_submission_status_open w _ _ target Hrow Hf) as [r ->].
    eexists. split; [reflexivity |].
    pose proof (Hk _ _ Hrow) as Hpk.
    split; [| split; [simpl; rewrite Hpk; apply lookup_insert_eq
                     | repeat split; auto]].
    unfold keyed_by_pk. simpl. apply map_Forall_insert_2; [| exact Hk].
    reflexivity.
Qed.

(** X2 — A 'running' callback. An authentic callback that declares
    'running' reports a running job and makes the guarded update to
    RUNNING: a submission in a final state keeps its status, so a
    'running' that arrives late does not reopen it. No score is added. *)
Theorem running_callback (w w0 : World) (job_id : Z) (args : CallbackArgs)
  (job : Job) (submission : CompetitionSubmission) :
  keyed_by_pk w ->
  jobs w !! job_id = Some job ->
  task_type job = "evaluate_submission" ->
  submissions w !! task_args_submission_id job = Some submission ->
  args_status args = "running" ->
  attach_extra_metadata submission (e ← extra args; extra_metadata e) w
  = (Return tt, w0) ->
  let settled := update_submission job_id args (secret submission) w in
  fst settled = Some {| job_status := Some Job_RUNNING |}
  /\ status_of (snd settled) (pk submission)
     = Some (latch (status submission) RUNNING)
  /\ (in_FINAL_STATES (status submission) = true ->
      status_of (snd settled) (pk submission) = Some (status submission))
  /\ scores (snd settled) = scores w.
Proof.
  intros Hk Hjob Htype Hsub Hrunning Hattach settled. subst settled.
  rewrite (update_submission_authentic w job_id args job submission
             Hjob Htype Hsub).
  unfold _update_submission.
  rewrite (bind_Return _ _ _ _ _ Hattach). rewrite Hrunning.
  change ("running" =? "running")%string with true. cbv iota beta.
  destruct (attach_extra_metadata_world _ _ _ _ _ Hattach) as [mrows ->].
  pose proof (Hk _ _ Hsub) as Hpk.
  destruct (set_submission_status_effect (with_metadata mrows w)
              (pk submission) submission RUNNING)
    as (w2 & row2 & Hset & Hk2 & Hrow2 & Hst2 & Hsc2 & _).
  { exact Hk. }
  { simpl. now rewrite Hpk. }
  rewrite (bind_Return _ _ _ _ _ Hset). cbv beta. unfold ret.
  destruct (settle_effect job_id job args submission row2
              (Return (Some Job_RUNNING)) w2 Hk2 Hrow2)
    as (Hr & Hs & Hsc & _).
  split; [exact Hr |].
  assert (Hstatus : status_of
                      (settle job_id job args submission
                         (Return (Some Job_RUNNING), w2)).2 (pk submission)
                    = Some (latch (status submission) RUNNING))
    by now rewrite Hs, Hst2.
  split; [exact Hstatus |]. split.
  - intros Hf. rewrite Hstatus. now rewrite latch_of_final.
  - rewrite Hsc, Hsc2. reflexivity.
Qed.

(** What [_update_submission] does with a status that is neither 'running'
    nor 'finished'. *)
Lemma other_status_run (w w0 : World) (submission : CompetitionSubmission)
  (declared : string) (job_id : Z) (details : option string)
  (given : option (gmap string string)) :
  keyed_by_pk w ->
  submissions w !! pk submission = Some submission ->
  String.eqb declared "running" = false ->
  String.eqb declared "finished" = false ->
  attach_extra_metadata submission given w = (Return tt, w0) ->
  let kept :=
    match details with
    | Some text =>
        if PyStr.nonempty text then with_exception_details text submission
        else submission
    | None => submission
    end in
  exists w',
    _update_submission submission declared job_id details given w
    = (Return None, w')
    /\ keyed_by_pk w'
    /\ submissions w' !! pk submission
       = Some (if in_FINAL_STATES (status submission) then kept
               else with_status FAILED kept)
    /\ jobs w' = jobs w
    /\ scores w' = scores w
    /\ compute_worker_queue w' = compute_worker_queue w
    /\ (String.eqb declared "failed" = false ->
        exists record, record ∈ log w'
                       /\ level record = ERROR
                       /\ format record
                          = "Invalid status: %s (submission_id=%s)").
Proof.
  intros Hk Hrow Hrunning Hfinished Hattach kept.
  unfold _update_submission.
  rewrite (bind_Return _ _ _ _ _ Hattach). rewrite Hrunning, Hfinished.
  cbv iota beta.
  destruct (attach_extra_metadata_world _ _ _ _ _ Hattach) as [mrows ->].
  assert (H1 : exists w1,
             (if negb (declared =? "failed")%string
              then logger ERROR "Invalid status: %s (submission_id=%s)"
                     [ArgStr declared; ArgInt (pk submission)]
              else ret tt) (with_metadata mrows w) = (Return tt, w1)
             /\ submissions w1 = submissions w /\ jobs w1 = jobs w
             /\ scores w1 = scores w
             /\ compute_worker_queue w1 = compute_worker_queue w
             /\ ((declared =? "failed")%string = false ->
                 exists record,
                   record ∈ log w1
                   /\ level record = ERROR
                   /\ format record
                      = "Invalid status: %s (submission_id=%s)")).
  { destruct (declared =? "failed")%string; simpl;
      eexists; (split; [reflexivity |]); simpl;
      repeat (split; [reflexivity |]); intros Hd; [discriminate |].
    exists {| level := ERROR;
              format := "Invalid status: %s (submission_id=%s)";
              log_args := [ArgStr declared; ArgInt (pk submission)] |}.
    split; [| split; reflexivity].
    apply list_elem_of_In, in_or_app. right. left. reflexivity. }
  destruct H1 as (w1 & H1 & Hs1 & Hj1 & Hsc1 & Hq1 & Hlog1).
  rewrite (bind_Return _ _ _ _ _ H1). cbv beta.
  set (save_details :=
         match details with
         | Some text =>
             if PyStr.nonempty text
             then save (with_exception_details text submission)
             else ret tt
         | None => ret tt
         end).
  assert (H2 : exists w2,
             save_details w1 = (Return tt, w2)
             /\ keyed_by_pk w2
             /\ submissions w2 !! pk submission = Some kept
             /\ jobs w2 = jobs w /\ scores w2 = scores w
             /\ compute_worker_queue w2 = compute_worker_queue w
             /\ log w2 = log w1).
  { assert (Hkeep : exists w2,
               ret tt w1 = (Return tt, w2)
               /\ keyed_by_pk w2
               /\ submissions w2 !! pk submission = Some submission
               /\ jobs w2 = jobs w /\ scores w2 = scores w
               /\ compute_worker_queue w2 = compute_worker_queue w
               /\ log w2 = log w1).
    { exists w1. split; [reflexivity |].
      split; [unfold keyed_by_pk; rewrite Hs1; exact Hk |].
      split; [now rewrite Hs1 |]. auto. }
    subst save_details kept. destruct details as [text|]; [| exact Hkeep].
    destruct (PyStr.nonempty text); [| exact Hkeep].
    eexists. split; [reflexivity |]. simpl.
    split; [| split; [apply lookup_insert_eq | auto]].
    unfold keyed_by_pk. simpl. apply map_Forall_insert_2; [reflexivity |].
    rewrite Hs1. exact Hk. }
  destruct H2 as (w2 & Hsave & Hk2 & Hrow2 & Hj2 & Hsc2 & Hq2 & Hlog2).
  rewrite (bind_Return _ _ _ _ _ Hsave). cbv beta.
  destruct (set_submission_status_row w2 (pk submission) kept FAILED Hk2 Hrow2)
    as (w3 & Hset & Hk3 & Hrow3 & Hj3 & Hsc3 & Hq3 & _).
  rewrite (bind_Return _ _ _ _ _ Hset). cbv beta. unfold ret.
  exists w3. split; [reflexivity |]. split; [exact Hk3 |].
  split.
  { rewrite Hrow3. subst kept.
    destruct details as [text|]; [| reflexivity].
    destruct (PyStr.nonempty text); reflexivity. }
  split; [congruence |]. split; [congruence |]. split; [congruence |].
  intros Hd. destruct (Hlog1 Hd) as (record & Hin & Hlevel & Hformat).
  exists record. split; [| auto].
  assert (Hgrow : exists more, log w3 = (log w2 ++ more)%list).
  { unfold _set_submission_status, bind, CompetitionSubmission_get in Hset.
    rewrite Hrow2 in Hset.
    destruct (in_FINAL_STATES (status kept)); simpl in Hset;
      injection Hset as <-; simpl; eauto. }
  destruct Hgrow as [more ->]. rewrite Hlog2.
  apply list_elem_of_In, in_or_app. left. now apply list_elem_of_In.
Qed.

(** X3 — A 'failed' callback. An authentic callback whose declared status
    is neither 'running' nor 'finished' reports a job without status and
    makes the guarded update to FAILED; a traceback that is not empty is
    stored as the exception details of the submission, also when the
    submission is in a final state and keeps its status; a declared status
    other than 'failed' is logged as invalid. *)
Theorem failed_callback (w w0 : World) (job_id : Z) (args : CallbackArgs)
  (job : Job) (submission : CompetitionSubmission) :
  keyed_by_pk w ->
  jobs w !! job_id = Some job ->
  task_type job = "evaluate_submission" ->
  submissions w !! task_args_submission_id job = Some submission ->
  args_status args <> "running" ->
  args_status args <> "finished" ->
  attach_extra_metadata submission (e ← extra args; extra_metadata e) w
  = (Return tt, w0) ->
  let settled := update_submission job_id args (secret submission) w in
  fst settled = Some {| job_status := None |}
  /\ status_of (snd settled) (pk submission)
     = Some (latch (status submission) FAILED)
  /\ (forall text,
        (e ← extra args; traceback e) = Some text ->
        PyStr.nonempty text = true ->
        (exception_details <$> submissions (snd settled) !! pk submission)
        = Some text)
  /\ (args_status args <> "failed" ->
      exists record, record ∈ log (snd settled) /\ level record = ERROR).
Proof.
  intros Hk Hjob Htype Hsub Hrunning Hfinished Hattach settled. subst settled.
  rewrite (update_submission_authentic w job_id args job submission
             Hjob Htype Hsub).
  pose proof (Hk _ _ Hsub) as Hpk.
  apply String.eqb_neq in Hrunning, Hfinished.
  destruct (other_status_run w w0 submission (args_status args) job_id
              (e ← extra args; traceback e) (e ← extra args; extra_metadata e))
    as (w' & -> & Hk' & Hrow' & _ & _ & _ & Hlog); auto.
  { now rewrite Hpk. }
  unfold settle. simpl fst. simpl snd.
  split; [reflexivity |]. split.
  { unfold status_of. rewrite Hrow'. unfold latch.
    destruct (in_FINAL_STATES (status submission)) eqn:Hf; simpl;
      [| reflexivity].
    destruct (e ← extra args; traceback e) as [text|]; [| reflexivity].
    now destruct (PyStr.nonempty text). }
  split.
  { intros text Htext Hne. rewrite Hrow', Htext, Hne.
    now destruct (in_FINAL_STATES (status submission)). }
  intros Hfailed. apply String.eqb_neq in Hfailed.
  destruct (Hlog Hfailed) as (record & Hin & Hlevel & _). eauto.
Qed.

(** X4 — A callback for a job of another task type reports a failed job
    and changes nothing that is stored about submissions: the table, the
    scores, the leaderboard and the queue of the compute workers are as
    they were, whatever the secret and the declared status. *)
Theorem foreign_job_changes_nothing (w : World) (job_id : Z)
  (args : CallbackArgs) (secret' : string) (job : Job) :
  jobs w !! job_id = Some job ->
  task_type job <> "evaluate_submission" ->
  let settled := update_submission job_id args secret' w in
  fst settled = Some {| job_status := Some Job_FAILED |}
  /\ submissions (snd settled) = submissions w
  /\ scores (snd settled) = scores w
  /\ leaderboard (snd settled) = leaderboard w
  /\ compute_worker_queue (snd settled) = compute_worker_queue w.
Proof.
  intros Hjob Htype settled. subst settled.
  unfold update_submission, run_job_task. rewrite Hjob.
  unfold try_except at 1, update_it, except_Exception.
  apply String.eqb_neq in Htype. rewrite Htype. simpl.
  repeat split; reflexivity.
Qed.

(** ** Dispatching a step *)

Lemma apply_async_down (d : Envelope) limit connection (w : World) :
  is_up Broker w = false ->
  apply_async d limit connection w = (Raise ConnectionError, w).
Proof.
  intros Hdown. unfold apply_async, bind, calling. now rewrite Hdown.
Qed.

(** The dispatch itself: with the broker reachable one task is published,
    with the job, the step, the secret and the key of the submission, on
    the virtual host of the competition if it has one; otherwise the call
    raises and nothing is published. *)
Lemma prepare_compute_worker_run_run (job_id : Z)
  (submission : CompetitionSubmission) (is_prediction : bool) (w : World) :
  exists published records,
    _prepare_compute_worker_run job_id submission is_prediction w
    = (if is_up Broker w
       then (Return tt,
             with_compute_worker_queue
               (append (compute_worker_queue w) published)
               (with_log records w))
       else (Raise ConnectionError, with_log records w))
    /\ envelope_id (data published) = job_id
    /\ ta_predict (task_args (data published)) = is_prediction
    /\ ta_secret (task_args (data published)) = secret submission
    /\ ta_submission_id (task_args (data published)) = pk submission
    /\ connection_vhost published
       = (vhost <$> queue (competition (phase submission))).
Proof.
  unfold _prepare_compute_worker_run.
  destruct is_prediction; simpl;
    destruct (queue (competition (phase submission))) as [named|];
    eexists _, _;
    (split;
     [ unfold bind at 1; unfold logger at 1, modify; cbv beta iota;
       (destruct (is_up Broker w) eqn:Hup;
        [ rewrite apply_async_up by exact Hup
        | rewrite apply_async_down by exact Hup ]); reflexivity
     | repeat split ]).
Qed.

Lemma FieldFile_save_row (js : gmap Z Job) (q : list Published)
  (o : list Service) (submission_id : Z)
  (P0 P : CompetitionSubmission -> Prop) (f : FileField)
  (submission : CompetitionSubmission) (name : string) (content : Content) :
  pk submission = submission_id ->
  P submission ->
  (forall row, P row -> P0 row) ->
  (forall fs row, P row -> P (with_files fs row)) ->
  triple (fun w => site_is js q o w /\ row_has submission_id P0 w)
    (FieldFile_save f submission name content)
    (fun saved w => (site_is js q o w /\ row_has submission_id P0 w)
                    /\ (pk saved = submission_id /\ P saved))
    (fun _ w => site_is js q o w /\ row_has submission_id P0 w).
Proof.
  intros Hpk HP Hweak Hfiles w [(Hk & Hj & Hq & Ho) Hrow].
  rewrite FieldFile_save_run.
  destruct (is_up Storage w); [| now repeat split].
  set (saved := with_files _ submission).
  assert (HPs : P saved) by (subst saved; now apply Hfiles).
  split; [| now split].
  split.
  - repeat split; auto.
    unfold keyed_by_pk. simpl. apply map_Forall_insert_2; [reflexivity | exact Hk].
  - exists saved. simpl. change (pk saved) with (pk submission).
    rewrite Hpk, lookup_insert_eq. auto.
Qed.

(** The end of a dispatch: the object is saved, the task is published
    and, where the step asks for it, the guarded update to SUBMITTED is
    made. *)
Lemma dispatch_tail (js : gmap Z Job) (q : list Published) (o : list Service)
  (job_id : Z) (submission : CompetitionSubmission)
  (is_prediction resubmit : bool) :
  triple (fun w => site_is js q o w)
    (save submission ;;
     _prepare_compute_worker_run job_id submission is_prediction ;;
     (if resubmit then _set_submission_status (pk submission) SUBMITTED
      else ret tt))
    (fun _ w =>
       keyed_by_pk w /\ jobs w = js /\ outages w = o
       /\ (exists published,
             compute_worker_queue w = append q published
             /\ envelope_id (data published) = job_id
             /\ ta_predict (task_args (data published)) = is_prediction
             /\ ta_secret (task_args (data published)) = secret submission
             /\ ta_submission_id (task_args (data published)) = pk submission
             /\ connection_vhost published
                = (vhost <$> queue (competition (phase submission))))
       /\ submissions w !! pk submission
          = Some (if resubmit && negb (in_FINAL_STATES (status submission))
                  then with_status SUBMITTED submission
                  else submission))
    (fun e w => site_is js q o w
                /\ submissions w !! pk submission = Some submission
                /\ e = ConnectionError).
Proof.
  intros w (Hk & Hj & Hq & Ho).
  unfold bind at 1, save, modify.
  set (w1 := with_submissions _ w).
  assert (Hk1 : keyed_by_pk w1).
  { subst w1. unfold keyed_by_pk. simpl.
    apply map_Forall_insert_2; [reflexivity | exact Hk]. }
  assert (Hrow1 : submissions w1 !! pk submission = Some submission)
    by (subst w1; simpl; apply lookup_insert_eq).
  destruct (prepare_compute_worker_run_run job_id submission is_prediction w1)
    as (published & records & Hrun & Hid & Hpredict & Hsecret & Hsid & Hvhost).
  unfold bind at 1. rewrite Hrun.
  destruct (is_up Broker w1).
  - set (w2 := with_compute_worker_queue _ _).
    assert (Hpublished : exists published,
               compute_worker_queue w2 = append q published
               /\ envelope_id (data published) = job_id
               /\ ta_predict (task_args (data published)) = is_prediction
               /\ ta_secret (task_args (data published)) = secret submission
               /\ ta_submission_id (task_args (data published)) = pk submission
               /\ connection_vhost published
                  = (vhost <$> queue (competition (phase submission)))).
    { exists published. subst w2 w1. simpl. rewrite Hq. auto 10. }
    destruct resubmit; simpl andb.
    + destruct (set_submission_status_row w2 (pk submission) submission
                  SUBMITTED Hk1 Hrow1)
        as (w3 & -> & Hk3 & Hrow3 & Hj3 & _ & Hq3 & Ho3).
      split; [exact Hk3 |]. split; [rewrite Hj3; exact Hj |].
      split; [rewrite Ho3; exact Ho |].
      split; [rewrite Hq3; exact Hpublished |].
      rewrite Hrow3. now destruct (in_FINAL_STATES (status submission)).
    + simpl. auto 10.
  - simpl. repeat split; auto.
Qed.

Lemma logger_triple (I : World -> Prop) l fmt a (E : Exn -> World -> Prop) :
  (forall w records, I w -> I (with_log records w)) ->
  triple I (logger l fmt a) (fun _ => I) E.
Proof. intros H w Hw. simpl. now apply H. Qed.

Lemma triple_ext {A} (P : World -> Prop) (c c' : M A) Q E :
  (forall w, c w = c' w) -> triple P c' Q E -> triple P c Q E.
Proof. intros Heq H w Hw. rewrite Heq. now apply H. Qed.

Lemma bind3_assoc {A B C D} (c1 : M A) (c2 : M B) (c3 : M C) (k : M D)
  (w : World) :
  (c1 ;; c2 ;; c3 ;; k) w = ((c1 ;; c2 ;; c3) ;; k) w.
Proof.
  unfold bind. destruct (c1 w) as [[a|e] w1]; [| reflexivity].
  now destruct (c2 w1) as [[b|e] w2].
Qed.

(** A prediction dispatch, given a property [P0] of the stored row that
    saving files and setting the execution key do not disturb: when it
    returns, one task has been published and the row is the object with
    the key [{'predict': job_id}], SUBMITTED unless it was final; when it
    raises, nothing has been published and the row still has [P0]. *)
Lemma predict_dispatch (js : gmap Z Job) (q : list Published)
  (o : list Service) (P0 : CompetitionSubmission -> Prop)
  (submission : CompetitionSubmission) (job_id : Z) :
  P0 submission ->
  (forall fs row, P0 row -> P0 (with_files fs row)) ->
  (forall k row, P0 row -> P0 (with_execution_key k row)) ->
  triple (fun w => site_is js q o w /\ row_has (pk submission) P0 w)
    (predict submission job_id)
    (fun _ w =>
       keyed_by_pk w /\ jobs w = js /\ outages w = o
       /\ exists object,
            pk object = pk submission /\ P0 object
            /\ execution_key object = {[ "predict" := job_id ]}
            /\ (exists published,
                  compute_worker_queue w = append q published
                  /\ envelope_id (data published) = job_id
                  /\ ta_predict (task_args (data published)) = true
                  /\ ta_secret (task_args (data published)) = secret object
                  /\ ta_submission_id (task_args (data published))
                     = pk submission
                  /\ connection_vhost published
                     = (vhost <$> queue (competition (phase object))))
            /\ submissions w !! pk submission
               = Some (if negb (in_FINAL_STATES (status object))
                       then with_status SUBMITTED object
                       else object))
    (fun _ w => site_is js q o w /\ row_has (pk submission) P0 w).
Proof.
  intros HP Hfiles Hkey. unfold predict.
  eapply triple_bind
    with (R := fun _ w => site_is js q o w /\ row_has (pk submission) P0 w).
  { destruct (PyStr.nonempty _); [now apply triple_ret | now apply triple_raise]. }
  intros lines.
  eapply triple_bind;
    [ apply (FieldFile_save_row js q o (pk submission) P0 P0); auto
    | intros s1; apply triple_assume; intros [Hpk1 HP1] ].
  eapply triple_bind;
    [ apply (FieldFile_save_row js q o (pk submission) P0 P0); auto
    | intros s2; apply triple_assume; intros [Hpk2 HP2] ].
  eapply triple_bind;
    [ apply (FieldFile_save_row js q o (pk submission) P0 P0); auto
    | intros s3; apply triple_assume; intros [Hpk3 HP3] ].
  eapply triple_bind;
    [ apply (FieldFile_save_row js q o (pk submission) P0 P0); auto
    | intros s4; apply triple_assume; intros [Hpk4 HP4] ].
  eapply triple_bind;
    [ apply (FieldFile_save_row js q o (pk submission) P0 P0); auto
    | intros s5; apply triple_assume; intros [Hpk5 HP5] ].
  eapply triple_bind
    with (R := fun _ w => site_is js q o w /\ row_has (pk submission) P0 w).
  { apply keeps_logger. intros w records [(Hk & Hj & Hq & Ho) Hrow].
    now repeat split. }
  intros ?.
  eapply triple_bind;
    [ apply (FieldFile_save_row js q o (pk submission) P0 P0); auto
    | intros s6; apply triple_assume; intros [Hpk6 HP6] ].
  set (object := with_execution_key {[ "predict" := job_id ]} s6).
  assert (HPo : P0 object) by (subst object; now apply Hkey).
  assert (Hpko : pk object = pk submission) by (subst object; exact Hpk6).
  eapply triple_ext; [intros w; apply bind3_assoc |].
  eapply triple_bind.
  { eapply triple_weaken;
      [ apply (dispatch_tail js q o job_id object true true)
      | intros w [Hsite _]; exact Hsite
      | intros ? w H; exact H
      | intros ? w (Hsite & Hrow & _); split; [exact Hsite |];
        exists object; rewrite <- Hpko; auto ]. }
  intros ?. apply triple_ret.
  intros w (Hk & Hj & Ho & Hpublished & Hrow).
  split; [exact Hk |]. split; [exact Hj |]. split; [exact Ho |].
  exists object. split; [exact Hpko |]. split; [exact HPo |].
  split; [reflexivity |]. rewrite <- Hpko. split; [exact Hpublished |].
  exact Hrow.
Qed.

(** A scoring dispatch, in the same terms: when it returns, one task has
    been published and the row is the object with ['score'] set to the job
    in its execution key, SUBMITTED if no prediction came before and the
    status was not final; when it raises, nothing has been published and
    the row still has [P0]. *)
Lemma score_dispatch (js : gmap Z Job) (q : list Published)
  (o : list Service) (P0 : CompetitionSubmission -> Prop)
  (submission : CompetitionSubmission) (job_id : Z) :
  P0 submission ->
  (forall fs row, P0 row -> P0 (with_files fs row)) ->
  (forall k row, P0 row -> P0 (with_execution_key k row)) ->
  let predicted :=
    bool_decide (is_Some (execution_key submission !! "predict")) in
  triple (fun w => site_is js q o w /\ row_has (pk submission) P0 w)
    (score submission job_id)
    (fun _ w =>
       keyed_by_pk w /\ jobs w = js /\ outages w = o
       /\ exists object,
            pk object = pk submission /\ P0 object
            /\ execution_key object
               = <[ "score" := job_id ]> (execution_key submission)
            /\ (exists published,
                  compute_worker_queue w = append q published
                  /\ envelope_id (data published) = job_id
                  /\ ta_predict (task_args (data published)) = false
                  /\ ta_secret (task_args (data published)) = secret object
                  /\ ta_submission_id (task_args (data published))
                     = pk submission
                  /\ connection_vhost published
                     = (vhost <$> queue (competition (phase object))))
            /\ submissions w !! pk submission
               = Some (if negb predicted
                          && negb (in_FINAL_STATES (status object))
                       then with_status SUBMITTED object
                       else object))
    (fun _ w => site_is js q o w /\ row_has (pk submission) P0 w).
Proof.
  intros HP Hfiles Hkey predicted. unfold score. fold predicted.
  pose (P1 := fun row => P0 row
                         /\ execution_key row
                            = <[ "score" := job_id ]> (execution_key submission)).
  assert (Hfiles1 : forall fs row, P1 row -> P1 (with_files fs row)).
  { intros fs row [H0 H1]. split; [now apply Hfiles | exact H1]. }
  assert (Hweak1 : forall row, P1 row -> P0 row) by (intros row [H0 _]; exact H0).
  eapply triple_bind;
    [ apply (FieldFile_save_row js q o (pk submission) P0 P0); auto
    | intros s1; apply triple_assume; intros [Hpk1 HP1] ].
  gets_step.
  eapply triple_bind;
    [ apply (FieldFile_save_row js q o (pk submission) P0 P0); auto
    | intros s2; apply triple_assume; intros [Hpk2 HP2] ].
  gets_step.
  eapply triple_bind;
    [ apply (FieldFile_save_row js q o (pk submission) P0 P0); auto
    | intros s3; apply triple_assume; intros [Hpk3 HP3] ].
  eapply triple_bind
    with (R := fun _ w => site_is js q o w /\ row_has (pk submission) P0 w).
  { destruct (PyStr.nonempty _); [now apply triple_ret | now apply triple_raise]. }
  intros lines.
  eapply triple_bind
    with (R := fun _ w => site_is js q o w /\ row_has (pk submission) P0 w).
  { destruct (auto_migration _); [apply triple_gets | now apply triple_ret]. }
  intros automatic.
  eapply triple_bind;
    [ apply (FieldFile_save_row js q o (pk submission) P0 P0); auto
    | intros s4; apply triple_assume; intros [Hpk4 HP4] ].
  eapply triple_bind
    with (R := fun _ w => site_is js q o w /\ row_has (pk submission) P0 w).
  { destruct (PyStr.nonempty _); [now apply triple_ret | now apply triple_raise]. }
  intros lines'.
  eapply triple_bind;
    [ apply (FieldFile_save_row js q o (pk submission) P0 P0); auto
    | intros s5; apply triple_assume; intros [Hpk5 HP5] ].
  eapply triple_bind
    with (R := fun produced w =>
                 (site_is js q o w /\ row_has (pk submission) P0 w)
                 /\ (pk produced = pk submission /\ P0 produced)).
  { destruct (negb predicted).
    - eapply triple_bind;
        [ apply (FieldFile_save_row js q o (pk submission) P0 P0); auto
        | intros s6; apply triple_assume; intros [Hpk6 HP6] ].
      apply (FieldFile_save_row js q o (pk submission) P0 P0); auto.
    - apply triple_ret. auto. }
  intros produced. apply triple_assume. intros [Hpkp HPp].
  set (keyed := with_execution_key _ produced).
  assert (HP1k : P1 keyed) by (subst keyed; split; [now apply Hkey | reflexivity]).
  eapply triple_bind;
    [ apply (FieldFile_save_row js q o (pk submission) P0 P1); auto
    | intros s7; apply triple_assume; intros [Hpk7 HP7] ].
  eapply triple_bind;
    [ apply (FieldFile_save_row js q o (pk submission) P0 P1); auto
    | intros s8; apply triple_assume; intros [Hpk8 HP8] ].
  eapply triple_bind;
    [ apply (FieldFile_save_row js q o (pk submission) P0 P1); auto
    | intros s9; apply triple_assume; intros [Hpk9 [HP9 Hkey9]] ].
  eapply triple_ext; [intros w; apply bind3_assoc |].
  eapply triple_bind.
  { eapply triple_weaken;
      [ apply (dispatch_tail js q o job_id s9 false (negb predicted))
      | intros w [Hsite _]; exact Hsite
      | intros ? w H; exact H
      | intros ? w (Hsite & Hrow & _); split; [exact Hsite |];
        exists s9; rewrite <- Hpk9; auto ]. }
  intros ?.
  eapply triple_bind.
  { apply logger_triple. intros w records H. exact H. }
  intros ?. apply triple_ret.
  intros w (Hk & Hj & Ho & Hpublished & Hrow).
  split; [exact Hk |]. split; [exact Hj |]. split; [exact Ho |].
  exists s9. split; [exact Hpk9 |]. split; [exact HP9 |].
  split; [exact Hkey9 |]. rewrite <- Hpk9. split; [exact Hpublished |].
  exact Hrow.
Qed.

(** The row that a dispatch finds and the properties it keeps. *)
Lemma stored_row_has (w : World) (submission : CompetitionSubmission) :
  submissions w !! pk submission = Some submission ->
  row_has (pk submission)
    (fun row => status row = status submission
                /\ secret row = secret submission
                /\ phase row = phase submission) w.
Proof. intros H. exists submission. auto. Qed.

(** X5 — A prediction dispatch publishes once. When [predict] returns for
    a stored submission, exactly one task has been added to the queue of
    the compute workers: it carries the job, the flag of a prediction, the
    secret and the key of the submission, on the virtual host of the
    competition's queue if it has one; and the guarded update to SUBMITTED
    has been made. When [predict] raises, nothing has been published and
    the stored status is the one it found. *)
Theorem predict_publishes_once (w : World)
  (submission : CompetitionSubmission) (job_id : Z) :
  keyed_by_pk w ->
  submissions w !! pk submission = Some submission ->
  let w' := exec (predict submission job_id) w in
  (forall dispatched,
     eval (predict submission job_id) w = Return dispatched ->
     (exists published,
        compute_worker_queue w' = append (compute_worker_queue w) published
        /\ envelope_id (data published) = job_id
        /\ ta_predict (task_args (data published)) = true
        /\ ta_secret (task_args (data published)) = secret submission
        /\ ta_submission_id (task_args (data published)) = pk submission
        /\ connection_vhost published
           = (vhost <$> queue (competition (phase submission))))
     /\ status_of w' (pk submission)
        = Some (latch (status submission) SUBMITTED))
  /\ (forall e,
        eval (predict submission job_id) w = Raise e ->
        compute_worker_queue w' = compute_worker_queue w
        /\ status_of w' (pk submission) = Some (status submission)).
Proof.
  intros Hk Hrow w'.
  pose proof (predict_dispatch (jobs w) (compute_worker_queue w) (outages w)
                (fun row => status row = status submission
                            /\ secret row = secret submission
                            /\ phase row = phase submission)
                submission job_id) as H.
  specialize (H (conj eq_refl (conj eq_refl eq_refl))
                (fun _ _ Hrow => Hrow) (fun _ _ Hrow => Hrow) w).
  specialize (H (conj (conj Hk (conj eq_refl (conj eq_refl eq_refl)))
                      (stored_row_has w submission Hrow))).
  subst w'. unfold eval, exec.
  destruct (predict submission job_id w) as [[dispatched|e] w1]; simpl.
  - split; [| intros e He; discriminate].
    intros _ _.
    destruct H as (_ & _ & _ & object & Hpk & (Hst & Hsec & Hph)
                   & _ & Hpublished & Hstored).
    rewrite Hsec, Hph in Hpublished. split; [exact Hpublished |].
    unfold status_of, latch. rewrite Hstored. rewrite <- Hst.
    now destruct (in_FINAL_STATES (status object)).
  - split; [intros d Hd; discriminate |].
    intros _ _.
    destruct H as ((_ & _ & Hq & _) & row & Hstored & Hst & _).
    split; [exact Hq |]. unfold status_of. rewrite Hstored. simpl.
    now rewrite Hst.
Qed.

(** X6 — A finished prediction enters the scoring step. On an authentic
    'finished' callback for a submission whose execution key holds no
    ['score'], when the scoring dispatch returns: the callback reports a
    running job; the stored execution key is the former one with ['score']
    set to the job of the callback; exactly one task has been published,
    for that job, with the flag of a scoring step and the secret of the
    submission; and the status is the one the submission had when a
    prediction came before, the latch to SUBMITTED otherwise. *)
Theorem finished_prediction_enters_scoring (w w0 : World) (job_id : Z)
  (args : CallbackArgs) (job : Job) (submission : CompetitionSubmission)
  (dispatched : CompetitionSubmission) :
  keyed_by_pk w ->
  jobs w !! job_id = Some job ->
  task_type job = "evaluate_submission" ->
  submissions w !! task_args_submission_id job = Some submission ->
  args_status args = "finished" ->
  execution_key submission !! "score" = None ->
  attach_extra_metadata submission (e ← extra args; extra_metadata e) w
  = (Return tt, w0) ->
  eval (score submission job_id) w0 = Return dispatched ->
  let settled := update_submission job_id args (secret submission) w in
  fst settled = Some {| job_status := Some Job_RUNNING |}
  /\ stored_execution_key (snd settled) (pk submission)
     = Some (<[ "score" := job_id ]> (execution_key submission))
  /\ (exists published,
        compute_worker_queue (snd settled)
        = append (compute_worker_queue w) published
        /\ envelope_id (data published) = job_id
        /\ ta_predict (task_args (data published)) = false
        /\ ta_secret (task_args (data published)) = secret submission)
  /\ status_of (snd settled) (pk submission)
     = Some (if bool_decide (is_Some (execution_key submission !! "predict"))
             then status submission
             else latch (status submission) SUBMITTED).
Proof.
  intros Hk Hjob Htype Hsub Hfinished Hkey Hattach Hscore settled.
  subst settled.
  rewrite (update_submission_authentic w job_id args job submission
             Hjob Htype Hsub).
  unfold _update_submission. rewrite (bind_Return _ _ _ _ _ Hattach).
  rewrite Hfinished.
  change ("finished" =? "running")%string with false.
  change ("finished" =? "finished")%string with true. cbv iota.
  rewrite bool_decide_eq_false_2 by (rewrite Hkey; apply is_Some_None).
  destruct (attach_extra_metadata_world _ _ _ _ _ Hattach) as [mrows ->].
  pose proof (Hk _ _ Hsub) as Hpk.
  assert (Hrow : submissions (with_metadata mrows w) !! pk submission
                 = Some submission) by (simpl; now rewrite Hpk).
  pose proof (score_dispatch (jobs w) (compute_worker_queue w) (outages w)
                (fun row => status row = status submission
                            /\ secret row = secret submission
                            /\ phase row = phase submission)
                submission job_id) as H.
  specialize (H (conj eq_refl (conj eq_refl eq_refl))
                (fun _ _ Hrow => Hrow) (fun _ _ Hrow => Hrow)
                (with_metadata mrows w)).
  specialize (H (conj (conj Hk (conj eq_refl (conj eq_refl eq_refl)))
                      (stored_row_has _ submission Hrow))).
  unfold eval in Hscore. unfold enter_scoring, try_except.
  destruct (score submission job_id (with_metadata mrows w))
    as [[d|e] w1] eqn:Hrun; [| discriminate].
  rewrite (bind_Return _ _ _ _ _ Hrun). unfold ret, settle. simpl.
  destruct H as (_ & _ & _ & object & Hpko & (Hst & Hsec & _)
                 & Hkeyo & (published & Hq & Hid & Hflag & Hsecret & _)
                 & Hstored).
  split; [reflexivity |]. split.
  { unfold stored_execution_key. rewrite Hstored. simpl. rewrite <- Hkeyo.
    now destruct (_ && _). }
  split.
  { exists published. rewrite Hsecret, Hsec. auto. }
  unfold status_of, latch. rewrite Hstored. simpl. rewrite <- Hst.
  destruct (bool_decide (is_Some (execution_key submission !! "predict")));
    simpl; [reflexivity |].
  now destruct (in_FINAL_STATES (status object)).
Qed.

(** ** Evaluating a submission *)

(** The callback that a failed dispatch or a timed out run sends, once
    processed: the guarded update to FAILED. *)
Lemma failed_args_callback (w : World) (job_id : Z) (job : Job)
  (row : CompetitionSubmission) :
  keyed_by_pk w ->
  jobs w !! job_id = Some job ->
  task_type job = "evaluate_submission" ->
  submissions w !! task_args_submission_id job = Some row ->
  let settled := update_submission job_id failed_args (secret row) w in
  fst settled = Some {| job_status := None |}
  /\ status_of (snd settled) (pk row) = Some (latch (status row) FAILED).
Proof.
  intros Hk Hjob Htype Hrow settled. subst settled.
  rewrite (update_submission_authentic w job_id failed_args job row
             Hjob Htype Hrow).
  pose proof (Hk _ _ Hrow) as Hpk.
  destruct (other_status_run w w row "failed" job_id None None)
    as (w' & Hrun & _ & Hrow' & _); auto.
  { now rewrite Hpk. }
  change (_update_submission row (args_status failed_args) job_id
            (e ← extra failed_args; traceback e)
            (e ← extra failed_args; extra_metadata e) w)
    with (_update_submission row "failed" job_id None None w).
  rewrite Hrun. unfold settle. simpl.
  split; [reflexivity |].
  unfold status_of, latch. rewrite Hrow'.
  now destruct (in_FINAL_STATES (status row)).
Qed.

Lemma send_update_up (job_id : Z) (args : CallbackArgs) (secret' : string)
  (w : World) :
  is_up Broker w = true ->
  send_update job_id args secret' w
  = (Return {| callback_job_id := job_id; callback_args := args;
               callback_secret := secret' |}, w).
Proof. intros Hup. unfold send_update, bind, calling. now rewrite Hup. Qed.

(** The step [evaluate_submission] chooses. *)
Lemma evaluate_submission_run (w : World) (submission_id : Z)
  (is_scoring_only : bool) (submission : CompetitionSubmission) :
  submissions w !! submission_id = Some submission ->
  let job_id := new_job_pk w in
  let w1 := exec (create_job "evaluate_submission" submission_id) w in
  let step := if negb is_scoring_only then predict submission job_id
              else score submission job_id in
  evaluate_submission submission_id is_scoring_only w
  = match step w1 with
    | (Return _, w2) => (Return [], w2)
    | (Raise _, w2) =>
        (logger EXCEPTION
           "evaluate_submission dispatch failed (job_id=%s, submission_id=%s)"
           [ArgInt job_id; ArgInt submission_id] ;;
         let* sent := send_update job_id failed_args (secret submission) in
         ret [sent]) w2
    end.
Proof.
  intros Hrow job_id w1 step.
  unfold evaluate_submission. unfold bind at 1, create_job.
  fold job_id. unfold bind at 1, CompetitionSubmission_get.
  change (submissions (with_jobs _ w)) with (submissions w). rewrite Hrow.
  unfold try_except, except_Exception. fold step.
  change (with_jobs _ w) with w1.
  unfold bind at 1. destruct (step w1) as [[d|e] w2]; reflexivity.
Qed.

(** X7 — A dispatch that fails still ends in FAILED. When the step that
    [evaluate_submission] dispatches raises, and the broker is reachable,
    the task returns having sent exactly one callback: 'failed', for the
    job it created, with the secret of the submission; the status of the
    submission is still the one it had; and [update_submission] on that
    callback makes the guarded update to FAILED. *)
Theorem failed_dispatch_reaches_failed (w : World) (submission_id : Z)
  (is_scoring_only : bool) (submission : CompetitionSubmission) (e : Exn) :
  keyed_by_pk w ->
  submissions w !! submission_id = Some submission ->
  is_up Broker w = true ->
  let job_id := new_job_pk w in
  let w1 := exec (create_job "evaluate_submission" submission_id) w in
  eval (if negb is_scoring_only then predict submission job_id
        else score submission job_id) w1 = Raise e ->
  let sent := {| callback_job_id := job_id; callback_args := failed_args;
                 callback_secret := secret submission |} in
  let w2 := exec (evaluate_submission submission_id is_scoring_only) w in
  eval (evaluate_submission submission_id is_scoring_only) w = Return [sent]
  /\ compute_worker_queue w2 = compute_worker_queue w
  /\ status_of w2 submission_id = Some (status submission)
  /\ status_of
       (snd (update_submission (callback_job_id sent) (callback_args sent)
               (callback_secret sent) w2)) submission_id
     = Some (latch (status submission) FAILED).
Proof.
  intros Hk Hrow Hup job_id w1 Hraise sent w2.
  pose proof (Hk _ _ Hrow) as Hpk. cbv beta in Hpk.
  set (P0 := fun row : CompetitionSubmission =>
               status row = status submission
               /\ secret row = secret submission
               /\ phase row = phase submission).
  assert (Hpre : site_is (jobs w1) (compute_worker_queue w) (outages w) w1
                 /\ row_has (pk submission) P0 w1).
  { split; [subst w1; now repeat split |].
    exists submission. subst w1. simpl. rewrite Hpk. now repeat split. }
  assert (Hstep :
            match (if negb is_scoring_only then predict submission job_id
                   else score submission job_id) w1 with
            | (Return _, _) => True
            | (Raise _, w') =>
                site_is (jobs w1) (compute_worker_queue w) (outages w) w'
                /\ row_has (pk submission) P0 w'
            end).
  { destruct (negb is_scoring_only).
    - pose proof (predict_dispatch (jobs w1) (compute_worker_queue w)
                    (outages w) P0 submission job_id
                    (conj eq_refl (conj eq_refl eq_refl))
                    (fun _ _ H => H) (fun _ _ H => H) w1 Hpre) as H.
      destruct (predict submission job_id w1) as [[d|e'] w']; [exact Logic.I | exact H].
    - pose proof (score_dispatch (jobs w1) (compute_worker_queue w)
                    (outages w) P0 submission job_id
                    (conj eq_refl (conj eq_refl eq_refl))
                    (fun _ _ H => H) (fun _ _ H => H) w1 Hpre) as H.
      destruct (score submission job_id w1) as [[d|e'] w']; [exact Logic.I | exact H]. }
  assert (Hmain : exists w'' row,
             evaluate_submission submission_id is_scoring_only w
             = (Return [sent], w'')
             /\ keyed_by_pk w'' /\ jobs w'' = jobs w1
             /\ compute_worker_queue w'' = compute_worker_queue w
             /\ submissions w'' !! submission_id = Some row
             /\ status row = status submission
             /\ secret row = secret submission).
  { rewrite (evaluate_submission_run w submission_id is_scoring_only
               submission Hrow).
    fold job_id w1. unfold eval in Hraise.
    destruct ((if negb is_scoring_only then predict submission job_id
               else score submission job_id) w1) as [[d|e'] w'];
      [discriminate |].
    destruct Hstep as [(Hk' & Hj' & Hq' & Ho') (row & Hrow' & Hst & Hsec & _)].
    match goal with
    | |- context [(logger ?l ?f ?a ;; _) ?w0] =>
        rewrite (bind_Return (logger l f a) _ w0 (exec (logger l f a) w0) tt
                   eq_refl);
        cbv beta;
        assert (Hup'' : is_up Broker (exec (logger l f a) w0) = true)
          by (unfold is_up in *; simpl; now rewrite Ho')
    end.
    rewrite (bind_Return _ _ _ _ _ (send_update_up _ _ _ _ Hup'')).
    unfold ret. eexists _, row. split; [reflexivity |].
    rewrite Hpk in Hrow'. simpl. auto 10. }
  destruct Hmain as (w'' & row & Hrun & Hk'' & Hj'' & Hq'' & Hrow'' & Hst & Hsec).
  subst w2. unfold eval, exec. rewrite Hrun. simpl fst. simpl snd.
  split; [reflexivity |]. split; [exact Hq'' |].
  split; [unfold status_of; rewrite Hrow''; simpl; now rewrite Hst |].
  subst sent. simpl callback_job_id. simpl callback_args.
  simpl callback_secret. rewrite <- Hsec.
  destruct (failed_args_callback w'' job_id
              {| task_type := "evaluate_submission";
                 task_args_submission_id := submission_id |} row)
    as [_ Hfailed].
  - exact Hk''.
  - rewrite Hj''. subst w1. simpl. apply lookup_insert_eq.
  - reflexivity.
  - exact Hrow''.
  - rewrite <- (Hk'' _ _ Hrow''), Hfailed. now rewrite Hst.
Qed.

(** X8 — An evaluation that dispatches. When the step that
    [evaluate_submission] dispatches returns, the task returns without
    sending a callback; the job it created is in the job table, of type
    'evaluate_submission' and for this submission; one task has been
    published for that job, a prediction unless only scoring was asked
    for, with the secret of the submission; and the stored execution key
    is [{'predict': job}] after a prediction dispatch, the former key with
    ['score'] set to the job after a scoring one. *)
Theorem evaluation_dispatches (w : World) (submission_id : Z)
  (is_scoring_only : bool) (submission dispatched : CompetitionSubmission) :
  keyed_by_pk w ->
  submissions w !! submission_id = Some submission ->
  let job_id := new_job_pk w in
  let w1 := exec (create_job "evaluate_submission" submission_id) w in
  eval (if negb is_scoring_only then predict submission job_id
        else score submission job_id) w1 = Return dispatched ->
  let w2 := exec (evaluate_submission submission_id is_scoring_only) w in
  eval (evaluate_submission submission_id is_scoring_only) w = Return []
  /\ jobs w2 !! job_id
     = Some {| task_type := "evaluate_submission";
               task_args_submission_id := submission_id |}
  /\ (exists published,
        compute_worker_queue w2 = append (compute_worker_queue w) published
        /\ envelope_id (data published) = job_id
        /\ ta_predict (task_args (data published)) = negb is_scoring_only
        /\ ta_secret (task_args (data published)) = secret submission)
  /\ stored_execution_key w2 submission_id
     = Some (if is_scoring_only
             then <[ "score" := job_id ]> (execution_key submission)
             else {[ "predict" := job_id ]}).
Proof.
  intros Hk Hrow job_id w1 Hreturn w2.
  pose proof (Hk _ _ Hrow) as Hpk. cbv beta in Hpk.
  set (P0 := fun row : CompetitionSubmission =>
               status row = status submission
               /\ secret row = secret submission
               /\ phase row = phase submission).
  assert (Hpre : site_is (jobs w1) (compute_worker_queue w) (outages w) w1
                 /\ row_has (pk submission) P0 w1).
  { split; [subst w1; now repeat split |].
    exists submission. subst w1. simpl. rewrite Hpk. now repeat split. }
  subst w2. unfold eval, exec.
  rewrite (evaluate_submission_run w submission_id is_scoring_only submission
             Hrow).
  fold job_id w1. unfold eval in Hreturn.
  destruct is_scoring_only.
  - pose proof (score_dispatch (jobs w1) (compute_worker_queue w)
                  (outages w) P0 submission job_id
                  (conj eq_refl (conj eq_refl eq_refl))
                  (fun _ _ H => H) (fun _ _ H => H) w1 Hpre) as H.
    change (if negb true then predict submission job_id
            else score submission job_id)
      with (score submission job_id) in *.
    destruct (score submission job_id w1) as [[d|e'] w'];
      [| simpl in Hreturn; discriminate Hreturn].
    destruct H as (_ & Hj & _ & object & Hpko & (_ & Hsec & _) & Hkeyo
                   & (published & Hq & Hid & Hflag & Hsecret & _) & Hstored).
    simpl. split; [reflexivity |].
    split; [rewrite Hj; subst w1; simpl; apply lookup_insert_eq |].
    split; [exists published; rewrite Hsecret, Hsec; auto |].
    unfold stored_execution_key. rewrite <- Hpk, Hstored. simpl.
    rewrite <- Hkeyo. now destruct (_ && _).
  - pose proof (predict_dispatch (jobs w1) (compute_worker_queue w)
                  (outages w) P0 submission job_id
                  (conj eq_refl (conj eq_refl eq_refl))
                  (fun _ _ H => H) (fun _ _ H => H) w1 Hpre) as H.
    change (if negb false then predict submission job_id
            else score submission job_id)
      with (predict submission job_id) in *.
    destruct (predict submission job_id w1) as [[d|e'] w'];
      [| simpl in Hreturn; discriminate Hreturn].
    destruct H as (_ & Hj & _ & object & Hpko & (_ & Hsec & _) & Hkeyo
                   & (published & Hq & Hid & Hflag & Hsecret & _) & Hstored).
    simpl. split; [reflexivity |].
    split; [rewrite Hj; subst w1; simpl; apply lookup_insert_eq |].
    split; [exists published; rewrite Hsecret, Hsec; auto |].
    unfold stored_execution_key. rewrite <- Hpk, Hstored. simpl.
    rewrite <- Hkeyo. now destruct (negb _).
Qed.

(** X9 — A run over its soft time limit ends in FAILED. When the run of a
    published task exceeds the soft time limit, the worker task returns
    having sent exactly one callback, 'failed', for the job and with the
    secret of the envelope; for an envelope that carries the secret of the
    submission of its job, [update_submission] on that callback makes the
    guarded update to FAILED. A run that completes sends nothing from
    here, and any other exception of the run goes up. *)
Theorem soft_time_limit_reaches_failed (w : World) (d : Envelope) (job : Job)
  (row : CompetitionSubmission) :
  keyed_by_pk w ->
  jobs w !! envelope_id d = Some job ->
  task_type job = "evaluate_submission" ->
  submissions w !! task_args_submission_id job = Some row ->
  ta_secret (task_args d) = secret row ->
  is_up Broker w = true ->
  let sent := {| callback_job_id := envelope_id d;
                 callback_args := failed_args;
                 callback_secret := ta_secret (task_args d) |} in
  (run (envelope_id d) (task_args d) = SoftTimeLimitExceeded ->
   compute_worker_run d w = (Return [sent], w)
   /\ status_of
        (snd (update_submission (callback_job_id sent) (callback_args sent)
                (callback_secret sent) w)) (pk row)
      = Some (latch (status row) FAILED))
  /\ (run (envelope_id d) (task_args d) = Completed ->
      compute_worker_run d w = (Return [], w))
  /\ (forall e, run (envelope_id d) (task_args d) = Crashed e ->
                compute_worker_run d w = (Raise e, w)).
Proof.
  intros Hk Hjob Htype Hrow Hsecret Hup sent.
  unfold compute_worker_run. split; [| split].
  - intros ->. split.
    + rewrite (bind_Return _ _ _ _ _ (send_update_up _ _ _ w Hup)).
      reflexivity.
    + subst sent. simpl. rewrite Hsecret.
      now destruct (failed_args_callback w (envelope_id d) job row
                      Hk Hjob Htype Hrow).
  - intros ->. reflexivity.
  - intros e ->. reflexivity.
Qed.

(** ** Running a phase again *)

Lemma without_duplicates_plain (seen : list string)
  (rows : list CompetitionSubmission) :
  USE_AWS = false ->
  let kept := without_duplicates seen rows in
  NoDup ((fun row => name_of row file) <$> kept)
  /\ sublist kept rows
  /\ (forall row, row ∈ kept -> name_of row file ∉ seen)
  /\ (forall row, row ∈ rows ->
        name_of row file ∈ seen
        \/ exists first, first ∈ kept
                         /\ name_of first file = name_of row file).
Proof.
  intros Haws. revert seen.
  induction rows as [| submission rest IH]; intros seen; simpl.
  - split; [constructor |]. split; [constructor |].
    split; intros row Hin; now apply elem_of_nil in Hin.
  - rewrite Haws. destruct (bool_decide_reflect (name_of submission file ∈ seen))
      as [Hseen | Hnew].
    + destruct (IH seen) as (Hnodup & Hsub & Hfresh & Hall).
      split; [exact Hnodup |]. split; [now apply sublist_cons |].
      split; [exact Hfresh |].
      intros row Hin. apply elem_of_cons in Hin as [-> | Hin];
        [now left | now apply Hall].
    + destruct (IH (append seen (name_of submission file)))
        as (Hnodup & Hsub & Hfresh & Hall).
      unfold append in *.
      split.
      { rewrite fmap_cons. apply NoDup_cons. split; [| exact Hnodup].
        intros Hin. apply list_elem_of_fmap in Hin as (other & Hname & Hin).
        apply (Hfresh other Hin). rewrite <- Hname.
        apply elem_of_app. right. now apply list_elem_of_singleton. }
      split; [now apply sublist_skip |].
      split.
      { intros row Hin. apply elem_of_cons in Hin as [-> | Hin];
          [exact Hnew |].
        intros Hs. apply (Hfresh row Hin). apply elem_of_app. now left. }
      intros row Hin. apply elem_of_cons in Hin as [-> | Hin].
      { right. exists submission. split; [apply list_elem_of_here | reflexivity]. }
      destruct (Hall row Hin) as [Hs | (first & Hfirst & Hname)].
      * apply elem_of_app in Hs as [Hs | Hs]; [now left |].
        apply list_elem_of_singleton in Hs.
        right. exists submission. split; [apply list_elem_of_here | now symmetry].
      * right. exists first. split; [now apply list_elem_of_further | exact Hname].
Qed.

(** X10 — Running a phase again, files kept on the site. Without AWS, the
    submissions that [re_run_all_submissions_in_phase] keeps are some of
    those of the phase, in their order; no two of them have the same file
    name; and every submission of the phase has the file name of one that
    is kept. *)
Theorem rerun_keeps_one_submission_per_file
  (submissions_with_duplicates : list CompetitionSubmission) :
  USE_AWS = false ->
  let kept := submissions_without_duplicates submissions_with_duplicates in
  sublist kept submissions_with_duplicates
  /\ NoDup ((fun submission => name_of submission file) <$> kept)
  /\ (forall submission,
        submission ∈ submissions_with_duplicates ->
        exists first, first ∈ kept
                      /\ name_of first file = name_of submission file).
Proof.
  intros Haws kept.
  destruct (without_duplicates_plain [] submissions_with_duplicates Haws)
    as (Hnodup & Hsub & _ & Hall).
  split; [exact Hsub |]. split; [exact Hnodup |].
  intros submission Hin.
  destruct (Hall submission Hin) as [Hseen | Hfirst]; [| exact Hfirst].
  now apply elem_of_nil in Hseen.
Qed.

Lemma without_duplicates_aws (seen : list string)
  (rows : list CompetitionSubmission) :
  USE_AWS = true ->
  (forall row, row ∈ rows -> name_of row file ∉ seen) ->
  (forall a b, a ∈ rows -> b ∈ rows -> s3_file a <> name_of b file) ->
  without_duplicates seen rows = rows.
Proof.
  intros Haws. revert seen.
  induction rows as [| submission rest IH]; intros seen Hseen Hapart; simpl;
    [reflexivity |].
  rewrite Haws.
  rewrite bool_decide_eq_false_2 by (apply Hseen, list_elem_of_here).
  f_equal. apply IH.
  - intros row Hin Hs. unfold append in Hs.
    apply elem_of_app in Hs as [Hs | Hs].
    + now apply (Hseen row (list_elem_of_further _ _ _ Hin)).
    + apply list_elem_of_singleton in Hs.
      apply (Hapart submission row);
        [apply list_elem_of_here | now apply list_elem_of_further | now symmetry].
  - intros a b Ha Hb. apply Hapart; now apply list_elem_of_further.
Qed.

(** X11 — Running a phase again, files kept on AWS. With AWS, what is
    marked as seen is [s3_file] while what is looked up is [file.name]:
    when no [s3_file] of the phase is the [file.name] of a submission of
    the phase, every submission is kept, those with the same file too. *)
Theorem rerun_on_aws_keeps_every_submission
  (submissions_with_duplicates : list CompetitionSubmission) :
  USE_AWS = true ->
  (forall a b,
     a ∈ submissions_with_duplicates -> b ∈ submissions_with_duplicates ->
     s3_file a <> name_of b file) ->
  submissions_without_duplicates submissions_with_duplicates
  = submissions_with_duplicates.
Proof.
  intros Haws Hapart. apply without_duplicates_aws; [exact Haws | | exact Hapart].
  intros row _ Hin. now apply elem_of_nil in Hin.
Qed.

(** ** The lines of scores.txt *)

Lemma split_nonempty (sep : ascii) (s : string) : PyStr.split sep s <> [].
Proof.
  destruct s as [| c rest]; simpl; [discriminate |].
  destruct (Ascii.eqb c sep); [discriminate |].
  destruct (PyStr.split sep rest); discriminate.
Qed.

Lemma split_trailing_separator (sep : ascii) (s : string) :
  PyStr.split sep (s ++ String sep EmptyString)
  = (PyStr.split sep s ++ [EmptyString])%list.
Proof.
  induction s as [| c rest IH]; simpl.
  - now rewrite Ascii.eqb_refl.
  - destruct (Ascii.eqb c sep); [now rewrite IH |].
    rewrite IH. pose proof (split_nonempty sep rest) as Hne.
    now destruct (PyStr.split sep rest).
Qed.

Lemma for_each_nonempty_lines (submission : CompetitionSubmission)
  (lines : list string) (w : World) :
  for_each (record_score submission) lines w
  = for_each (record_score submission)
      (List.filter PyStr.nonempty lines) w.
Proof.
  revert w. induction lines as [| line rest IH]; intros w; [reflexivity |].
  change (for_each (record_score submission) (line :: rest))
    with (bind (record_score submission line)
            (fun _ => for_each (record_score submission) rest)).
  simpl List.filter. destruct (PyStr.nonempty line) eqn:Hline.
  - change (for_each (record_score submission)
              (line :: List.filter PyStr.nonempty rest))
      with (bind (record_score submission line)
              (fun _ => for_each (record_score submission)
                          (List.filter PyStr.nonempty rest))).
    unfold bind.
    destruct (record_score submission line w) as [[[]|e] w']; [apply IH | reflexivity].
  - unfold bind, record_score. rewrite Hline. simpl. apply IH.
Qed.

(** X12 — Empty lines of scores.txt. The scores are read from the lines
    that are not empty, in their order: empty lines in between make no
    difference, and a text that ends with a line feed is processed as the
    text without it. *)
Theorem empty_score_lines_are_skipped (submission : CompetitionSubmission)
  (scores : string) (w : World) :
  process_scores submission scores w
  = for_each (record_score submission)
      (List.filter PyStr.nonempty (PyStr.split PyStr.newline scores)) w
  /\ process_scores submission (scores ++ PyStr.nl) w
     = process_scores submission scores w.
Proof.
  unfold process_scores. split; [apply for_each_nonempty_lines |].
  rewrite (for_each_nonempty_lines submission
             (PyStr.split PyStr.newline (scores ++ PyStr.nl))).
  rewrite (for_each_nonempty_lines submission
             (PyStr.split PyStr.newline scores)).
  unfold PyStr.nl. rewrite split_trailing_separator.
  rewrite List.filter_app. simpl. now rewrite app_nil_r.
Qed.

End Tasks.

(** ** Signed addresses *)

Section SignedAccessFacts.

Import SignedAccess.











End SignedAccessFacts.

(** ** The tasks at work on the small competition *)

Local Abbreviation callback :=
  (update_submission Fixture.USE_AWS Fixture.DOCKER_DEFAULT_WORKER_IMAGE
     Fixture.DEFAULT_FROM_EMAIL Fixture.site_domain Fixture._make_url_sassy
     Fixture.upload_to Fixture.get_results_csv Fixture.coopetition_zip
     Fixture.float Fixture.get_default_score_def Fixture.get_default_score).

Local Abbreviation predict_task :=
  (predict Fixture.USE_AWS Fixture.DOCKER_DEFAULT_WORKER_IMAGE
     Fixture._make_url_sassy Fixture.upload_to).

Local Abbreviation score_task :=
  (score Fixture.USE_AWS Fixture.DOCKER_DEFAULT_WORKER_IMAGE
     Fixture._make_url_sassy Fixture.upload_to Fixture.get_results_csv
     Fixture.coopetition_zip).

Lemma a_world_keyed_by_pk order best scores_txt down :
  keyed_by_pk (Fixture.a_world order best scores_txt down).
Proof.
  unfold keyed_by_pk, Fixture.a_world. cbn [submissions].
  apply map_Forall_insert_2; [reflexivity |].
  apply map_Forall_singleton. reflexivity.
Defined.

Lemma a_world_of_keyed_by_pk submission down :
  keyed_by_pk (Fixture.a_world_of submission down).
Proof.
  unfold keyed_by_pk, Fixture.a_world_of. cbn [submissions].
  apply map_Forall_singleton. reflexivity.
Defined.

(** The latch at work: the running submission 2 takes FINISHED, the
    finished submission 1 refuses RUNNING. *)
Lemma terminal_latch_witness :
  let w := Fixture.a_world "asc" 3 None [] in
  status_of (exec (_set_submission_status 2 FINISHED) w) 2 = Some FINISHED
  /\ status_of (exec (_set_submission_status 1 RUNNING) w) 1 = Some FINISHED.
Proof.
  intros w. split.
  - destruct (terminal_latch w 2
                (Fixture.a_submission 2 Fixture.alice RUNNING {[ "score" := 20 ]})
                FINISHED (a_world_keyed_by_pk _ _ _ _) eq_refl)
      as (_ & _ & Hopen).
    apply Hopen. intros [H | [H | H]]; discriminate.
  - destruct (terminal_latch w 1
                (Fixture.a_submission 1 Fixture.bob FINISHED {[ "score" := 10 ]})
                RUNNING (a_world_keyed_by_pk _ _ _ _) eq_refl)
      as (_ & Hfinal & _).
    apply Hfinal. left. reflexivity.
Defined.

(** A dispatch of a phase whose time limit is 0: the budget is 600. *)
Lemma soft_time_limit_witness :
  let w := Fixture.a_world "asc" 3 None [] in
  let submission :=
    Fixture.a_submission 2 Fixture.alice RUNNING {[ "score" := 20 ]} in
  exists published,
    compute_worker_queue
      (exec (_prepare_compute_worker_run Fixture.DOCKER_DEFAULT_WORKER_IMAGE
               Fixture._make_url_sassy 20 submission false) w)
    = [published]
    /\ soft_time_limit published = Some 600.
Proof.
  intros w submission.
  destruct (soft_time_limit_of_dispatch Fixture.DOCKER_DEFAULT_WORKER_IMAGE
              Fixture._make_url_sassy 20 submission false w eq_refl)
    as (published & _ & Hqueue & _ & _ & Hzero & _).
  exists published. split; [exact Hqueue |].
  apply (Hzero 0); [reflexivity | lia].
Defined.

(** A callback with a wrong secret: submission 2 stays RUNNING. *)
Lemma secret_mismatch_witness :
  let w := Fixture.a_world "asc" 3 (Some "accuracy: 4.0") [] in
  status_of (snd (callback 20 Fixture.finished "guess" w)) 2 = Some RUNNING.
Proof.
  intros w.
  destruct (secret_mismatch_keeps_status
              Fixture.USE_AWS Fixture.DOCKER_DEFAULT_WORKER_IMAGE
              Fixture.DEFAULT_FROM_EMAIL Fixture.site_domain
              Fixture._make_url_sassy Fixture.upload_to Fixture.get_results_csv
              Fixture.coopetition_zip Fixture.float
              Fixture.get_default_score_def Fixture.get_default_score
              w 20 Fixture.finished "guess"
              {| task_type := "evaluate_submission";
                 task_args_submission_id := 2 |}
              (Fixture.a_submission 2 Fixture.alice RUNNING {[ "score" := 20 ]})
              eq_refl eq_refl) as [_ Hstatus].
  - discriminate.
  - rewrite Hstatus. reflexivity.
Defined.

(** A submission without files: neither step publishes a task. *)
Lemma missing_reference_witness :
  let w := Fixture.a_world_of Fixture.a_bare_submission [] in
  predict_task Fixture.a_bare_submission 20 w
  = (Raise (ValueError "Program is missing."), w)
  /\ compute_worker_queue (exec (score_task Fixture.a_bare_submission 20) w) = [].
Proof.
  intros w.
  destruct (missing_reference_stops_dispatch
              Fixture.USE_AWS Fixture.DOCKER_DEFAULT_WORKER_IMAGE
              Fixture._make_url_sassy Fixture.upload_to Fixture.get_results_csv
              Fixture.coopetition_zip Fixture.a_bare_submission 20 w)
    as (Hpredict & Hscore & _).
  split.
  - apply Hpredict. reflexivity.
  - destruct (Hscore eq_refl) as (e & _ & Hqueue & _). exact Hqueue.
Defined.



(** The broker is down when the prediction of submission 3 has finished:
    the scoring dispatch raises, the callback reports a failed job, and the
    submission stays RUNNING. *)
Lemma failed_scoring_dispatch_witness :
  let w := Fixture.a_world_of Fixture.a_predicted_submission [Broker] in
  let settled := callback 20 Fixture.finished "s3cr3t" w in
  fst settled = Some {| job_status := Some Job_FAILED |}
  /\ status_of (snd settled) 3 = Some RUNNING.
Proof.
  intros w settled.
  destruct (failed_scoring_dispatch_keeps_status
              Fixture.USE_AWS Fixture.DOCKER_DEFAULT_WORKER_IMAGE
              Fixture.DEFAULT_FROM_EMAIL Fixture.site_domain
              Fixture._make_url_sassy Fixture.upload_to Fixture.get_results_csv
              Fixture.coopetition_zip Fixture.float
              Fixture.get_default_score_def Fixture.get_default_score
              w w 20 Fixture.finished
              {| task_type := "evaluate_submission";
                 task_args_submission_id := 3 |}
              Fixture.a_predicted_submission ConnectionError
              (a_world_of_keyed_by_pk _ _) eq_refl eq_refl eq_refl eq_refl
              eq_refl eq_refl) as (Hreported & Hstatus & _).
  - vm_compute. reflexivity.
  - split; [exact Hreported | exact Hstatus].
Defined.

(** The mail server is down when the scoring of submission 2 has finished:
    the mail raises after the update to FINISHED, the callback reports a
    failed job, and the submission is FINISHED. *)
Lemma finished_survives_witness :
  let w := Fixture.a_world "asc" 3 (Some "accuracy: 4.0") [Mailer] in
  let settled := callback 20 Fixture.finished "s3cr3t" w in
  fst settled = Some {| job_status := Some Job_FAILED |}
  /\ status_of (snd settled) 2 = Some FINISHED.
Proof.
  intros w settled.
  pose (submission :=
          Fixture.a_submission 2 Fixture.alice RUNNING {[ "score" := 20 ]}).
  destruct (finished_survives_promotion_failure
              Fixture.USE_AWS Fixture.DOCKER_DEFAULT_WORKER_IMAGE
              Fixture.DEFAULT_FROM_EMAIL Fixture.site_domain
              Fixture._make_url_sassy Fixture.upload_to Fixture.get_results_csv
              Fixture.coopetition_zip Fixture.float
              Fixture.get_default_score_def Fixture.get_default_score
              w w (exec (process_scores Fixture.float submission "accuracy: 4.0") w)
              20 Fixture.finished
              {| task_type := "evaluate_submission";
                 task_args_submission_id := 2 |}
              submission "accuracy: 4.0" SMTPException
              (a_world_keyed_by_pk _ _ _ _) eq_refl eq_refl eq_refl eq_refl
              (ex_intro _ 20 eq_refl) eq_refl)
    as (_ & _ & Hopen & Hreported & Hstatus).
  - vm_compute. reflexivity.
  - vm_compute. reflexivity.
  - vm_compute. reflexivity.
  - split; [exact Hreported |].
    etransitivity; [exact Hstatus |]. apply Hopen. reflexivity.
Defined.


(** An archive without scores.txt: submission 2 is FAILED. *)
Lemma malformed_scores_witness :
  let w := Fixture.a_world "asc" 3 None [] in
  let settled := callback 20 Fixture.finished "s3cr3t" w in
  fst settled = Some {| job_status := Some Job_FAILED |}
  /\ status_of (snd settled) 2 = Some FAILED.
Proof.
  intros w settled.
  pose (submission :=
          Fixture.a_submission 2 Fixture.alice RUNNING {[ "score" := 20 ]}).
  destruct (malformed_scores
              Fixture.USE_AWS Fixture.DOCKER_DEFAULT_WORKER_IMAGE
              Fixture.DEFAULT_FROM_EMAIL Fixture.site_domain
              Fixture._make_url_sassy Fixture.upload_to Fixture.get_results_csv
              Fixture.coopetition_zip Fixture.float
              Fixture.get_default_score_def Fixture.get_default_score
              w w 20 Fixture.finished
              {| task_type := "evaluate_submission";
                 task_args_submission_id := 2 |}
              submission
              (a_world_keyed_by_pk _ _ _ _) eq_refl eq_refl eq_refl eq_refl
              (ex_intro _ 20 eq_refl) eq_refl)
    as (Hmissing & _ & _).
  apply Hmissing. vm_compute. reflexivity.
Defined.

(** C5, against the claim as stated — A scores.txt that is present but
    holds a line without a colon, or a value that is no number under the
    known label accuracy, does not let the submission reach FINISHED: the
    callback reports a failed job and submission 2 is FAILED. *)
Lemma unparseable_line_is_fatal :
  let no_colon := Fixture.a_world "asc" 3 (Some "garbage") [] in
  let no_number := Fixture.a_world "asc" 3 (Some "accuracy: high") [] in
  status_of no_colon 2 = Some RUNNING
  /\ callback 20 Fixture.finished "s3cr3t" no_colon
       = (Some {| job_status := Some Job_FAILED |},
          snd (callback 20 Fixture.finished "s3cr3t" no_colon))
  /\ status_of (snd (callback 20 Fixture.finished "s3cr3t" no_colon)) 2
     = Some FAILED
  /\ status_of (snd (callback 20 Fixture.finished "s3cr3t" no_number)) 2
     = Some FAILED.
Proof.
  intros no_colon no_number.
  split; [reflexivity |]. split; [vm_compute; reflexivity |].
  split; vm_compute; reflexivity.
Qed.

(** C1, on the code — The best-submission promotion promotes a worse
    score. In a phase that forces the best submission to the leaderboard,
    with the default score definition sorted 'asc' (1 beats 3) and the
    score 3 recorded for submission 1, the finished submission 2 with the
    score 4 is added to the leaderboard; and sorted 'desc' (3 beats 1),
    with the score 5 recorded, submission 2 with the score 4 is added as
    well. *)
Theorem best_only_promotes_a_worse_score :
  let ascending := Fixture.a_world "asc" 3 (Some "accuracy: 4.0") [] in
  let descending := Fixture.a_world "desc" 5 (Some "accuracy: 4.0") [] in
  force_best_submission_to_leaderboard Fixture.a_phase = true
  /\ bool_decide (2 ∈ leaderboard ascending) = false
  /\ bool_decide
       (2 ∈ leaderboard (snd (callback 20 Fixture.finished "s3cr3t" ascending)))
     = true
  /\ bool_decide (2 ∈ leaderboard descending) = false
  /\ bool_decide
       (2 ∈ leaderboard (snd (callback 20 Fixture.finished "s3cr3t" descending)))
     = true.
Proof.
  intros ascending descending.
  split; [reflexivity |]. split; [vm_compute; reflexivity |].
  split; [vm_compute; reflexivity |].
  split; vm_compute; reflexivity.
Qed.

(** ** More of the tasks at work *)

Local Abbreviation evaluate_task :=
  (evaluate_submission Fixture.USE_AWS Fixture.DOCKER_DEFAULT_WORKER_IMAGE
     Fixture._make_url_sassy Fixture.upload_to Fixture.get_results_csv
     Fixture.coopetition_zip Fixture.new_job_pk).

(** Four updates of the running submission 2 in a row: the first final
    state it reaches, FINISHED, is the one it keeps. *)
Lemma guarded_updates_witness :
  let w := Fixture.a_world "asc" 3 None [] in
  status_of
    (exec (for_each (_set_submission_status 2)
             [SUBMITTED; FINISHED; RUNNING; FAILED]) w) 2
  = Some FINISHED.
Proof.
  intros w.
  destruct (guarded_updates_compose [SUBMITTED; FINISHED; RUNNING; FAILED] w 2
              (Fixture.a_submission 2 Fixture.alice RUNNING {[ "score" := 20 ]})
              (a_world_keyed_by_pk _ _ _ _) eq_refl)
    as (_ & Hstatus & _).
  rewrite Hstatus. reflexivity.
Defined.

(** A 'running' callback for job 20: a running job is reported and
    submission 2 is RUNNING. *)
Lemma running_callback_witness :
  let w := Fixture.a_world "asc" 3 None [] in
  let settled := callback 20 Fixture.running "s3cr3t" w in
  fst settled = Some {| job_status := Some Job_RUNNING |}
  /\ status_of (snd settled) 2 = Some RUNNING.
Proof.
  intros w settled.
  destruct (running_callback
              Fixture.USE_AWS Fixture.DOCKER_DEFAULT_WORKER_IMAGE
              Fixture.DEFAULT_FROM_EMAIL Fixture.site_domain
              Fixture._make_url_sassy Fixture.upload_to Fixture.get_results_csv
              Fixture.coopetition_zip Fixture.float
              Fixture.get_default_score_def Fixture.get_default_score
              w w 20 Fixture.running
              {| task_type := "evaluate_submission";
                 task_args_submission_id := 2 |}
              (Fixture.a_submission 2 Fixture.alice RUNNING {[ "score" := 20 ]})
              (a_world_keyed_by_pk _ _ _ _) eq_refl eq_refl eq_refl eq_refl
              eq_refl)
    as (Hreported & Hstatus & _).
  split; [exact Hreported | exact Hstatus].
Defined.

(** A 'failed' callback with a traceback for job 20: a job without status
    is reported, submission 2 is FAILED and holds the traceback. *)
Lemma failed_callback_witness :
  let w := Fixture.a_world "asc" 3 None [] in
  let args :=
    {| args_status := "failed";
       extra := Some {| traceback := Some "Traceback (most recent call last)";
                        extra_metadata := None |} |} in
  let settled := callback 20 args "s3cr3t" w in
  fst settled = Some {| job_status := None |}
  /\ status_of (snd settled) 2 = Some FAILED
  /\ (exception_details <$> submissions (snd settled) !! 2)
     = Some "Traceback (most recent call last)".
Proof.
  intros w args settled.
  destruct (failed_callback
              Fixture.USE_AWS Fixture.DOCKER_DEFAULT_WORKER_IMAGE
              Fixture.DEFAULT_FROM_EMAIL Fixture.site_domain
              Fixture._make_url_sassy Fixture.upload_to Fixture.get_results_csv
              Fixture.coopetition_zip Fixture.float
              Fixture.get_default_score_def Fixture.get_default_score
              w w 20 args
              {| task_type := "evaluate_submission";
                 task_args_submission_id := 2 |}
              (Fixture.a_submission 2 Fixture.alice RUNNING {[ "score" := 20 ]})
              (a_world_keyed_by_pk _ _ _ _) eq_refl eq_refl eq_refl)
    as (Hreported & Hstatus & Hdetails & _).
  - discriminate.
  - discriminate.
  - reflexivity.
  - split; [exact Hreported |]. split; [exact Hstatus |].
    apply Hdetails; reflexivity.
Defined.

(** A callback that names job 7, a job of another task: a failed job is
    reported and submission 2 is still RUNNING, with the right secret
    too. *)
Lemma foreign_job_witness :
  let w :=
    with_jobs {[ 7 := {| task_type := "create_competition";
                         task_args_submission_id := 2 |} ]}
      (Fixture.a_world "asc" 3 (Some "accuracy: 4.0") []) in
  let settled := callback 7 Fixture.finished "s3cr3t" w in
  fst settled = Some {| job_status := Some Job_FAILED |}
  /\ status_of (snd settled) 2 = Some RUNNING.
Proof.
  intros w settled.
  destruct (foreign_job_changes_nothing
              Fixture.USE_AWS Fixture.DOCKER_DEFAULT_WORKER_IMAGE
              Fixture.DEFAULT_FROM_EMAIL Fixture.site_domain
              Fixture._make_url_sassy Fixture.upload_to Fixture.get_results_csv
              Fixture.coopetition_zip Fixture.float
              Fixture.get_default_score_def Fixture.get_default_score
              w 7 Fixture.finished "s3cr3t"
              {| task_type := "create_competition";
                 task_args_submission_id := 2 |}
              eq_refl)
    as (Hreported & Hsubmissions & _).
  - discriminate.
  - split; [exact Hreported |].
    unfold status_of. subst settled. rewrite Hsubmissions. reflexivity.
Defined.

(** The prediction dispatch of submission 3 as job 7: one task, for a
    prediction, is in the queue, and the submission is SUBMITTED. *)
Lemma predict_publishes_witness :
  let submission := Fixture.a_submission 3 Fixture.alice RUNNING ∅ in
  let w := Fixture.a_world_of submission [] in
  let w' := exec (predict_task submission 7) w in
  (exists published,
     compute_worker_queue w' = [published]
     /\ envelope_id (data published) = 7
     /\ ta_predict (task_args (data published)) = true)
  /\ status_of w' 3 = Some SUBMITTED.
Proof.
  intros submission w w'.
  destruct (predict_publishes_once
              Fixture.USE_AWS Fixture.DOCKER_DEFAULT_WORKER_IMAGE
              Fixture._make_url_sassy Fixture.upload_to w submission 7
              (a_world_of_keyed_by_pk _ _) eq_refl) as [Hreturn _].
  destruct (eval (predict_task submission 7) w) as [dispatched|e] eqn:Hrun.
  - destruct (Hreturn dispatched eq_refl)
      as ((published & Hqueue & Hid & Hflag & _) & Hstatus).
    split; [exists published; auto | exact Hstatus].
  - vm_compute in Hrun. discriminate.
Defined.

(** The prediction of submission 3 has finished as job 20: the callback
    reports a running job, the execution key holds 'predict' and 'score',
    one scoring task is in the queue, and the submission is RUNNING. *)
Lemma finished_prediction_witness :
  let w := Fixture.a_world_of Fixture.a_predicted_submission [] in
  let settled := callback 20 Fixture.finished "s3cr3t" w in
  fst settled = Some {| job_status := Some Job_RUNNING |}
  /\ stored_execution_key (snd settled) 3
     = Some {[ "predict" := 20; "score" := 20 ]}
  /\ (exists published,
        compute_worker_queue (snd settled) = [published]
        /\ ta_predict (task_args (data published)) = false)
  /\ status_of (snd settled) 3 = Some RUNNING.
Proof.
  intros w settled.
  destruct (eval (score_task Fixture.a_predicted_submission 20) w)
    as [dispatched|e] eqn:Hrun; [| vm_compute in Hrun; discriminate].
  destruct (finished_prediction_enters_scoring
              Fixture.USE_AWS Fixture.DOCKER_DEFAULT_WORKER_IMAGE
              Fixture.DEFAULT_FROM_EMAIL Fixture.site_domain
              Fixture._make_url_sassy Fixture.upload_to Fixture.get_results_csv
              Fixture.coopetition_zip Fixture.float
              Fixture.get_default_score_def Fixture.get_default_score
              w w 20 Fixture.finished
              {| task_type := "evaluate_submission";
                 task_args_submission_id := 3 |}
              Fixture.a_predicted_submission dispatched
              (a_world_of_keyed_by_pk _ _) eq_refl eq_refl eq_refl eq_refl
              eq_refl eq_refl Hrun)
    as (Hreported & Hkey & (published & Hqueue & _ & Hflag & _) & Hstatus).
  split; [exact Hreported |].
  split; [etransitivity; [exact Hkey |]; vm_compute; reflexivity |].
  split; [exists published; auto |].
  exact Hstatus.
Defined.

(** The evaluation of a submission without files: the prediction dispatch
    raises, one 'failed' callback is sent for the new job 21, and that
    callback makes the submission FAILED. *)
Lemma failed_dispatch_witness :
  let w := Fixture.a_world_of Fixture.a_bare_submission [] in
  let sent := {| callback_job_id := 21; callback_args := failed_args;
                 callback_secret := "s3cr3t" |} in
  eval (evaluate_task 3 false) w = Return [sent]
  /\ status_of (exec (evaluate_task 3 false) w) 3 = Some SUBMITTED
  /\ status_of
       (snd (callback 21 failed_args "s3cr3t" (exec (evaluate_task 3 false) w)))
       3
     = Some FAILED.
Proof.
  intros w sent.
  destruct (failed_dispatch_reaches_failed
              Fixture.USE_AWS Fixture.DOCKER_DEFAULT_WORKER_IMAGE
              Fixture.DEFAULT_FROM_EMAIL Fixture.site_domain
              Fixture._make_url_sassy Fixture.upload_to Fixture.get_results_csv
              Fixture.coopetition_zip Fixture.float
              Fixture.get_default_score_def Fixture.get_default_score
              Fixture.new_job_pk
              w 3 false Fixture.a_bare_submission
              (ValueError "Program is missing.")
              (a_world_of_keyed_by_pk _ _) eq_refl eq_refl)
    as (Hsent & _ & Hkept & Hfailed).
  - vm_compute. reflexivity.
  - split; [exact Hsent |]. split; [exact Hkept | exact Hfailed].
Defined.

(** The evaluation of submission 3: no callback is sent, the new job 21 is
    in the table, one prediction task is in the queue and the execution
    key is [{'predict': 21}]. *)
Lemma evaluation_dispatches_witness :
  let submission := Fixture.a_submission 3 Fixture.alice SUBMITTED ∅ in
  let w := Fixture.a_world_of submission [] in
  let w2 := exec (evaluate_task 3 false) w in
  eval (evaluate_task 3 false) w = Return []
  /\ jobs w2 !! 21 = Some {| task_type := "evaluate_submission";
                            task_args_submission_id := 3 |}
  /\ (exists published,
        compute_worker_queue w2 = [published]
        /\ envelope_id (data published) = 21
        /\ ta_predict (task_args (data published)) = true)
  /\ stored_execution_key w2 3 = Some {[ "predict" := 21 ]}.
Proof.
  intros submission w w2.
  destruct (eval (predict_task submission 21)
              (exec (create_job Fixture.new_job_pk "evaluate_submission" 3) w))
    as [dispatched|e] eqn:Hrun; [| vm_compute in Hrun; discriminate].
  destruct (evaluation_dispatches
              Fixture.USE_AWS Fixture.DOCKER_DEFAULT_WORKER_IMAGE
              Fixture._make_url_sassy Fixture.upload_to Fixture.get_results_csv
              Fixture.coopetition_zip Fixture.new_job_pk
              w 3 false submission dispatched
              (a_world_of_keyed_by_pk _ _) eq_refl Hrun)
    as (Hsent & Hjob & (published & Hqueue & Hid & Hflag & _) & Hkey).
  split; [exact Hsent |]. split; [exact Hjob |].
  split; [exists published; auto | exact Hkey].
Defined.

(** The run of job 20 goes over its time: the worker sends one 'failed'
    callback, and that callback makes submission 2 FAILED. *)
Lemma soft_time_limit_reaches_failed_witness :
  let w := Fixture.a_world "asc" 3 None [] in
  let sent := {| callback_job_id := 20; callback_args := failed_args;
                 callback_secret := "s3cr3t" |} in
  compute_worker_run (fun _ _ => SoftTimeLimitExceeded) Fixture.an_envelope w
  = (Return [sent], w)
  /\ status_of (snd (callback 20 failed_args "s3cr3t" w)) 2 = Some FAILED.
Proof.
  intros w sent.
  destruct (soft_time_limit_reaches_failed
              Fixture.USE_AWS Fixture.DOCKER_DEFAULT_WORKER_IMAGE
              Fixture.DEFAULT_FROM_EMAIL Fixture.site_domain
              Fixture._make_url_sassy Fixture.upload_to Fixture.get_results_csv
              Fixture.coopetition_zip Fixture.float
              Fixture.get_default_score_def Fixture.get_default_score
              (fun _ _ => SoftTimeLimitExceeded)
              w Fixture.an_envelope
              {| task_type := "evaluate_submission";
                 task_args_submission_id := 2 |}
              (Fixture.a_submission 2 Fixture.alice RUNNING {[ "score" := 20 ]})
              (a_world_keyed_by_pk _ _ _ _) eq_refl eq_refl eq_refl eq_refl
              eq_refl)
    as (Htimeout & _).
  exact (Htimeout eq_refl).
Defined.

(** Three submissions, the second with the file of the first: the first
    and the third are kept. *)
Lemma rerun_keeps_one_witness :
  let kept :=
    submissions_without_duplicates false Fixture.a_phase_of_submissions in
  sublist kept Fixture.a_phase_of_submissions
  /\ NoDup ((fun submission => name_of submission file) <$> kept)
  /\ pk <$> kept = [1; 3].
Proof.
  intros kept.
  destruct (rerun_keeps_one_submission_per_file false
              Fixture.a_phase_of_submissions eq_refl)
    as (Hsublist & Hnodup & _).
  split; [exact Hsublist |]. split; [exact Hnodup |].
  vm_compute. reflexivity.
Defined.

(** The same three submissions on AWS, where [s3_file] is empty: all
    three are kept, the second too. *)
Lemma rerun_on_aws_witness :
  submissions_without_duplicates true Fixture.a_phase_of_submissions
  = Fixture.a_phase_of_submissions.
Proof.
  apply (rerun_on_aws_keeps_every_submission true
           Fixture.a_phase_of_submissions eq_refl).
  intros a b Ha Hb.
  apply list_elem_of_In in Ha, Hb.
  destruct Ha as [<- | [<- | [<- | []]]];
    destruct Hb as [<- | [<- | [<- | []]]]; vm_compute; discriminate.
Defined.

